(** * Weekly Meal Plan: the subscription functions and the billing webhook

    A shallow embedding of the Netlify functions of the repository
    ([create-subscription.js] in its variants and [stripe-webhook.js]) over a
    model of the billing platform they call, and the properties of the
    promotional-pricing state machine, of catalog reconciliation and of the
    error paths. *)

From Stdlib Require Import ZArith Lia Ascii String DecimalString DecimalPos.
From stdpp Require Import base option list strings gmap fin_maps.

Local Open Scope string_scope.
Local Open Scope Z_scope.
Local Set Warnings "-register-all".

(** ** JavaScript numbers and strings, as far as the handlers use them *)

(** A JavaScript number that came out of [parseInt]: [NaN] or an integer.
    The integers of the model are those of [Z]; they are the doubles of the
    code on the safe integers, and the properties that read, add or print
    a counter carry that bound. *)
Inductive number : Type :=
  | NaN
  | Num (z : Z).

Definition MAX_SAFE_INTEGER : Z := 9007199254740991.

(** [Number.isSafeInteger]: the integers that [parseInt] reads and
    [toString] prints digit for digit, and whose successor is exact. *)
Definition safe_integer (z : Z) : Prop :=
  - MAX_SAFE_INTEGER <= z <= MAX_SAFE_INTEGER.

(** White space skipped by [parseInt] (the ASCII part of it). *)
Definition is_white (a : ascii) : bool :=
  let n := N_of_ascii a in
  (n =? 32)%N || (n =? 9)%N || (n =? 10)%N || (n =? 11)%N || (n =? 12)%N
  || (n =? 13)%N.

Fixpoint skip_white (s : string) : string :=
  match s with
  | String a s' => if is_white a then skip_white s' else s
  | EmptyString => s
  end.

(** Value of a digit character in the given radix (10 or 16). *)
Definition digit_value (radix : Z) (a : ascii) : option Z :=
  let n := Z.of_N (N_of_ascii a) in
  let v :=
    if (48 <=? n) && (n <=? 57) then Some (n - 48)
    else if (97 <=? n) && (n <=? 122) then Some (n - 87)
    else if (65 <=? n) && (n <=? 90) then Some (n - 55)
    else None in
  match v with
  | Some d => if d <? radix then Some d else None
  | None => None
  end.

(** The longest prefix of digits, read most significant digit first; [acc] is
    [None] until a digit has been seen. *)
Fixpoint parse_digits (radix : Z) (s : string) (acc : option Z) : option Z :=
  match s with
  | String a s' =>
      match digit_value radix a with
      | Some d => parse_digits radix s' (Some (radix * default 0 acc + d))
      | None => acc
      end
  | EmptyString => acc
  end.

(** [parseInt(s)] without a radix argument: white space, sign, an optional
    [0x] prefix that selects radix 16, then digits; [NaN] without a digit.
    A reading [Num z] is the code's when [z] is a safe integer, a reading
    [NaN] when the text is an [ascii_text]. *)
Definition parseInt (s : string) : number :=
  let s0 := skip_white s in
  let '(neg, s1) :=
    match s0 with
    | String "-" r => (true, r)
    | String "+" r => (false, r)
    | _ => (false, s0)
    end in
  let '(radix, s2) :=
    match s1 with
    | String "0" (String "x" r) => (16, r)
    | String "0" (String "X" r) => (16, r)
    | _ => (10, s1)
    end in
  match parse_digits radix s2 None with
  | Some n => Num (if neg then - n else n)
  | None => NaN
  end.

(** A text of ASCII characters only. The white space [parseInt] skips in
    such a text is exactly [is_white], so that a reading of [NaN] is the
    code's. *)
Definition ascii_text (s : string) : bool :=
  forallb (fun a => (N_of_ascii a <? 128)%N) (list_ascii_of_string s).

(** [parseInt(undefined)] reads the text "undefined": no digit, [NaN]. *)
Definition parseInt_opt (o : option string) : number :=
  match o with
  | Some s => parseInt s
  | None => NaN
  end.

(** [n.toString()]: the decimal digits, which are the code's for a safe
    integer. *)
Definition toString (n : number) : string :=
  match n with
  | NaN => "NaN"
  | Num z => NilZero.string_of_int (Z.to_int z)
  end.

(** The value of a decimal numeral read after the digits that gave [acc]. *)
Fixpoint uint_value (d : Decimal.uint) (acc : Z) : Z :=
  match d with
  | Decimal.Nil => acc
  | Decimal.D0 d' => uint_value d' (10 * acc + 0)
  | Decimal.D1 d' => uint_value d' (10 * acc + 1)
  | Decimal.D2 d' => uint_value d' (10 * acc + 2)
  | Decimal.D3 d' => uint_value d' (10 * acc + 3)
  | Decimal.D4 d' => uint_value d' (10 * acc + 4)
  | Decimal.D5 d' => uint_value d' (10 * acc + 5)
  | Decimal.D6 d' => uint_value d' (10 * acc + 6)
  | Decimal.D7 d' => uint_value d' (10 * acc + 7)
  | Decimal.D8 d' => uint_value d' (10 * acc + 8)
  | Decimal.D9 d' => uint_value d' (10 * acc + 9)
  end.

(** [n + 1], exact while [n] is a safe integer. *)
Definition succ_number (n : number) : number :=
  match n with
  | NaN => NaN
  | Num z => Num (z + 1)
  end.

(** [n || d]: [NaN] and [0] are falsy. *)
Definition number_or (n : number) (d : Z) : number :=
  match n with
  | NaN => Num d
  | Num z => if z =? 0 then Num d else Num z
  end.

(** [a >= b]: false as soon as one side is [NaN]. *)
Definition number_ge (a b : number) : bool :=
  match a, b with
  | Num x, Num y => y <=? x
  | _, _ => false
  end.

(** ** JSON values, as [JSON.parse] returns them (numbers: the whole ones) *)

Inductive json : Type :=
  | JNull
  | JBool (b : bool)
  | JNum (z : Z)
  | JStr (s : string)
  | JArr (elems : list json)
  | JObj (fields : list (string * json)).

(** A JavaScript value read from a property: [None] is [undefined]. *)
Definition truthy (v : option json) : bool :=
  match v with
  | None | Some JNull => false
  | Some (JBool b) => b
  | Some (JNum z) => negb (z =? 0)
  | Some (JStr s) => negb (String.eqb s "")
  | Some (JArr _) | Some (JObj _) => true
  end.

Fixpoint assoc (k : string) (l : list (string * json)) : option json :=
  match l with
  | [] => None
  | (k', v) :: l' => if String.eqb k k' then Some v else assoc k l'
  end.

(** [v.k] on a value that is neither [null] nor [undefined]: an own property
    of an object, [undefined] on anything else (none of the names the
    handlers read exists on a string, a number or an array). *)
Definition own_prop (v : json) (k : string) : option json :=
  match v with
  | JObj fields => assoc k fields
  | _ => None
  end.

(** A scalar passed to the platform SDK is sent as its text. *)
Definition to_param (v : json) : string :=
  match v with
  | JStr s => s
  | JNum z => toString (Num z)
  | JBool true => "true"
  | JBool false => "false"
  | JNull | JArr _ | JObj _ => ""
  end.

(** ** The billing platform's objects *)

Record Customer : Type := {
  cus_id : string;
  cus_email : string;
  cus_name : string;
  cus_default_payment_method : option string }.

Record Product : Type := {
  prod_id : string;
  prod_name : string;
  prod_description : option string;
  prod_metadata : gmap string string }.

(** [recurring] is absent on a one-off price. *)
Record Price : Type := {
  price_id : string;
  price_product : string;
  unit_amount : Z;
  currency : string;
  recurring_interval : option string }.

(** Inline price terms, the [price_data] of a subscription item. *)
Record PriceData : Type := {
  pd_currency : string;
  pd_product_name : string;
  pd_product_description : option string;
  pd_unit_amount : Z;
  pd_interval : string }.

(** What a subscription item is billed at: a price of the catalog, or inline
    terms (the price object the platform makes of inline terms is kept with
    the item, not in the catalog lists). *)
Inductive ItemPrice : Type :=
  | PriceRef (id : string)
  | PriceInline (pd : PriceData).

Record Item : Type := {
  item_id : string;
  item_price : ItemPrice }.

Record Coupon : Type := {
  coupon_id : string;
  percent_off : Z;
  duration : string;
  duration_in_months : Z;
  coupon_name : string }.

Record Subscription : Type := {
  sub_id : string;
  sub_customer : string;
  sub_items : list Item;
  sub_metadata : gmap string string;
  sub_discounts : list string;
  sub_status : string;
  sub_client_secret : string }.

(** Parameters of [subscriptions.create]. *)
Record SubscriptionParams : Type := {
  sp_customer : string;
  sp_items : list ItemPrice;
  sp_payment_behavior : string;
  sp_metadata : gmap string string;
  sp_discounts : list string }.

(** Parameters of [subscriptions.update]: items to re-price by item id, and
    metadata keys to set ([Some]) or to unset ([None], JavaScript's [null]). *)
Record SubscriptionUpdate : Type := {
  su_items : list (string * PriceData);
  su_metadata : gmap string (option string) }.

(** The calls of the platform SDK the functions issue. *)
Inductive Call : Type :=
  | CustomersList (email : string) (limit : nat)
  | CustomersCreate (email name payment_method : string)
  | CustomersUpdate (id default_payment_method : string)
  | PaymentMethodsAttach (payment_method customer : string)
  | ProductsList (limit : nat)
  | ProductsCreate (name : string) (description : option string)
      (metadata : gmap string string)
  | PricesList (product : string) (limit : nat)
  | PricesCreate (product : string) (amount : Z) (cur interval : string)
  | CouponsRetrieve (id : string)
  | CouponsCreate (c : Coupon)
  | SubscriptionsCreate (p : SubscriptionParams)
  | SubscriptionsRetrieve (id : string)
  | SubscriptionsUpdate (id : string) (u : SubscriptionUpdate).

(** The state of the platform. Lists are kept newest first, the order in
    which the platform lists objects. [calls] records every call issued,
    oldest first, whether it succeeded or not. *)
Record World : Type := {
  customers : list Customer;
  attached : gmap string string;
  products : list Product;
  prices : list Price;
  coupons : gmap string Coupon;
  subscriptions : gmap string Subscription;
  next_id : N;
  calls : list Call }.

Definition empty_world : World :=
  {| customers := []; attached := ∅; products := []; prices := [];
     coupons := ∅; subscriptions := ∅; next_id := 0%N; calls := [] |}.

(** What lies outside the functions: the JSON parser, the signature check of
    the SDK (payload, header, secret) and the calls the platform rejects for
    reasons of its own (network, permissions, card errors), given the calls
    issued so far. *)
Class Runtime : Type := {
  JSON_parse : string → option json;
  verifyHeader : string → string → string → bool;
  rejects : list Call → Call → option string }.

(** ** Computations that call the platform and may throw *)

Inductive outcome (A : Type) : Type :=
  | Returned (a : A)
  | Thrown (message : string).
Arguments Returned {A} a.
Arguments Thrown {A} message.

Definition M (A : Type) : Type := World → outcome A * World.

Definition ret {A} (a : A) : M A := fun w => (Returned a, w).

Definition throw {A} (message : string) : M A := fun w => (Thrown message, w).

Definition bind {A B} (m : M A) (k : A → M B) : M B :=
  fun w =>
    match m w with
    | (Returned a, w') => k a w'
    | (Thrown e, w') => (Thrown e, w')
    end.

(** [try { m } catch (error) { h(error.message) }] *)
Definition try_catch {A} (m : M A) (h : string → M A) : M A :=
  fun w =>
    match m w with
    | (Returned a, w') => (Returned a, w')
    | (Thrown e, w') => h e w'
    end.

Notation "'let*' x ':=' m 'in' k" := (bind m (fun x => k))
  (at level 10, x pattern, m at level 100, k at level 200).
Notation "m ';;' k" := (bind m (fun _ => k))
  (at level 100, k at level 200, right associativity).

Definition log_call (c : Call) (w : World) : World :=
  {| customers := customers w; attached := attached w;
     products := products w; prices := prices w; coupons := coupons w;
     subscriptions := subscriptions w; next_id := next_id w;
     calls := calls w ++ [c] |}.

Definition fresh (pre : string) (w : World) : string :=
  pre +:+ NilZero.string_of_uint (N.to_uint (next_id w)).

(** Key by key, the platform merges a metadata update into the stored
    metadata: a text value is stored, [null] or the empty text removes the
    key, and keys that the update does not name are kept. *)
Definition merge_key (old : option string) (upd : option (option string))
  : option string :=
  match upd with
  | Some (Some v) => if String.eqb v "" then None else Some v
  | Some None => None
  | None => old
  end.

Definition merge_metadata (old : gmap string string)
    (upd : gmap string (option string)) : gmap string string :=
  merge merge_key old upd.

(** [{...metadata}]: every stored key, as a value to set. *)
Definition spread (metadata : gmap string string)
  : gmap string (option string) :=
  Some <$> metadata.

Definition reprice (items : list Item) (u : string * PriceData) : list Item :=
  map (fun it =>
         if String.eqb (item_id it) (fst u)
         then {| item_id := item_id it; item_price := PriceInline (snd u) |}
         else it) items.

Definition has_item (items : list Item) (id : string) : bool :=
  existsb (fun it => String.eqb (item_id it) id) items.

Definition has_customer (w : World) (id : string) : bool :=
  existsb (fun c => String.eqb (cus_id c) id) (customers w).

Definition has_product (w : World) (id : string) : bool :=
  existsb (fun p => String.eqb (prod_id p) id) (products w).

Definition has_price (w : World) (p : ItemPrice) : bool :=
  match p with
  | PriceRef id => existsb (fun q => String.eqb (price_id q) id) (prices w)
  | PriceInline _ => true
  end.

(** A payment method can be given to a customer when it belongs to nobody or
    to that customer already. *)
Definition attachable (w : World) (pm customer : string) : bool :=
  match attached w !! pm with
  | Some owner => String.eqb owner customer
  | None => true
  end.

Definition set_default (id pm : string) (c : Customer) : Customer :=
  if String.eqb (cus_id c) id
  then {| cus_id := cus_id c; cus_email := cus_email c; cus_name := cus_name c;
          cus_default_payment_method := Some pm |}
  else c.

Definition new_items (w : World) (ps : list ItemPrice) : list Item :=
  imap (fun i p =>
          {| item_id := fresh "si_" w +:+ "_"
                        +:+ NilZero.string_of_uint (Nat.to_uint i);
             item_price := p |}) ps.

(** The prices the platform lists for a product, newest first. *)
Definition prices_of (product : string) (w : World) : list Price :=
  List.filter (fun p => String.eqb (price_product p) product) (prices w).

Section Platform.
Context `{Runtime}.

(** A call is recorded, then refused by the platform or carried out. *)
Definition api {A} (c : Call) (run : M A) : M A :=
  fun w =>
    match rejects (calls w) c with
    | Some message => (Thrown message, log_call c w)
    | None => run (log_call c w)
    end.

Definition customers_list (email : string) (limit : nat) : M (list Customer) :=
  api (CustomersList email limit) (fun w =>
    (Returned (take limit
                 (List.filter (fun c => String.eqb (cus_email c) email)
                    (customers w))), w)).

Definition customers_create (email name pm : string) : M Customer :=
  api (CustomersCreate email name pm) (fun w =>
    if attachable w pm (fresh "cus_" w) then
      let c := {| cus_id := fresh "cus_" w; cus_email := email;
                  cus_name := name;
                  cus_default_payment_method := Some pm |} in
      (Returned c,
       {| customers := c :: customers w;
          attached := <[pm := cus_id c]> (attached w);
          products := products w; prices := prices w; coupons := coupons w;
          subscriptions := subscriptions w;
          next_id := N.succ (next_id w); calls := calls w |})
    else (Thrown "This PaymentMethod was previously used", w)).

Definition paymentMethods_attach (pm customer : string) : M unit :=
  api (PaymentMethodsAttach pm customer) (fun w =>
    if has_customer w customer && attachable w pm customer then
      (Returned tt,
       {| customers := customers w;
          attached := <[pm := customer]> (attached w);
          products := products w; prices := prices w; coupons := coupons w;
          subscriptions := subscriptions w;
          next_id := next_id w; calls := calls w |})
    else (Thrown "The payment method cannot be attached", w)).

Definition customers_update (id pm : string) : M unit :=
  api (CustomersUpdate id pm) (fun w =>
    if has_customer w id
       && bool_decide (attached w !! pm = Some id) then
      (Returned tt,
       {| customers := map (set_default id pm) (customers w);
          attached := attached w;
          products := products w; prices := prices w; coupons := coupons w;
          subscriptions := subscriptions w;
          next_id := next_id w; calls := calls w |})
    else (Thrown "No such customer or payment method", w)).

Definition products_list (limit : nat) : M (list Product) :=
  api (ProductsList limit) (fun w =>
    (Returned (take limit (products w)), w)).

Definition products_create (name : string) (description : option string)
    (metadata : gmap string string) : M Product :=
  api (ProductsCreate name description metadata) (fun w =>
    let p := {| prod_id := fresh "prod_" w; prod_name := name;
                prod_description := description;
                prod_metadata := metadata |} in
    (Returned p,
     {| customers := customers w; attached := attached w;
        products := p :: products w; prices := prices w;
        coupons := coupons w; subscriptions := subscriptions w;
        next_id := N.succ (next_id w); calls := calls w |})).

Definition prices_list (product : string) (limit : nat) : M (list Price) :=
  api (PricesList product limit) (fun w =>
    (Returned (take limit (prices_of product w)), w)).

Definition prices_create (product : string) (amount : Z)
    (cur interval : string) : M Price :=
  api (PricesCreate product amount cur interval) (fun w =>
    if has_product w product then
      let p := {| price_id := fresh "price_" w; price_product := product;
                  unit_amount := amount; currency := cur;
                  recurring_interval := Some interval |} in
      (Returned p,
       {| customers := customers w; attached := attached w;
          products := products w; prices := p :: prices w;
          coupons := coupons w; subscriptions := subscriptions w;
          next_id := N.succ (next_id w); calls := calls w |})
    else (Thrown "No such product", w)).

Definition coupons_retrieve (id : string) : M Coupon :=
  api (CouponsRetrieve id) (fun w =>
    match coupons w !! id with
    | Some c => (Returned c, w)
    | None => (Thrown "No such coupon", w)
    end).

Definition coupons_create (c : Coupon) : M Coupon :=
  api (CouponsCreate c) (fun w =>
    match coupons w !! coupon_id c with
    | Some _ => (Thrown "Coupon already exists.", w)
    | None =>
        (Returned c,
         {| customers := customers w; attached := attached w;
            products := products w; prices := prices w;
            coupons := <[coupon_id c := c]> (coupons w);
            subscriptions := subscriptions w;
            next_id := next_id w; calls := calls w |})
    end).

(** A new subscription waits for its first payment: status "incomplete",
    with the client secret of the payment intent of its first invoice. *)
Definition subscriptions_create (p : SubscriptionParams) : M Subscription :=
  api (SubscriptionsCreate p) (fun w =>
    if has_customer w (sp_customer p)
       && forallb (has_price w) (sp_items p)
       && forallb (fun c => bool_decide (is_Some (coupons w !! c)))
            (sp_discounts p) then
      let s := {| sub_id := fresh "sub_" w; sub_customer := sp_customer p;
                  sub_items := new_items w (sp_items p);
                  sub_metadata := sp_metadata p;
                  sub_discounts := sp_discounts p;
                  sub_status := "incomplete";
                  sub_client_secret := fresh "pi_" w +:+ "_secret" |} in
      (Returned s,
       {| customers := customers w; attached := attached w;
          products := products w; prices := prices w;
          coupons := coupons w;
          subscriptions := <[sub_id s := s]> (subscriptions w);
          next_id := N.succ (next_id w); calls := calls w |})
    else (Thrown "Invalid subscription parameters", w)).

Definition subscriptions_retrieve (id : string) : M Subscription :=
  api (SubscriptionsRetrieve id) (fun w =>
    match subscriptions w !! id with
    | Some s => (Returned s, w)
    | None => (Thrown "No such subscription", w)
    end).

Definition apply_update (s : Subscription) (u : SubscriptionUpdate)
  : Subscription :=
  {| sub_id := sub_id s; sub_customer := sub_customer s;
     sub_items := fold_left reprice (su_items u) (sub_items s);
     sub_metadata := merge_metadata (sub_metadata s) (su_metadata u);
     sub_discounts := sub_discounts s; sub_status := sub_status s;
     sub_client_secret := sub_client_secret s |}.

Definition subscriptions_update (id : string) (u : SubscriptionUpdate)
  : M Subscription :=
  api (SubscriptionsUpdate id u) (fun w =>
    match subscriptions w !! id with
    | Some s =>
        if forallb (fun iu => has_item (sub_items s) (fst iu)) (su_items u)
        then
          (Returned (apply_update s u),
           {| customers := customers w; attached := attached w;
              products := products w; prices := prices w;
              coupons := coupons w;
              subscriptions := <[id := apply_update s u]> (subscriptions w);
              next_id := next_id w; calls := calls w |})
        else (Thrown "No such subscription item", w)
    | None => (Thrown "No such subscription", w)
    end).

End Platform.

(** ** Requests, responses and configuration *)

(** [process.env] *)
Record Env : Type := {
  STRIPE_SECRET_KEY : option string;
  STRIPE_WEBHOOK_SECRET : option string }.

(** The [event] a function is invoked with. *)
Record Request : Type := {
  httpMethod : string;
  stripe_signature : option string;
  req_body : option string }.

Inductive Body : Type :=
  | BodyEmpty
  | BodyError (error : string) (message : option string)
  | BodyCreated (subscription_id client_secret customer_id : string)
  | BodyReceived
  | BodyText (text : string).

Record Response : Type := {
  statusCode : Z;
  body : Body }.

Definition respond (status : Z) (b : Body) : M Response :=
  ret {| statusCode := status; body := b |}.

(** [!s] on a text that may be [undefined] *)
Definition missing (s : option string) : bool :=
  match s with
  | None => true
  | Some t => String.eqb t ""
  end.

Definition param (v : option json) : string :=
  match v with
  | Some j => to_param j
  | None => ""
  end.

(** Messages of errors raised outside the functions' own code. *)
Definition type_error : string := "Cannot read properties of undefined".
Definition syntax_error : string := "Unexpected token in JSON".
Definition signature_error : string :=
  "No signatures found matching the expected signature for payload".

(** [v.k]: a [TypeError] when [v] is [null] or [undefined]. *)
Definition read (v : option json) (k : string) : M (option json) :=
  match v with
  | None | Some JNull => throw type_error
  | Some j => ret (own_prop j k)
  end.

Definition weekly_metadata (customer_email customer_name : string)
  : gmap string string :=
  <["customer_email" := customer_email]>
    (<["customer_name" := customer_name]>
       (<["plan_type" := "weekly-meal-plan"]> ∅)).

Definition first_4_weeks : Coupon :=
  {| coupon_id := "FIRST_4_WEEKS_50_OFF"; percent_off := 50;
     duration := "repeating"; duration_in_months := 1;
     coupon_name := "First 4 Weeks - 50% OFF" |}.

(** [p => p.metadata.plan_type === 'weekly-meal-plan'] *)
Definition plan_product (p : Product) : bool :=
  bool_decide (prod_metadata p !! "plan_type" = Some "weekly-meal-plan").

(** [p => p.unit_amount === 2000 && p.currency === 'aud' &&
    p.recurring?.interval === 'week'] *)
Definition weekly_price (p : Price) : bool :=
  (unit_amount p =? 2000) && String.eqb (currency p) "aud"
  && bool_decide (recurring_interval p = Some "week").

Section Checkout.
Context `{Runtime}.

(** [const { customer_email, customer_name, payment_method_id } =
    JSON.parse(event.body)] *)
Definition parse_fields (b : string)
  : M (option json * option json * option json) :=
  match JSON_parse b with
  | None => throw syntax_error
  | Some JNull => throw type_error
  | Some v =>
      ret (own_prop v "customer_email", own_prop v "customer_name",
           own_prop v "payment_method_id")
  end.

(** The customer step shared by [create-subscription.js] and the variants
    that attach the payment method. *)
Definition resolve_customer
    (customer_email customer_name payment_method_id : string) : M Customer :=
  let* existingCustomers := customers_list customer_email 1 in
  match existingCustomers with
  | customer :: _ =>
      paymentMethods_attach payment_method_id (cus_id customer) ;;
      customers_update (cus_id customer) payment_method_id ;;
      ret customer
  | [] => customers_create customer_email customer_name payment_method_id
  end.

(** The customer step of the earliest variant: an existing customer is used
    as found. *)
Definition find_or_create_customer
    (customer_email customer_name payment_method_id : string) : M Customer :=
  let* existingCustomers := customers_list customer_email 1 in
  match existingCustomers with
  | customer :: _ => ret customer
  | [] => customers_create customer_email customer_name payment_method_id
  end.

(** The coupon step: retrieve, else create, else go on without. *)
Definition promotional_coupon : M (option string) :=
  try_catch
    (try_catch
       (let* existingCoupon := coupons_retrieve "FIRST_4_WEEKS_50_OFF" in
        ret (Some (coupon_id existingCoupon)))
       (fun _ =>
          let* coupon := coupons_create first_4_weeks in
          ret (Some (coupon_id coupon))))
    (fun _ => ret None).

(** [if (couponId) subscriptionData.discounts = [{ coupon: couponId }]] *)
Definition discounts_of (couponId : option string) : list string :=
  match couponId with
  | Some c => if String.eqb c "" then [] else [c]
  | None => []
  end.

(** The product and price step of the variant that looks prices up. *)
Definition reconcile_catalog : M string :=
  let* listed := products_list 100 in
  let* product :=
    match List.find plan_product listed with
    | Some p => ret p
    | None =>
        products_create "Weekly Meal Plan"
          (Some "Personalized weekly meal plans with nutrition coaching")
          {[ "plan_type" := "weekly-meal-plan" ]}
    end in
  let* found := prices_list (prod_id product) 10 in
  let* price :=
    match List.find weekly_price found with
    | Some p => ret p
    | None => prices_create (prod_id product) 2000 "aud" "week"
    end in
  ret (price_id price).

(** The product and price step of [create-subscription.js]: the product is
    looked up by name, the price is created on every call. *)
Definition create_price : M string :=
  let* existingProducts := products_list 10 in
  let* product :=
    match List.find (fun p => String.eqb (prod_name p) "Weekly Meal Plan")
            existingProducts with
    | Some p => ret p
    | None => products_create "Weekly Meal Plan" None ∅
    end in
  let* price := prices_create (prod_id product) 3000 "aud" "week" in
  ret (price_id price).

Definition created (subscription : Subscription) (customer : Customer)
  : M Response :=
  respond 200
    (BodyCreated (sub_id subscription) (sub_client_secret subscription)
       (cus_id customer)).

(** What every variant does before its own steps: method routing, the
    secret key, the body and its three fields. [steps] receives the three
    fields as sent to the platform. *)
Definition checkout (missing_fields : string)
    (steps : string → string → string → M Response)
    (env : Env) (event : Request) : M Response :=
  if String.eqb (httpMethod event) "OPTIONS" then respond 200 BodyEmpty
  else if negb (String.eqb (httpMethod event) "POST") then
    respond 405 (BodyError "Only POST requests allowed" None)
  else
    try_catch
      (if missing (STRIPE_SECRET_KEY env) then
         respond 500 (BodyError "Payment system not configured properly" None)
       else if missing (req_body event) then
         respond 400 (BodyError "No subscription data received" None)
       else
         let* (customer_email, customer_name, payment_method_id) :=
           parse_fields (default "" (req_body event)) in
         if negb (truthy customer_email) || negb (truthy customer_name)
            || negb (truthy payment_method_id) then
           respond 400 (BodyError missing_fields None)
         else
           steps (param customer_email) (param customer_name)
             (param payment_method_id))
      (fun message =>
         respond 500
           (BodyError "Something went wrong with the subscription"
              (Some message))).

(** [try { customer = ... } catch (error) { return 400 }], then the rest
    with the customer. *)
Definition with_customer (resolver : M Customer)
    (rest : Customer → M Response) : M Response :=
  let* r :=
    try_catch (let* customer := resolver in ret (inr customer))
      (fun message =>
         ret (inl {| statusCode := 400;
                     body := BodyError "Failed to set up customer account"
                               (Some message) |})) in
  match r with
  | inl response => ret response
  | inr customer => rest customer
  end.

Definition or_failed (m : M Response) : M Response :=
  try_catch m
    (fun message =>
       respond 400 (BodyError "Failed to create subscription" (Some message))).

End Checkout.

(** ** The variants of the checkout function *)

(** [netlify/functions/create-subscription.js]: a catalog price of 30 AUD,
    created on every checkout. *)
Module CreateSubscription.
Section Handler.
Context `{Runtime}.

Definition steps (customer_email customer_name payment_method_id : string)
  : M Response :=
  with_customer
    (resolve_customer customer_email customer_name payment_method_id)
    (fun customer =>
       or_failed
         (let* price := create_price in
          let* subscription :=
            subscriptions_create
              {| sp_customer := cus_id customer;
                 sp_items := [PriceRef price];
                 sp_payment_behavior := "default_incomplete";
                 sp_metadata := weekly_metadata customer_email customer_name;
                 sp_discounts := [] |} in
          created subscription customer)).

Definition handler : Env → Request → M Response :=
  checkout "Missing required fields" steps.

End Handler.
End CreateSubscription.

(** The variant with the coupon and inline price terms of 20 AUD. *)
Module CouponInline.
Section Handler.
Context `{Runtime}.

Definition price_data : PriceData :=
  {| pd_currency := "aud"; pd_product_name := "Weekly Meal Plan";
     pd_product_description :=
       Some "Personalized weekly meal plans with nutrition coaching";
     pd_unit_amount := 2000; pd_interval := "week" |}.

Definition steps (customer_email customer_name payment_method_id : string)
  : M Response :=
  with_customer
    (resolve_customer customer_email customer_name payment_method_id)
    (fun customer =>
       let* couponId := promotional_coupon in
       or_failed
         (let* subscription :=
            subscriptions_create
              {| sp_customer := cus_id customer;
                 sp_items := [PriceInline price_data];
                 sp_payment_behavior := "default_incomplete";
                 sp_metadata := weekly_metadata customer_email customer_name;
                 sp_discounts := discounts_of couponId |} in
          created subscription customer)).

Definition handler : Env → Request → M Response :=
  checkout "Missing required fields" steps.

End Handler.
End CouponInline.

(** The variant that reconciles the catalog before the customer step, with
    the coupon. *)
Module CatalogCoupon.
Section Handler.
Context `{Runtime}.

Definition steps (customer_email customer_name payment_method_id : string)
  : M Response :=
  let* r :=
    try_catch (let* priceId := reconcile_catalog in ret (inr priceId))
      (fun message =>
         ret (inl {| statusCode := 400;
                     body := BodyError "Failed to set up product pricing"
                               (Some message) |})) in
  match r with
  | inl response => ret response
  | inr priceId =>
      with_customer
        (resolve_customer customer_email customer_name payment_method_id)
        (fun customer =>
           let* couponId := promotional_coupon in
           or_failed
             (let* subscription :=
                subscriptions_create
                  {| sp_customer := cus_id customer;
                     sp_items := [PriceRef priceId];
                     sp_payment_behavior := "default_incomplete";
                     sp_metadata :=
                       weekly_metadata customer_email customer_name;
                     sp_discounts := discounts_of couponId |} in
              created subscription customer))
  end.

Definition handler : Env → Request → M Response :=
  checkout "Missing required fields" steps.

End Handler.
End CatalogCoupon.

(** The variant that starts a subscription at the promotional rate of 10 AUD
    and initialises the week counters read by the webhook. *)
Module PromotionalRate.
Section Handler.
Context `{Runtime}.

Definition price_data : PriceData :=
  {| pd_currency := "aud";
     pd_product_name := "Weekly Meal Plan (Promotional Rate)";
     pd_product_description := None;
     pd_unit_amount := 1000; pd_interval := "week" |}.

Definition metadata (customer_email customer_name : string)
  : gmap string string :=
  <["promotional_weeks_used" := "0"]>
    (<["promotional_weeks_total" := "4"]>
       (<["regular_price_amount" := "2000"]>
          (weekly_metadata customer_email customer_name))).

Definition steps (customer_email customer_name payment_method_id : string)
  : M Response :=
  with_customer
    (resolve_customer customer_email customer_name payment_method_id)
    (fun customer =>
       or_failed
         (let* subscription :=
            subscriptions_create
              {| sp_customer := cus_id customer;
                 sp_items := [PriceInline price_data];
                 sp_payment_behavior := "default_incomplete";
                 sp_metadata := metadata customer_email customer_name;
                 sp_discounts := [] |} in
          created subscription customer)).

Definition handler : Env → Request → M Response :=
  checkout "Missing required fields" steps.

End Handler.
End PromotionalRate.

(** ** [netlify/functions/stripe-webhook.js] *)
Module StripeWebhook.
Section Handler.
Context `{Runtime}.

(** [stripe.webhooks.constructEvent(event.body, sig, endpointSecret)]:
    throws unless payload, signature header and signing secret are all
    there and the signature matches; the event is the parsed payload. *)
Definition constructEvent (payload header secret : option string)
  : outcome json :=
  match payload, header, secret with
  | Some p, Some h, Some k =>
      if verifyHeader p h k then
        match JSON_parse p with
        | Some ev => Returned ev
        | None => Thrown syntax_error
        end
      else Thrown signature_error
  | _, _, _ => Thrown signature_error
  end.

Definition regular_price_data : PriceData :=
  {| pd_currency := "aud"; pd_product_name := "Weekly Meal Plan";
     pd_product_description := Some "Regular weekly meal plan";
     pd_unit_amount := 2000; pd_interval := "week" |}.

(** The metadata sent when the promotion ends. *)
Definition regular_metadata (metadata : gmap string string)
  : gmap string (option string) :=
  <["price_tier" := Some "regular"]>
    (<["promotional_weeks_total" := None]>
       (<["promotional_weeks_used" := None]> (spread metadata))).

(** The metadata sent while the promotion lasts. *)
Definition counter_metadata (metadata : gmap string string)
    (weeksUsed : number) : gmap string (option string) :=
  <["promotional_weeks_used" := Some (toString weeksUsed)]> (spread metadata).

(** [case 'invoice.payment_succeeded'] *)
Definition payment_succeeded (stripeEvent : json) : M unit :=
  let* data := read (Some stripeEvent) "data" in
  let* invoice := read data "object" in
  let* invoice_subscription := read invoice "subscription" in
  if truthy invoice_subscription then
    let* subscription :=
      subscriptions_retrieve (param invoice_subscription) in
    match sub_metadata subscription !! "promotional_weeks_used" with
    | Some used =>
        let weeksUsed := succ_number (parseInt used) in
        let totalPromotionalWeeks :=
          number_or
            (parseInt_opt
               (sub_metadata subscription !! "promotional_weeks_total")) 4 in
        if number_ge weeksUsed totalPromotionalWeeks then
          match sub_items subscription with
          | item :: _ =>
              subscriptions_update (sub_id subscription)
                {| su_items := [(item_id item, regular_price_data)];
                   su_metadata :=
                     regular_metadata (sub_metadata subscription) |} ;;
              ret tt
          | [] => throw type_error
          end
        else
          subscriptions_update (sub_id subscription)
            {| su_items := [];
               su_metadata :=
                 counter_metadata (sub_metadata subscription) weeksUsed |} ;;
          ret tt
    | None => ret tt
    end
  else ret tt.

(** [case 'customer.subscription.deleted']: logs
    [stripeEvent.data.object.id]. *)
Definition subscription_deleted (stripeEvent : json) : M unit :=
  let* data := read (Some stripeEvent) "data" in
  let* object := read data "object" in
  let* _ := read object "id" in
  ret tt.

(** [case 'invoice.payment_failed']: logs the subscription of the invoice. *)
Definition payment_failed (stripeEvent : json) : M unit :=
  let* data := read (Some stripeEvent) "data" in
  let* failedInvoice := read data "object" in
  let* _ := read failedInvoice "subscription" in
  ret tt.

(** The [switch] on the event type. *)
Definition dispatch (type : option json) (stripeEvent : json) : M unit :=
  match type with
  | Some (JStr t) =>
      if String.eqb t "invoice.payment_succeeded" then
        payment_succeeded stripeEvent
      else if String.eqb t "customer.subscription.deleted" then
        subscription_deleted stripeEvent
      else if String.eqb t "invoice.payment_failed" then
        payment_failed stripeEvent
      else ret tt
  | _ => ret tt
  end.

(** What the function does with a verified event. The type is read for
    the log line before the [try]. *)
Definition process (stripeEvent : json) : M Response :=
  let* type := read (Some stripeEvent) "type" in
  try_catch
    (dispatch type stripeEvent ;;
     respond 200 BodyReceived)
    (fun _ => respond 500 (BodyError "Webhook processing failed" None)).

Definition handler (env : Env) (event : Request) : M Response :=
  if negb (String.eqb (httpMethod event) "POST") then
    respond 405 (BodyError "Only POST requests allowed" None)
  else
    match constructEvent (req_body event) (stripe_signature event)
            (STRIPE_WEBHOOK_SECRET env) with
    | Thrown message => respond 400 (BodyText ("Webhook Error: " +:+ message))
    | Returned stripeEvent => process stripeEvent
    end.

End Handler.
End StripeWebhook.

(** ** Notions the properties are stated with *)

(** The platform files every subscription under its own identifier. *)
Definition well_keyed (w : World) : Prop :=
  map_Forall (fun id s => sub_id s = id) (subscriptions w).

#[global] Instance well_keyed_dec w : Decision (well_keyed w).
Proof. unfold well_keyed. apply _. Defined.

(** The subscription a successful-payment event is about, when the event is
    one: type [invoice.payment_succeeded] with a subscription reference on
    the invoice. *)
Definition paid_subscription (ev : json) : option string :=
  match own_prop ev "type", own_prop ev "data" with
  | Some (JStr t), Some data =>
      if String.eqb t "invoice.payment_succeeded" then
        match own_prop data "object" with
        | Some invoice =>
            match own_prop invoice "subscription" with
            | Some (JStr sid) => if String.eqb sid "" then None else Some sid
            | _ => None
            end
        | None => None
        end
      else None
  | _, _ => None
  end.

(** The invoice identifier of an event, the key a de-duplication would use. *)
Definition invoice_id (ev : json) : option json :=
  match own_prop ev "data" with
  | Some data =>
      match own_prop data "object" with
      | Some invoice => own_prop invoice "id"
      | None => None
      end
  | None => None
  end.

Definition weeks_used (s : Subscription) : option number :=
  parseInt <$> (sub_metadata s !! "promotional_weeks_used").

Definition weeks_total (s : Subscription) : option number :=
  parseInt <$> (sub_metadata s !! "promotional_weeks_total").

(** The price the subscription is billed at: that of its first item. *)
Definition active_price (s : Subscription) : option ItemPrice :=
  item_price <$> head (sub_items s).

Definition regular_price : ItemPrice :=
  PriceInline StripeWebhook.regular_price_data.

(** The regular tier: no week counters. *)
Definition regular (s : Subscription) : Prop :=
  sub_metadata s !! "promotional_weeks_used" = None.

(** The invariant of the promotional counters of a subscription that has
    them: both read as integers, [0 <= weeks_used <= weeks_total], and
    [weeks_used >= weeks_total] does not hold while the counters are there;
    the total lies where JavaScript integers are exact. *)
Definition counters_ok (s : Subscription) : Prop :=
  match sub_metadata s !! "promotional_weeks_used" with
  | Some _ =>
      match weeks_used s, weeks_total s with
      | Some (Num n), Some (Num t) =>
          0 <= n <= t ∧ ¬ (t <= n) ∧ t <= MAX_SAFE_INTEGER
      | _, _ => False
      end
  | None => True
  end.

#[global] Instance counters_ok_dec s : Decision (counters_ok s).
Proof. unfold counters_ok. repeat case_match; apply _. Defined.

(** What one successful payment does to the subscription it is about, as
    the platform carries out the update of [payment_succeeded]. *)
Definition advance (s : Subscription) : Subscription :=
  match sub_metadata s !! "promotional_weeks_used" with
  | Some used =>
      let weeksUsed := succ_number (parseInt used) in
      let totalPromotionalWeeks :=
        number_or
          (parseInt_opt (sub_metadata s !! "promotional_weeks_total")) 4 in
      if number_ge weeksUsed totalPromotionalWeeks then
        match sub_items s with
        | item :: _ =>
            apply_update s
              {| su_items := [(item_id item, StripeWebhook.regular_price_data)];
                 su_metadata :=
                   StripeWebhook.regular_metadata (sub_metadata s) |}
        | [] => s
        end
      else
        apply_update s
          {| su_items := [];
             su_metadata :=
               StripeWebhook.counter_metadata (sub_metadata s) weeksUsed |}
  | None => s
  end.

(** One invocation of the webhook changes at most one subscription, by
    [advance]. *)
Definition advanced (w w' : World) : Prop :=
  subscriptions w' = subscriptions w
  ∨ ∃ sid s, subscriptions w !! sid = Some s
             ∧ subscriptions w' = <[sid := advance s]> (subscriptions w).

(** What becomes of a stored metadata value that an update sends back as it
    is. The platform stores no empty value. *)
Definition kept (o : option string) : option string :=
  merge_key o (Some <$> o).

Section Deliveries.
Context `{Runtime}.

(** The platform refuses no call for reasons of its own. *)
Definition accepts_all : Prop := ∀ h c, rejects h c = None.

(** A request that carries a verified successful-payment event for the
    subscription [sid]. *)
Definition verified_payment (env : Env) (event : Request) (sid : string)
  : Prop :=
  httpMethod event = "POST"
  ∧ ∃ ev, StripeWebhook.constructEvent (req_body event)
            (stripe_signature event) (STRIPE_WEBHOOK_SECRET env)
          = Returned ev
          ∧ paid_subscription ev = Some sid.

(** The webhook invoked on a sequence of requests, one after the other. *)
Definition deliver (env : Env) (events : list Request) (w : World) : World :=
  fold_left (fun w event => snd (StripeWebhook.handler env event w)) events w.

End Deliveries.

(** What is stored of the counter of subscription [sid] after the webhook
    ran on [events]. *)
Definition counter_after `{Runtime} (env : Env) (events : list Request)
    (w : World) (sid : string) : option string :=
  subscriptions (deliver env events w) !! sid
    ≫= (fun s => sub_metadata s !! "promotional_weeks_used").

(** The amount the subscription is billed, and the amount its metadata
    names as the regular one. *)
Definition active_amount (s : Subscription) : option number :=
  match active_price s with
  | Some (PriceInline pd) => Some (Num (pd_unit_amount pd))
  | _ => None
  end.

Definition regular_price_amount (s : Subscription) : option number :=
  parseInt <$> (sub_metadata s !! "regular_price_amount").

(** [p] refers to a price of the catalog of [w] that bills 2000 AUD cents a
    week for a product of the weekly meal plan. *)
Definition weekly_plan_price (w : World) (p : string) : Prop :=
  ∃ product price,
    product ∈ products w ∧ plan_product product = true
    ∧ price ∈ prices w ∧ price_id price = p
    ∧ price_product price = prod_id product
    ∧ unit_amount price = 2000 ∧ currency price = "aud"
    ∧ recurring_interval price = Some "week".

(** ** A concrete platform and concrete requests to run the functions on *)
Module Demo.

Definition payment_event (invoice sid : string) : json :=
  JObj [("type", JStr "invoice.payment_succeeded");
        ("data", JObj [("object", JObj [("id", JStr invoice);
                                        ("subscription", JStr sid)])])].

Definition checkout_body : json :=
  JObj [("customer_email", JStr "a@x.com"); ("customer_name", JStr "A");
        ("payment_method_id", JStr "pm_1")].

Definition no_email_body : json :=
  JObj [("customer_name", JStr "A"); ("payment_method_id", JStr "pm_1")].

(** A parser that knows four payloads, named by their content. *)
Definition parse (payload : string) : option json :=
  if String.eqb payload "invoice in_1 paid for sub_1" then
    Some (payment_event "in_1" "sub_1")
  else if String.eqb payload "invoice in_9 paid for sub_9" then
    Some (payment_event "in_9" "sub_9")
  else if String.eqb payload "checkout of a@x.com" then Some checkout_body
  else if String.eqb payload "checkout without email" then Some no_email_body
  else None.

(** A signature is the secret after "signed:". *)
Definition verify (payload header secret : string) : bool :=
  String.eqb header ("signed:" +:+ secret).

Definition runtime : Runtime :=
  {| JSON_parse := parse; verifyHeader := verify;
     rejects := fun _ _ => None |}.

(** The same platform with its coupon service down. *)
Definition no_coupons : Runtime :=
  {| JSON_parse := parse; verifyHeader := verify;
     rejects := fun _ c =>
       match c with
       | CouponsRetrieve _ | CouponsCreate _ => Some "coupons unavailable"
       | _ => None
       end |}.

Definition env : Env :=
  {| STRIPE_SECRET_KEY := Some "sk_test";
     STRIPE_WEBHOOK_SECRET := Some "whsec" |}.

Definition no_signing_secret : Env :=
  {| STRIPE_SECRET_KEY := Some "sk_test"; STRIPE_WEBHOOK_SECRET := None |}.

Definition no_secret_key : Env :=
  {| STRIPE_SECRET_KEY := None; STRIPE_WEBHOOK_SECRET := Some "whsec" |}.

Definition checkout_request : Request :=
  {| httpMethod := "POST"; stripe_signature := None;
     req_body := Some "checkout of a@x.com" |}.

Definition no_email_request : Request :=
  {| httpMethod := "POST"; stripe_signature := None;
     req_body := Some "checkout without email" |}.

Definition paid (payload : string) : Request :=
  {| httpMethod := "POST"; stripe_signature := Some "signed:whsec";
     req_body := Some payload |}.

Definition paid_1 : Request := paid "invoice in_1 paid for sub_1".
Definition paid_9 : Request := paid "invoice in_9 paid for sub_9".

Definition unsigned : Request :=
  {| httpMethod := "POST"; stripe_signature := None;
     req_body := Some "invoice in_1 paid for sub_1" |}.

Definition forged : Request :=
  {| httpMethod := "POST"; stripe_signature := Some "signed:guess";
     req_body := Some "invoice in_1 paid for sub_1" |}.

(** The platform after two checkouts at the promotional rate: customer
    [cus_0] with the subscriptions [sub_1] and [sub_2], counters at 0 of 4. *)
Definition promotional_world : World :=
  snd (PromotionalRate.handler (H := runtime) env checkout_request
         (snd (PromotionalRate.handler (H := runtime) env checkout_request
                 empty_world))).

Definition item_9 : Item :=
  {| item_id := "si_9"; item_price := PriceInline PromotionalRate.price_data |}.

(** A subscription in its last promotional week whose metadata names 25 AUD
    as the regular amount. *)
Definition sub_9 : Subscription :=
  {| sub_id := "sub_9"; sub_customer := "cus_0"; sub_items := [item_9];
     sub_metadata :=
       <["promotional_weeks_used" := "3"]>
         (<["promotional_weeks_total" := "4"]>
            (<["regular_price_amount" := "2500"]>
               (<["plan_type" := "weekly-meal-plan"]> ∅)));
     sub_discounts := []; sub_status := "active";
     sub_client_secret := "pi_9_secret" |}.

Definition world_9 : World :=
  {| customers := []; attached := ∅; products := []; prices := [];
     coupons := ∅; subscriptions := {[ "sub_9" := sub_9 ]};
     next_id := 10%N; calls := [] |}.

(** A customer with a default payment method, before a new checkout. *)
Definition returning_customer : Customer :=
  {| cus_id := "cus_7"; cus_email := "a@x.com"; cus_name := "Ann";
     cus_default_payment_method := Some "pm_old" |}.

Definition world_7 : World :=
  {| customers := [returning_customer];
     attached := {[ "pm_old" := "cus_7" ]};
     products := []; prices := []; coupons := ∅; subscriptions := ∅;
     next_id := 8%N; calls := [] |}.

(** A checkout while the coupon service is down, step by step: the
    customer step, the two coupon calls, the creation of the
    subscription. *)
Definition customer_step : outcome Customer * World :=
  resolve_customer (H := no_coupons) "a@x.com" "A" "pm_1" empty_world.

Definition new_customer : Customer :=
  match fst customer_step with
  | Returned c => c
  | Thrown _ => returning_customer
  end.

Definition retrieve_step : outcome Coupon * World :=
  coupons_retrieve (H := no_coupons) "FIRST_4_WEEKS_50_OFF"
    (snd customer_step).

Definition create_step : outcome Coupon * World :=
  coupons_create (H := no_coupons) first_4_weeks (snd retrieve_step).

Definition subscription_step : outcome Subscription * World :=
  subscriptions_create (H := no_coupons)
    {| sp_customer := cus_id new_customer;
       sp_items := [PriceInline CouponInline.price_data];
       sp_payment_behavior := "default_incomplete";
       sp_metadata := weekly_metadata "a@x.com" "A";
       sp_discounts := [] |} (snd create_step).

Definition new_subscription : Subscription :=
  match fst subscription_step with
  | Returned s => s
  | Thrown _ => sub_9
  end.

(** The customer step of a new checkout by the returning customer. *)
Definition returning_step : outcome Customer * World :=
  resolve_customer (H := runtime) "a@x.com" "Ann B." "pm_new" world_7.

End Demo.

(** ** Further notions: the webhook after the event is read *)

Section AppliedPayment.
Context `{Runtime}.

(** What [payment_succeeded] does once the invoice names the subscription
    [sid]: the statements inside [if (invoice.subscription)]. *)
Definition apply_payment (sid : string) : M unit :=
  let* subscription := subscriptions_retrieve sid in
  match sub_metadata subscription !! "promotional_weeks_used" with
  | Some used =>
      let weeksUsed := succ_number (parseInt used) in
      let totalPromotionalWeeks :=
        number_or
          (parseInt_opt
             (sub_metadata subscription !! "promotional_weeks_total")) 4 in
      if number_ge weeksUsed totalPromotionalWeeks then
        match sub_items subscription with
        | item :: _ =>
            subscriptions_update (sub_id subscription)
              {| su_items := [(item_id item, StripeWebhook.regular_price_data)];
                 su_metadata :=
                   StripeWebhook.regular_metadata
                     (sub_metadata subscription) |} ;;
            ret tt
        | [] => throw type_error
        end
      else
        subscriptions_update (sub_id subscription)
          {| su_items := [];
             su_metadata :=
               StripeWebhook.counter_metadata (sub_metadata subscription)
                 weeksUsed |} ;;
        ret tt
  | None => ret tt
  end.

(** The answer of the webhook to a verified event once [dispatch] ran. *)
Definition answer (m : M unit) : M Response :=
  try_catch (m ;; respond 200 BodyReceived)
    (fun _ => respond 500 (BodyError "Webhook processing failed" None)).

End AppliedPayment.

(** A call that reads or updates a subscription. *)
Definition subscription_call (c : Call) : bool :=
  match c with
  | SubscriptionsRetrieve _ | SubscriptionsUpdate _ _ => true
  | _ => false
  end.

(** Everything of the platform but the stored subscriptions and the record
    of calls. *)
Definition same_catalog (w w' : World) : Prop :=
  customers w' = customers w ∧ attached w' = attached w
  ∧ products w' = products w ∧ prices w' = prices w
  ∧ coupons w' = coupons w ∧ next_id w' = next_id w.

(** What one run may do to the platform: nothing outside the stored
    subscriptions, no subscription added or removed, and at most two calls,
    each a read or an update of a subscription. *)
Definition touches_only_subscriptions (w w' : World) : Prop :=
  same_catalog w w'
  ∧ dom (subscriptions w') = dom (subscriptions w)
  ∧ ∃ issued, calls w' = (calls w ++ issued)%list
              ∧ (length issued <= 2)%nat
              ∧ forallb subscription_call issued = true.

(** The object an event carries, [stripeEvent.data.object], when reading it
    raises no error. *)
Definition event_object (ev : json) : option json :=
  match own_prop ev "data" with
  | Some data =>
      match own_prop data "object" with
      | Some JNull | None => None
      | Some object => Some object
      end
  | None => None
  end.

Definition is_type (ev : json) (t : string) : Prop :=
  own_prop ev "type" = Some (JStr t).

(** The total the webhook works with:
    [parseInt(metadata.promotional_weeks_total) || 4]. *)
Definition effective_total (s : Subscription) : number :=
  number_or (parseInt_opt (sub_metadata s !! "promotional_weeks_total")) 4.

(** The customers the platform lists for an email, newest first. *)
Definition customers_of (email : string) (w : World) : list Customer :=
  List.filter (fun c => String.eqb (cus_email c) email) (customers w).

(** A request with a body in which the three fields are there. *)
Definition well_formed `{Runtime} (env : Env) (event : Request) (v : json)
  : Prop :=
  httpMethod event = "POST"
  ∧ missing (STRIPE_SECRET_KEY env) = false
  ∧ missing (req_body event) = false
  ∧ (∃ b, req_body event = Some b ∧ JSON_parse b = Some v)
  ∧ v ≠ JNull
  ∧ truthy (own_prop v "customer_email") = true
  ∧ truthy (own_prop v "customer_name") = true
  ∧ truthy (own_prop v "payment_method_id") = true.

Definition email_of (v : json) : string := param (own_prop v "customer_email").
Definition name_of (v : json) : string := param (own_prop v "customer_name").
Definition method_of (v : json) : string :=
  param (own_prop v "payment_method_id").

(** The statuses a checkout answers with. *)
Definition checkout_status (r : Response) : Prop :=
  statusCode r = 200 ∨ statusCode r = 400 ∨ statusCode r = 405
  ∨ statusCode r = 500.

Definition answers (m : M Response) : Prop :=
  ∀ w, ∃ r w', m w = (Returned r, w')
               ∧ (statusCode r = 200 ∨ statusCode r = 400).

(** The price every run of [create_price] asks for: 30 AUD a week. *)
Definition thirty_a_week (p : Price) : Prop :=
  unit_amount p = 3000 ∧ currency p = "aud"
  ∧ recurring_interval p = Some "week".

Definition coupon_key : string := "FIRST_4_WEEKS_50_OFF".

(** The calls of the product and price step. *)
Definition catalog_call (c : Call) : bool :=
  match c with
  | ProductsList _ | ProductsCreate _ _ _ | PricesList _ _
  | PricesCreate _ _ _ _ => true
  | _ => false
  end.

(** ** The webhook that only logs (second version in [stripe-webhook.js]) *)
Module LoggingWebhook.
Section Handler.
Context `{Runtime}.

(** [case 'invoice.payment_succeeded'] and [case 'invoice.payment_failed']:
    the subscription of the invoice is read for the log line. *)
Definition log_invoice (stripeEvent : json) : M unit :=
  let* data := read (Some stripeEvent) "data" in
  let* invoice := read data "object" in
  let* _ := read invoice "subscription" in
  ret tt.

(** [case 'customer.subscription.deleted'] *)
Definition log_deleted (stripeEvent : json) : M unit :=
  let* data := read (Some stripeEvent) "data" in
  let* object := read data "object" in
  let* _ := read object "id" in
  ret tt.

Definition dispatch (type : option json) (stripeEvent : json) : M unit :=
  match type with
  | Some (JStr t) =>
      if String.eqb t "invoice.payment_succeeded" then
        log_invoice stripeEvent
      else if String.eqb t "customer.subscription.deleted" then
        log_deleted stripeEvent
      else if String.eqb t "invoice.payment_failed" then
        log_invoice stripeEvent
      else ret tt
  | _ => ret tt
  end.

Definition process (stripeEvent : json) : M Response :=
  let* type := read (Some stripeEvent) "type" in
  try_catch
    (dispatch type stripeEvent ;;
     respond 200 BodyReceived)
    (fun _ => respond 500 (BodyError "Webhook processing failed" None)).

Definition handler (env : Env) (event : Request) : M Response :=
  if negb (String.eqb (httpMethod event) "POST") then
    respond 405 (BodyError "Only POST requests allowed" None)
  else
    match StripeWebhook.constructEvent (req_body event)
            (stripe_signature event) (STRIPE_WEBHOOK_SECRET env) with
    | Thrown message => respond 400 (BodyText ("Webhook Error: " +:+ message))
    | Returned stripeEvent => process stripeEvent
    end.

End Handler.
End LoggingWebhook.

(** ** [create-payment-intent.js], both versions *)

(** [String(v)], as a template literal converts a value. *)
Fixpoint js_string (v : json) : string :=
  match v with
  | JNull => "null"
  | JBool true => "true"
  | JBool false => "false"
  | JNum z => toString (Num z)
  | JStr s => s
  | JArr elems =>
      String.concat ","
        (map (fun e => match e with JNull => "" | _ => js_string e end) elems)
  | JObj _ => "[object Object]"
  end.

(** [v || d] *)
Definition or_else (v : option json) (d : json) : json :=
  match v with
  | Some j => if truthy v then j else d
  | None => d
  end.

(** Destructuring [null] raises a [TypeError]. *)
Definition nullish (v : json) : bool :=
  match v with
  | JNull => true
  | _ => false
  end.

(** [s.includes(sub)] *)
Fixpoint includes (s sub : string) : bool :=
  String.prefix sub s
  || match s with
     | EmptyString => false
     | String _ s' => includes s' sub
     end.

Module PaymentIntent.

(** An error as a [catch] receives it; [error.type] is set on the errors
    of the platform SDK. *)
Record Error : Type := {
  err_type : option string;
  err_message : string }.

(** The parameters of [stripe.paymentIntents.create]. *)
Record IntentParams : Type := {
  ip_amount : json;
  ip_currency : json;
  ip_customer_email : json;
  ip_customer_name : json;
  ip_product : json;
  ip_receipt_email : json;
  ip_description : string }.

Record Intent : Type := {
  intent_id : string;
  intent_client_secret : string;
  intent_params : IntentParams }.

(** The payment intents of the platform, newest first, and the record of
    the creations asked for. *)
Record Ledger : Type := {
  intents : list Intent;
  requested : list IntentParams }.

Inductive Body : Type :=
  | BodyEmpty
  | BodyError (error : string) (message : option string)
  | BodyIntent (client_secret payment_intent_id : string).

Record Response : Type := {
  statusCode : Z;
  body : Body }.

Definition TypeError : Error :=
  {| err_type := None; err_message := type_error |}.

Definition SyntaxError : Error :=
  {| err_type := None; err_message := syntax_error |}.

Section Handlers.
Context `{Runtime}.

(** What the platform refuses, and with which error. *)
Variable refuses : Ledger → IntentParams → option Error.

Definition paymentIntents_create (p : IntentParams) (l : Ledger)
  : (Error + Intent) * Ledger :=
  let asked := (requested l ++ [p])%list in
  match refuses l p with
  | Some e => (inl e, {| intents := intents l; requested := asked |})
  | None =>
      let id :=
        "pi_" +:+ NilZero.string_of_uint (Nat.to_uint (length (intents l))) in
      let i := {| intent_id := id; intent_client_secret := id +:+ "_secret";
                  intent_params := p |} in
      (inr i, {| intents := i :: intents l; requested := asked |})
  end.

(** From the destructuring of the parsed body to the answer 200; the two
    versions differ in the message of the validation. *)
Definition charge (invalid : string) (paymentData : json) (l : Ledger)
  : (Error + Response) * Ledger :=
  if nullish paymentData then (inl TypeError, l)
  else
    let amount := own_prop paymentData "amount" in
    let currency := own_prop paymentData "currency" in
    let customer_email := own_prop paymentData "customer_email" in
    let customer_name := own_prop paymentData "customer_name" in
    let product := own_prop paymentData "product" in
    match customer_email, customer_name with
    | Some email, Some name =>
        if negb (truthy customer_email) || negb (truthy customer_name) then
          (inr {| statusCode := 400; body := BodyError invalid None |}, l)
        else
          match
            paymentIntents_create
              {| ip_amount := or_else amount (JNum 1000);
                 ip_currency := or_else currency (JStr "aud");
                 ip_customer_email := email;
                 ip_customer_name := name;
                 ip_product := or_else product (JStr "weekly-meal-plan");
                 ip_receipt_email := email;
                 ip_description :=
                   "Weekly Meal Plan - " +:+ js_string name |} l
          with
          | (inl e, l') => (inl e, l')
          | (inr paymentIntent, l') =>
              (inr {| statusCode := 200;
                      body := BodyIntent
                                (intent_client_secret paymentIntent)
                                (intent_id paymentIntent) |}, l')
          end
    | _, _ =>
        (inr {| statusCode := 400; body := BodyError invalid None |}, l)
    end.

(** The version beside [stripe-webhook.js]: one [try] around everything. *)
Definition handler_compact (event : Request) (l : Ledger)
  : Response * Ledger :=
  if String.eqb (httpMethod event) "OPTIONS" then
    ({| statusCode := 200; body := BodyEmpty |}, l)
  else if negb (String.eqb (httpMethod event) "POST") then
    ({| statusCode := 405; body := BodyError "Method not allowed" None |}, l)
  else
    let failed e l' :=
      ({| statusCode := 500;
          body := BodyError "Failed to create payment intent"
                    (Some (err_message e)) |}, l') in
    match req_body event ≫= JSON_parse with
    | None => failed SyntaxError l
    | Some paymentData =>
        match charge "Missing customer information" paymentData l with
        | (inl e, l') => failed e l'
        | (inr response, l') => (response, l')
        end
    end.

(** [error.type && error.type.includes('Stripe')] *)
Definition of_platform (e : Error) : bool :=
  match err_type e with
  | Some t => negb (String.eqb t "") && includes t "Stripe"
  | None => false
  end.

(** The version under [Functions/]: configuration, body and format are
    checked one by one, and the [catch] tells the platform's errors from
    the others. *)
Definition handler (env : Env) (event : Request) (l : Ledger)
  : Response * Ledger :=
  if String.eqb (httpMethod event) "OPTIONS" then
    ({| statusCode := 200; body := BodyEmpty |}, l)
  else if negb (String.eqb (httpMethod event) "POST") then
    ({| statusCode := 405;
        body := BodyError "Only POST requests allowed" None |}, l)
  else if missing (STRIPE_SECRET_KEY env) then
    ({| statusCode := 500;
        body := BodyError "Payment system not configured properly" None |}, l)
  else if missing (req_body event) then
    ({| statusCode := 400;
        body := BodyError "No payment data received" None |}, l)
  else
    match req_body event ≫= JSON_parse with
    | None =>
        ({| statusCode := 400;
            body := BodyError "Invalid payment data format" None |}, l)
    | Some paymentData =>
        match charge "Please provide both email and name" paymentData l with
        | (inl e, l') =>
            if of_platform e then
              ({| statusCode := 400;
                  body := BodyError "Payment processing error"
                            (Some (err_message e)) |}, l')
            else
              ({| statusCode := 500;
                  body := BodyError "Something went wrong with the payment"
                            (Some (err_message e)) |}, l')
        | (inr response, l') => (response, l')
        end
    end.

End Handlers.

(** An outcome shows a new intent exactly when it created one: the intents
    are those of [l] and the answer carries no client secret, or there is
    one more and the answer is 200 with its secret and identifier. *)
Definition reported (l : Ledger) (out : Response * Ledger) : Prop :=
  intents (snd out) = intents l
  ∧ (∀ secret id, body (fst out) ≠ BodyIntent secret id)
  ∨ ∃ i, intents (snd out) = i :: intents l
         ∧ fst out = {| statusCode := 200;
                        body := BodyIntent (intent_client_secret i)
                                  (intent_id i) |}.

End PaymentIntent.

(** ** [createPromotionalCoupon] of the earliest variant
    ([src/unnamed/part_002]) *)
Module CouponByList.

(** The coupons of the platform as [coupons.list] pages through them,
    newest first, and the calls made. *)
Inductive CouponCall : Type :=
  | CouponsList (limit : nat)
  | CouponsCreateWith (c : Coupon) (metadata : gmap string string).

Record Shelf : Type := {
  listed : list Coupon;
  asked : list CouponCall }.

Definition promotional_metadata : gmap string string :=
  {[ "description" :=
       "Promotional discount for first 4 weeks of meal plan" ]}.

Section Helper.

(** What the platform refuses for reasons of its own. *)
Variable refuses : list CouponCall → CouponCall → option string.

Definition coupons_list (limit : nat) (s : Shelf)
  : outcome (list Coupon) * Shelf :=
  let s' := {| listed := listed s;
               asked := (asked s ++ [CouponsList limit])%list |} in
  match refuses (asked s) (CouponsList limit) with
  | Some message => (Thrown message, s')
  | None => (Returned (take limit (listed s)), s')
  end.

(** The platform keeps one coupon per identifier. *)
Definition coupons_create (c : Coupon) (metadata : gmap string string)
    (s : Shelf) : outcome Coupon * Shelf :=
  let called := (asked s ++ [CouponsCreateWith c metadata])%list in
  match refuses (asked s) (CouponsCreateWith c metadata) with
  | Some message => (Thrown message, {| listed := listed s; asked := called |})
  | None =>
      if existsb (fun c' => String.eqb (coupon_id c') (coupon_id c))
           (listed s) then
        (Thrown "Coupon already exists.",
         {| listed := listed s; asked := called |})
      else (Returned c, {| listed := c :: listed s; asked := called |})
  end.

(** [coupon => coupon.id === 'FIRST_4_WEEKS_50_OFF'] *)
Definition promotional (coupon : Coupon) : bool :=
  String.eqb (coupon_id coupon) "FIRST_4_WEEKS_50_OFF".

(** The whole body is in a [try] whose [catch] returns [null]. *)
Definition createPromotionalCoupon (s : Shelf) : option string * Shelf :=
  match coupons_list 100 s with
  | (Thrown _, s1) => (None, s1)
  | (Returned existingCoupons, s1) =>
      match List.find promotional existingCoupons with
      | Some existingCoupon => (Some (coupon_id existingCoupon), s1)
      | None =>
          match coupons_create first_4_weeks promotional_metadata s1 with
          | (Thrown _, s2) => (None, s2)
          | (Returned coupon, s2) => (Some (coupon_id coupon), s2)
          end
      end
  end.

End Helper.
End CouponByList.

(** ** Further scenarios *)

Module Scenario.

Definition cancellation : json :=
  JObj [("type", JStr "customer.subscription.deleted");
        ("data", JObj [("object", JObj [("id", JStr "sub_1")])])].

(** The payment form filled in with an amount of zero, and without the
    customer. *)
Definition payment_body : json :=
  JObj [("amount", JNum 0); ("customer_email", JStr "a@x.com");
        ("customer_name", JStr "A")].

Definition anonymous_body : json := JObj [("amount", JNum 2500)].

Definition parse (payload : string) : option json :=
  if String.eqb payload "sub_1 cancelled" then Some cancellation
  else if String.eqb payload "payment of a@x.com" then Some payment_body
  else if String.eqb payload "payment without customer" then
    Some anonymous_body
  else Demo.parse payload.

(** The platform with some of its services down. *)
Definition refusing (down : Call → bool) : Runtime :=
  {| JSON_parse := parse; verifyHeader := Demo.verify;
     rejects := fun _ c =>
       if down c then Some "service unavailable" else None |}.

Definition runtime : Runtime := refusing (fun _ => false).

Definition no_customer_list (c : Call) : bool :=
  match c with
  | CustomersList _ _ => true
  | _ => false
  end.

Definition no_customer_update (c : Call) : bool :=
  match c with
  | CustomersUpdate _ _ => true
  | _ => false
  end.

Definition no_price_creation (c : Call) : bool :=
  match c with
  | PricesCreate _ _ _ _ => true
  | _ => false
  end.

Definition no_subscription_creation (c : Call) : bool :=
  match c with
  | SubscriptionsCreate _ => true
  | _ => false
  end.

Definition cancelled : Request := Demo.paid "sub_1 cancelled".

Definition not_json : Request :=
  {| httpMethod := "POST"; stripe_signature := None;
     req_body := Some "not json" |}.

Definition payment_request : Request :=
  {| httpMethod := "POST"; stripe_signature := None;
     req_body := Some "payment of a@x.com" |}.

Definition anonymous_request : Request :=
  {| httpMethod := "POST"; stripe_signature := None;
     req_body := Some "payment without customer" |}.

Definition add_on : Item :=
  {| item_id := "si_10"; item_price := PriceInline CouponInline.price_data |}.

Definition with_metadata (metadata : gmap string string)
    (items : list Item) : World :=
  {| customers := []; attached := ∅; products := []; prices := [];
     coupons := ∅;
     subscriptions :=
       {[ "sub_9" := {| sub_id := "sub_9"; sub_customer := "cus_0";
                        sub_items := items; sub_metadata := metadata;
                        sub_discounts := []; sub_status := "active";
                        sub_client_secret := "pi_9_secret" |} ]};
     next_id := 11%N; calls := [] |}.

Definition sub_of (w : World) (sid : string) : Subscription :=
  default Demo.sub_9 (subscriptions w !! sid).

(** [sub_9] in its last promotional week, with a second item. *)
Definition world_two_items : World :=
  with_metadata (sub_metadata Demo.sub_9) [Demo.item_9; add_on].

(** [sub_9] after three payments, its total lost. *)
Definition world_no_total : World :=
  with_metadata (<["promotional_weeks_used" := "3"]> ∅) [Demo.item_9].

(** [sub_9] with a counter that is no number. *)
Definition world_unreadable : World :=
  with_metadata
    (<["promotional_weeks_used" := "soon"]>
       (<["promotional_weeks_total" := "4"]> ∅)) [Demo.item_9].

(** [sub_1] after the four promotional payments. *)
Definition world_regular : World :=
  deliver (H := Demo.runtime) Demo.env
    [Demo.paid_1; Demo.paid_1; Demo.paid_1; Demo.paid_1]
    Demo.promotional_world.

(** A first checkout of a@x.com, step by step, on the platform [down]
    leaves up. *)
Definition customer_step (down : Call → bool) : outcome Customer * World :=
  resolve_customer (H := refusing down) "a@x.com" "A" "pm_1" empty_world.

Definition customer (down : Call → bool) : Customer :=
  match fst (customer_step down) with
  | Returned c => c
  | Thrown _ => Demo.returning_customer
  end.

Definition price_step (down : Call → bool) : outcome string * World :=
  create_price (H := refusing down) (snd (customer_step down)).

Definition price (down : Call → bool) : string :=
  match fst (price_step down) with
  | Returned p => p
  | Thrown message => message
  end.

Definition coupon_step : outcome (option string) * World :=
  promotional_coupon (H := runtime) empty_world.

(** A platform that turns every card down, with the SDK's error type. *)
Definition card_declined
  : PaymentIntent.Ledger → PaymentIntent.IntentParams
    → option PaymentIntent.Error :=
  fun _ _ =>
    Some {| PaymentIntent.err_type := Some "StripeCardError";
            PaymentIntent.err_message := "Your card was declined." |}.

Definition no_refusal
  : PaymentIntent.Ledger → PaymentIntent.IntentParams
    → option PaymentIntent.Error :=
  fun _ _ => None.

Definition empty_ledger : PaymentIntent.Ledger :=
  {| PaymentIntent.intents := []; PaymentIntent.requested := [] |}.

(** A hundred newer coupons before the promotional one. *)
Definition summer (n : nat) : Coupon :=
  {| coupon_id := "SUMMER_" +:+ NilZero.string_of_uint (Nat.to_uint n);
     percent_off := 10; duration := "once"; duration_in_months := 0;
     coupon_name := "Summer" |}.

Definition crowded_shelf : CouponByList.Shelf :=
  {| CouponByList.listed := (map summer (seq 0 100) ++ [first_4_weeks])%list;
     CouponByList.asked := [] |}.

End Scenario.

(** * Properties *)

Ltac run :=
  unfold respond in *;
  unfold bind, try_catch, ret, throw, api, log_call in *; simpl in *.

Ltac cases := repeat (case_match; simplify_eq/=; auto).

(** ** [parseInt] reads back what [toString] writes *)

Lemma parse_digits_uint d acc :
  parse_digits 10 (NilEmpty.string_of_uint d) (Some acc)
  = Some (uint_value d acc).
Proof.
  revert acc. induction d; intros acc; simpl; try reflexivity; apply IHd.
Qed.

Lemma of_uint_acc_value d p :
  Z.pos (Pos.of_uint_acc d p) = uint_value d (Z.pos p).
Proof.
  revert p. induction d; intros p; simpl; try reflexivity;
    rewrite IHd; f_equal; lia.
Qed.

Lemma of_uint_value d : Z.of_N (Pos.of_uint d) = uint_value d 0.
Proof.
  induction d; simpl; try reflexivity; try exact IHd;
    rewrite of_uint_acc_value; reflexivity.
Qed.

Lemma to_uint_value p : uint_value (Pos.to_uint p) 0 = Z.pos p.
Proof.
  rewrite <- of_uint_value, DecimalPos.Unsigned.of_to. reflexivity.
Qed.

Lemma parseInt_uint d :
  d ≠ Decimal.Nil →
  parseInt (NilEmpty.string_of_uint d) = Num (uint_value d 0)
  ∧ parseInt (String "-" (NilEmpty.string_of_uint d))
    = Num (- uint_value d 0).
Proof.
  intros Hd. destruct d as [|d|d|d|d|d|d|d|d|d|d]; try congruence;
    try (unfold parseInt; simpl; rewrite !parse_digits_uint;
         split; reflexivity).
  destruct d; unfold parseInt; simpl; rewrite ?parse_digits_uint;
    split; reflexivity.
Qed.

Lemma string_of_uint_nonnil d :
  d ≠ Decimal.Nil → NilZero.string_of_uint d = NilEmpty.string_of_uint d.
Proof. destruct d; [congruence | reflexivity ..]. Qed.

Lemma to_uint_nonnil p : Pos.to_uint p ≠ Decimal.Nil.
Proof.
  intros E. pose proof (to_uint_value p) as V. rewrite E in V. simpl in V. lia.
Qed.

Lemma parseInt_toString z : parseInt (toString (Num z)) = Num z.
Proof.
  destruct z as [|p|p]; [reflexivity| |]; simpl;
    unfold NilZero.string_of_int; simpl;
    rewrite (string_of_uint_nonnil _ (to_uint_nonnil p));
    destruct (parseInt_uint _ (to_uint_nonnil p)) as [P N];
    rewrite ?P, ?N, to_uint_value; reflexivity.
Qed.

Lemma toString_nonempty n : toString n ≠ "".
Proof.
  destruct n as [|z]; [discriminate|].
  intros E. pose proof (parseInt_toString z) as P. rewrite E in P.
  discriminate.
Qed.

#[local] Arguments toString : simpl never.

Example parseInt_examples :
  parseInt "0" = Num 0 /\ parseInt "4" = Num 4 /\ parseInt " -12px" = Num (-12)
  /\ parseInt "0x1F" = Num 31 /\ parseInt "" = NaN /\ parseInt "abc" = NaN
  /\ toString (Num 3) = "3" /\ toString (Num (-40)) = "-40"
  /\ toString (Num 0) = "0".
Proof. repeat split; reflexivity. Qed.

(** ** Metadata updates *)

Lemma lookup_merge_metadata (m : gmap string string)
    (u : gmap string (option string)) (k : string) :
  merge_metadata m u !! k = merge_key (m !! k) (u !! k).
Proof.
  unfold merge_metadata. rewrite lookup_merge.
  destruct (m !! k), (u !! k); reflexivity.
Qed.

Lemma lookup_spread (m : gmap string string) (k : string) :
  spread m !! k = Some <$> (m !! k).
Proof. unfold spread. apply lookup_fmap. Qed.

Lemma kept_Some v : v ≠ "" → kept (Some v) = Some v.
Proof.
  intros Hv. unfold kept. simpl.
  destruct (String.eqb_spec v ""); [contradiction | reflexivity].
Qed.

Lemma kept_None : kept None = None.
Proof. reflexivity. Qed.

Lemma kept_Some_inv o v : kept o = Some v → o = Some v.
Proof.
  destruct o as [x|]; unfold kept; simpl; [|discriminate].
  destruct (String.eqb x ""); [discriminate | tauto].
Qed.

Lemma lookup_counter_metadata (m : gmap string string) n (k : string) :
  merge_metadata m (StripeWebhook.counter_metadata m n) !! k
  = if decide (k = "promotional_weeks_used") then Some (toString n)
    else kept (m !! k).
Proof.
  rewrite lookup_merge_metadata. unfold StripeWebhook.counter_metadata.
  destruct (decide _) as [->|Hne].
  - rewrite lookup_insert_eq. simpl.
    destruct (String.eqb_spec (toString n) ""); [|reflexivity].
    by destruct (toString_nonempty n).
  - rewrite lookup_insert_ne by congruence. by rewrite lookup_spread.
Qed.

Lemma lookup_regular_metadata (m : gmap string string) (k : string) :
  merge_metadata m (StripeWebhook.regular_metadata m) !! k
  = if decide (k = "price_tier") then Some "regular"
    else if decide (k = "promotional_weeks_total") then None
    else if decide (k = "promotional_weeks_used") then None
    else kept (m !! k).
Proof.
  rewrite lookup_merge_metadata. unfold StripeWebhook.regular_metadata.
  destruct (decide (k = "price_tier")) as [->|?];
    [by rewrite lookup_insert_eq|].
  rewrite lookup_insert_ne by congruence.
  destruct (decide (k = "promotional_weeks_total")) as [->|?];
    [by rewrite lookup_insert_eq|].
  rewrite lookup_insert_ne by congruence.
  destruct (decide (k = "promotional_weeks_used")) as [->|?];
    [by rewrite lookup_insert_eq|].
  rewrite lookup_insert_ne by congruence. by rewrite lookup_spread.
Qed.

(** ** One invocation of the webhook *)

Section WebhookSteps.
Context `{Runtime}.

Lemma payment_succeeded_effect ev w r w' :
  well_keyed w →
  StripeWebhook.payment_succeeded ev w = (r, w') →
  advanced w w'.
Proof.
  intros Hk. unfold advanced.
  unfold StripeWebhook.payment_succeeded, read, subscriptions_retrieve,
    subscriptions_update.
  run. intros Hrun. cases.
  all: match goal with
       | Hs : subscriptions _ !! param ?v = Some ?a |- _ =>
           pose proof (Hk _ _ Hs) as Hid; rewrite Hid in *; simplify_eq
       end.
  all: right; eexists _, _; split; [eassumption|].
  all: f_equal; unfold advance.
  all: repeat match goal with Hm : _ = _ |- _ => rewrite Hm end; reflexivity.
Qed.

Lemma subscription_deleted_same ev w :
  snd (StripeWebhook.subscription_deleted ev w) = w.
Proof. unfold StripeWebhook.subscription_deleted, read. run. cases. Qed.

Lemma payment_failed_same ev w :
  snd (StripeWebhook.payment_failed ev w) = w.
Proof. unfold StripeWebhook.payment_failed, read. run. cases. Qed.

Lemma dispatch_effect type ev w r w' :
  well_keyed w →
  StripeWebhook.dispatch type ev w = (r, w') →
  advanced w w'.
Proof.
  intros Hk. unfold StripeWebhook.dispatch.
  assert (Hsame : ∀ x, (x, w) = (r, w') → advanced w w')
    by (intros; simplify_eq; by left).
  destruct type as [[| | |t| |]|]; try apply Hsame.
  repeat case_match; try apply Hsame.
  - by apply payment_succeeded_effect.
  - intros E. pose proof (subscription_deleted_same ev w) as S.
    rewrite E in S. simpl in S. subst. by left.
  - intros E. pose proof (payment_failed_same ev w) as S.
    rewrite E in S. simpl in S. subst. by left.
Qed.

Lemma handler_effect env event w r w' :
  well_keyed w →
  StripeWebhook.handler env event w = (r, w') →
  advanced w w'.
Proof.
  intros Hk. unfold StripeWebhook.handler, StripeWebhook.process.
  assert (Hsame : ∀ x, (x, w) = (r, w') → advanced w w')
    by (intros; simplify_eq; by left).
  destruct (negb _); [apply Hsame|].
  destruct (StripeWebhook.constructEvent _ _ _) as [ev|m]; [|apply Hsame].
  unfold read. run.
  destruct ev; try apply Hsame.
  all: destruct (StripeWebhook.dispatch _ _ w) as [[[]|m] w1] eqn:D.
  all: intros; simplify_eq; eapply dispatch_effect; eassumption.
Qed.

(** A verified successful-payment event for a subscription the platform
    knows, on a platform that refuses nothing: the subscription advances,
    nothing else changes. *)
Lemma handler_paid env event sid s w :
  accepts_all → well_keyed w →
  verified_payment env event sid →
  subscriptions w !! sid = Some s →
  ∃ r w', StripeWebhook.handler env event w = (Returned r, w')
          ∧ subscriptions w' = <[sid := advance s]> (subscriptions w)
          ∧ (sub_items s ≠ [] → statusCode r = 200).
Proof.
  intros Hok Hk (Hpost & ev & Hev & Hpaid) Hs.
  unfold StripeWebhook.handler. rewrite Hpost, Hev. simpl.
  unfold paid_subscription in Hpaid.
  unfold StripeWebhook.process, StripeWebhook.dispatch, read.
  destruct ev; try discriminate. simpl in Hpaid.
  destruct (assoc "type" fields) as [[| | |t| |]|] eqn:Ht; try discriminate.
  destruct (assoc "data" fields) as [data|] eqn:Hd; try discriminate.
  destruct (String.eqb t "invoice.payment_succeeded") eqn:Et;
    try discriminate.
  destruct (own_prop data "object") as [invoice|] eqn:Ho; try discriminate.
  destruct (own_prop invoice "subscription") as [[| | |sid'| |]|] eqn:Hsub;
    try discriminate.
  destruct (String.eqb_spec sid' ""); try discriminate. simplify_eq.
  pose proof (Hk _ _ Hs) as Hid.
  unfold StripeWebhook.payment_succeeded, read, subscriptions_retrieve,
    subscriptions_update.
  destruct data as [| | | | |dfields]; try discriminate.
  destruct invoice as [| | | | |ifields]; try discriminate.
  simpl in Ho, Hsub.
  run. rewrite Ht, Hd, Et. simpl. rewrite Ho. simpl. rewrite Hsub. simpl.
  destruct (String.eqb_spec sid "") as [|_]; [contradiction|]. simpl.
  rewrite !Hok, Hs. unfold advance.
  destruct (sub_metadata s !! "promotional_weeks_used") as [used|];
    [|eexists _, _; split; [reflexivity|];
      split; [by rewrite insert_id|done]].
  destruct (number_ge _ _).
  - destruct (sub_items s) as [|item rest] eqn:Hitems.
    + run. eexists _, _. split; [reflexivity|].
      split; [by rewrite insert_id|done].
    + simpl. rewrite Hok, Hid, Hs, Hitems. simpl. rewrite String.eqb_refl. simpl.
      eexists _, _. split; [reflexivity|]. split; [|done].
      simpl. f_equal.
  - simpl. rewrite Hok, Hid, Hs. simpl.
    eexists _, _. split; [reflexivity|]. done.
Qed.

End WebhookSteps.

(** ** The transition of one subscription *)

Lemma parseInt_Num_nonempty v z : parseInt v = Num z → v ≠ "".
Proof. intros P ->. discriminate. Qed.

Lemma advance_id s : sub_id (advance s) = sub_id s.
Proof. unfold advance. repeat case_match; reflexivity. Qed.

Lemma advance_regular s : regular s → advance s = s.
Proof. unfold regular, advance. by intros ->. Qed.

Lemma weeks_used_lookup s x :
  weeks_used s = Some x →
  ∃ v, sub_metadata s !! "promotional_weeks_used" = Some v ∧ parseInt v = x.
Proof.
  unfold weeks_used.
  destruct (sub_metadata s !! "promotional_weeks_used") as [v|];
    [|discriminate].
  intros [= <-]. eauto.
Qed.

Lemma weeks_total_lookup s x :
  weeks_total s = Some x →
  ∃ v, sub_metadata s !! "promotional_weeks_total" = Some v ∧ parseInt v = x.
Proof.
  unfold weeks_total.
  destruct (sub_metadata s !! "promotional_weeks_total") as [v|];
    [|discriminate].
  intros [= <-]. eauto.
Qed.

Lemma number_or_total s t :
  weeks_total s = Some (Num t) → t ≠ 0 →
  number_or (parseInt_opt (sub_metadata s !! "promotional_weeks_total")) 4
  = Num t.
Proof.
  intros (v & Ev & Pv)%weeks_total_lookup Hnz.
  rewrite Ev. simpl. rewrite Pv. simpl.
  destruct (Z.eqb_spec t 0); [contradiction | reflexivity].
Qed.

(** While the promotion lasts, a payment rewrites the counter and nothing
    else. *)
Lemma advance_counting s n t :
  weeks_used s = Some (Num n) → weeks_total s = Some (Num t) → t ≠ 0 →
  n + 1 < t →
  sub_items (advance s) = sub_items s
  ∧ ∀ k, sub_metadata (advance s) !! k
         = if decide (k = "promotional_weeks_used")
           then Some (toString (Num (n + 1)))
           else kept (sub_metadata s !! k).
Proof.
  intros (u & Eu & Pu)%weeks_used_lookup Ht Hnz Hlt. unfold advance.
  rewrite (number_or_total s t Ht Hnz), Eu, Pu. simpl.
  destruct (Z.leb_spec t (n + 1)); [lia|]. simpl.
  split; [reflexivity|]. intros k. rewrite lookup_counter_metadata.
  reflexivity.
Qed.

(** The payment that reaches the total re-prices the first item at the
    regular terms and sends the end-of-promotion metadata. *)
Lemma advance_switching s n t item rest :
  weeks_used s = Some (Num n) → weeks_total s = Some (Num t) → t ≠ 0 →
  t <= n + 1 → sub_items s = item :: rest →
  active_price (advance s) = Some regular_price
  ∧ ∀ k, sub_metadata (advance s) !! k
         = if decide (k = "price_tier") then Some "regular"
           else if decide (k = "promotional_weeks_total") then None
           else if decide (k = "promotional_weeks_used") then None
           else kept (sub_metadata s !! k).
Proof.
  intros (u & Eu & Pu)%weeks_used_lookup Ht Hnz Hge Hitems. unfold advance.
  rewrite (number_or_total s t Ht Hnz), Eu, Pu. simpl.
  destruct (Z.leb_spec t (n + 1)); [|lia]. rewrite Hitems. simpl.
  split.
  - unfold active_price. simpl. rewrite Hitems. simpl.
    by rewrite String.eqb_refl.
  - intros k. apply lookup_regular_metadata.
Qed.

(** However the counters read, a subscription that leaves the promotion
    does so at the regular price and without counters. *)
Lemma advance_becomes_regular s :
  ¬ regular s → regular (advance s) →
  active_price (advance s) = Some regular_price
  ∧ sub_metadata (advance s) !! "promotional_weeks_total" = None
  ∧ sub_metadata (advance s) !! "price_tier" = Some "regular".
Proof.
  unfold regular, advance. intros Hpromo.
  destruct (sub_metadata s !! "promotional_weeks_used") as [u|] eqn:Eu;
    [|done].
  destruct (number_ge _ _).
  - destruct (sub_items s) as [|item rest] eqn:Hitems; [congruence|].
    intros _. simpl. rewrite !lookup_regular_metadata. simpl.
    unfold active_price. simpl. rewrite Hitems. simpl.
    by rewrite String.eqb_refl.
  - simpl. rewrite lookup_counter_metadata. simpl. discriminate.
Qed.

Lemma counters_ok_spec s :
  counters_ok s
  ↔ regular s
    ∨ ∃ n t, weeks_used s = Some (Num n) ∧ weeks_total s = Some (Num t)
             ∧ 0 <= n <= t ∧ ¬ (t <= n) ∧ t <= MAX_SAFE_INTEGER.
Proof.
  unfold counters_ok, regular, weeks_used.
  destruct (sub_metadata s !! "promotional_weeks_used") as [u|]; simpl;
    [|tauto].
  destruct (parseInt u) as [|n];
    [split; [tauto | intros [?|(?&?&?&_)]; discriminate]|].
  destruct (weeks_total s) as [[|t]|];
    try (split; [tauto | intros [?|(?&?&_&?&_)]; discriminate]).
  split.
  - intros Hok. right. by exists n, t.
  - intros [?|(n' & t' & [= <-] & [= <-] & Hok)]; [discriminate | exact Hok].
Qed.

Lemma advance_counters_ok s : counters_ok s → counters_ok (advance s).
Proof.
  rewrite !counters_ok_spec.
  intros [Hreg | (n & t & Hu & Ht & Hrange & Hlt & Hmax)].
  { left. by rewrite advance_regular. }
  destruct (Z.le_gt_cases t (n + 1)).
  - destruct (sub_items s) as [|item rest] eqn:Hitems.
    + assert (advance s = s) as ->; [|right; by exists n, t].
      pose proof Hu as (u' & Eu' & Pu)%weeks_used_lookup.
      unfold advance. rewrite Eu', (number_or_total s t Ht), Pu by lia.
      simpl. destruct (Z.leb_spec t (n + 1)); [|lia]. by rewrite Hitems.
    + destruct (advance_switching s n t item rest) as [_ Hm];
        [done|done|lia|lia|done|].
      left. unfold regular. by rewrite Hm.
  - destruct (advance_counting s n t Hu Ht) as [_ Hm]; [lia..|].
    right. exists (n + 1), t. unfold weeks_used, weeks_total. rewrite !Hm.
    simpl. rewrite parseInt_toString.
    apply weeks_total_lookup in Ht as (v & Ev & Pv). rewrite Ev.
    rewrite (kept_Some v) by (eapply parseInt_Num_nonempty; eassumption).
    simpl. rewrite Pv. repeat split; lia.
Qed.

(** ** Sequences of invocations *)

Lemma advanced_lookup w w' id s' :
  advanced w w' → subscriptions w' !! id = Some s' →
  ∃ s, subscriptions w !! id = Some s ∧ (s' = s ∨ s' = advance s).
Proof.
  intros [E | (sid & s & Hs & E)]; rewrite E; [eauto|].
  destruct (decide (sid = id)) as [->|Hne].
  - rewrite lookup_insert_eq. intros [= <-]. eauto.
  - rewrite lookup_insert_ne by done. eauto.
Qed.

Lemma advanced_lookup_forward w w' id s :
  advanced w w' → subscriptions w !! id = Some s →
  ∃ s', subscriptions w' !! id = Some s' ∧ (s' = s ∨ s' = advance s).
Proof.
  intros [E | (sid & s0 & Hs & E)] Hid; rewrite E; [eauto|].
  destruct (decide (sid = id)) as [->|Hne].
  - rewrite lookup_insert_eq. simplify_eq. eauto.
  - rewrite lookup_insert_ne by done. eauto.
Qed.

Lemma advanced_well_keyed w w' :
  well_keyed w → advanced w w' → well_keyed w'.
Proof.
  intros Hk Hadv id s' Hs'.
  destruct (advanced_lookup _ _ _ _ Hadv Hs') as (s & Hs & [->| ->]).
  - eauto.
  - rewrite advance_id. eauto.
Qed.

Section Sequences.
Context `{Runtime}.

Lemma deliver_cons env event events w :
  deliver env (event :: events) w
  = deliver env events (snd (StripeWebhook.handler env event w)).
Proof. reflexivity. Qed.

Lemma handler_advanced env event w :
  well_keyed w → advanced w (snd (StripeWebhook.handler env event w)).
Proof.
  intros Hk. destruct (StripeWebhook.handler env event w) as [r w'] eqn:E.
  eapply handler_effect; eassumption.
Qed.

Lemma deliver_well_keyed env events w :
  well_keyed w → well_keyed (deliver env events w).
Proof.
  revert w. induction events as [|event events IH]; intros w Hk; [done|].
  rewrite deliver_cons. apply IH.
  eapply advanced_well_keyed; [done|]. by apply handler_advanced.
Qed.

(** Verified payments for one subscription, on a platform that refuses
    nothing, advance it once each. *)
Lemma deliver_paid env sid events : ∀ w s,
  accepts_all → well_keyed w →
  Forall (fun event => verified_payment env event sid) events →
  subscriptions w !! sid = Some s →
  subscriptions (deliver env events w) !! sid
  = Some (fold_left (fun s _ => advance s) events s).
Proof.
  induction events as [|event events IH]; intros w s Hok Hk Hall Hs;
    [done|].
  apply Forall_cons in Hall as [Hev Hall].
  rewrite deliver_cons. simpl.
  destruct (handler_paid env event sid s w Hok Hk Hev Hs)
    as (r & w' & Hrun & Hsubs & _).
  pose proof (handler_advanced env event w Hk) as Hadv.
  rewrite Hrun in *. simpl in *.
  apply IH; [done| |done|].
  - eapply advanced_well_keyed; eassumption.
  - rewrite Hsubs. apply lookup_insert_eq.
Qed.

End Sequences.

(** [k] payments that stay below the total leave the counter at [n + k],
    and the total and the items as they were. *)
Lemma counting_run (events : list Request) : ∀ s n t,
  weeks_used s = Some (Num n) → weeks_total s = Some (Num t) → 0 <= n →
  n + Z.of_nat (length events) < t →
  let s' := fold_left (fun s _ => advance s) events s in
  weeks_used s' = Some (Num (n + Z.of_nat (length events)))
  ∧ weeks_total s' = Some (Num t)
  ∧ sub_items s' = sub_items s
  ∧ (events ≠ [] →
     sub_metadata s' !! "promotional_weeks_used"
     = Some (toString (Num (n + Z.of_nat (length events)))))
  ∧ ∀ k v, sub_metadata s' !! k = Some v →
           k = "promotional_weeks_used" ∨ sub_metadata s !! k = Some v.
Proof.
  induction events as [|event events IH] using rev_ind;
    intros s n t Hu Ht Hn Hlt; simpl in *.
  { rewrite Z.add_0_r. repeat split; auto. congruence. }
  rewrite length_app in *. simpl in *. rewrite fold_left_app. simpl.
  destruct (IH s n t Hu Ht Hn) as (Hu' & Ht' & Hi' & _ & Hk'); [lia|].
  set (s1 := fold_left (fun s _ => advance s) events s) in *.
  destruct (advance_counting s1 _ t Hu' Ht') as [Hi Hm]; [lia..|].
  assert (Hsame : ∀ k, k ≠ "promotional_weeks_used" →
            sub_metadata (advance s1) !! k = kept (sub_metadata s1 !! k)).
  { intros k Hne. rewrite Hm. by destruct (decide _). }
  replace (n + Z.of_nat (length events + 1))
    with (n + Z.of_nat (length events) + 1) by lia.
  repeat split.
  - unfold weeks_used. rewrite Hm. simpl. by rewrite parseInt_toString.
  - unfold weeks_total. rewrite Hsame by done.
    apply weeks_total_lookup in Ht' as (v & Ev & Pv). rewrite Ev.
    rewrite (kept_Some v) by (eapply parseInt_Num_nonempty; eassumption).
    simpl. by rewrite Pv.
  - by rewrite Hi.
  - intros _. by rewrite Hm.
  - intros k v. destruct (decide (k = "promotional_weeks_used")); [auto|].
    rewrite Hsame by done. intros Hv%kept_Some_inv. auto.
Qed.

(** The metadata the promotional checkout gives a new subscription: counters
    at 0 of 4 and a regular amount of 2000. *)
Lemma promotional_checkout_counters s customer_email customer_name :
  sub_metadata s = PromotionalRate.metadata customer_email customer_name →
  weeks_used s = Some (Num 0) ∧ weeks_total s = Some (Num 4)
  ∧ regular_price_amount s = Some (Num 2000).
Proof.
  intros Hm. unfold weeks_used, weeks_total, regular_price_amount.
  rewrite Hm. unfold PromotionalRate.metadata.
  rewrite lookup_insert_eq.
  rewrite (lookup_insert_ne _ "promotional_weeks_used") by discriminate.
  rewrite lookup_insert_eq.
  rewrite !(lookup_insert_ne _ _ "regular_price_amount") by discriminate.
  rewrite lookup_insert_eq. repeat split; reflexivity.
Qed.

Section BillingEventProcessor.
Context `{Runtime}.

(** C1. A subscription whose counters read 0 of 4 receives verified
    successful-payment events, on a platform that refuses no call: after
    one, two or three events the stored counter is the number of events
    and the items, so the promotional price, are unchanged; after the
    fourth both counters are gone and the subscription is billed the
    regular terms. *)
Theorem promotion_lasts_four_payments env sid s w events :
  accepts_all → well_keyed w →
  subscriptions w !! sid = Some s →
  weeks_used s = Some (Num 0) → weeks_total s = Some (Num 4) →
  sub_items s ≠ [] →
  Forall (fun event => verified_payment env event sid) events →
  ∃ s', subscriptions (deliver env events w) !! sid = Some s'
    ∧ ((1 <= length events <= 3)%nat →
       sub_metadata s' !! "promotional_weeks_used"
       = Some (toString (Num (Z.of_nat (length events))))
       ∧ weeks_total s' = Some (Num 4)
       ∧ sub_items s' = sub_items s)
    ∧ (length events = 4%nat →
       sub_metadata s' !! "promotional_weeks_used" = None
       ∧ sub_metadata s' !! "promotional_weeks_total" = None
       ∧ active_price s' = Some regular_price).
Proof.
  intros Hok Hk Hs Hu Ht Hitems Hall.
  rewrite (deliver_paid env sid events w s Hok Hk Hall Hs).
  eexists. split; [reflexivity|]. split.
  - intros Hlen.
    destruct (counting_run events s 0 4 Hu Ht) as (_ & Ht' & Hi & Hm & _);
      [lia..|].
    rewrite Hm by (intros ->; simpl in Hlen; lia). done.
  - intros Hlen.
    destruct events as [|e1 [|e2 [|e3 [|e4 [|]]]]]; try discriminate.
    destruct (counting_run [e1; e2; e3] s 0 4 Hu Ht) as (Hu' & Ht' & Hi & _);
      [simpl; lia..|].
    simpl in *.
    set (s3 := advance (advance (advance s))) in *.
    destruct (sub_items s) as [|item rest] eqn:Hs3; [done|].
    destruct (advance_switching s3 _ 4 item rest Hu' Ht') as [Hp Hm];
      [lia | lia | done |].
    by rewrite !Hm.
Qed.

(** C3. Whatever requests reach the webhook and whatever the platform
    refuses, the counters of every subscription keep their invariant
    ([0 <= weeks_used <= weeks_total], and never [weeks_used >=
    weeks_total] while they are there); a subscription that has left the
    promotion is billed the regular terms, has no counters and is tagged
    regular; and a subscription without counters is never changed again. *)
Theorem counters_invariant_and_regular_absorbing env events w :
  well_keyed w →
  map_Forall (fun _ s => counters_ok s) (subscriptions w) →
  map_Forall (fun _ s => counters_ok s)
    (subscriptions (deliver env events w))
  ∧ ∀ sid s, subscriptions w !! sid = Some s →
      ∃ s', subscriptions (deliver env events w) !! sid = Some s'
        ∧ (regular s → s' = s)
        ∧ (¬ regular s → regular s' →
           active_price s' = Some regular_price
           ∧ sub_metadata s' !! "promotional_weeks_total" = None
           ∧ sub_metadata s' !! "price_tier" = Some "regular").
Proof.
  revert w. induction events as [|event events IH]; intros w Hk Hinv.
  { split; [done|]. intros sid s Hs. exists s. simpl. tauto. }
  rewrite deliver_cons.
  pose proof (handler_advanced env event w Hk) as Hadv.
  set (w1 := snd (StripeWebhook.handler env event w)) in *.
  assert (Hk1 : well_keyed w1) by (eapply advanced_well_keyed; eassumption).
  assert (Hinv1 : map_Forall (fun _ s => counters_ok s) (subscriptions w1)).
  { intros id s1 Hs1.
    destruct (advanced_lookup _ _ _ _ Hadv Hs1) as (s & Hs & [->| ->]).
    - exact (Hinv _ _ Hs).
    - apply advance_counters_ok. exact (Hinv _ _ Hs). }
  destruct (IH w1 Hk1 Hinv1) as [Hall Hlater]. split; [exact Hall|].
  intros sid s Hs.
  destruct (advanced_lookup_forward _ _ _ _ Hadv Hs) as (s1 & Hs1 & Hstep).
  destruct (Hlater sid s1 Hs1) as (s' & Hs' & Hstay & Hleft).
  exists s'. split; [exact Hs'|]. split.
  - intros Hreg. destruct Hstep as [->| ->]; [by apply Hstay|].
    rewrite advance_regular in * by done. by apply Hstay.
  - intros Hpromo Hreg'. destruct Hstep as [->| ->]; [by apply Hleft|].
    destruct (decide (regular (advance s))) as [Hreg1|Hpromo1].
    + rewrite (Hstay Hreg1). by apply advance_becomes_regular.
    + by apply Hleft.
Qed.

End BillingEventProcessor.

Section EventApplication.
Context `{Runtime}.

(** C2, as the webhook behaves: a second delivery of the same event
    counts again. For counters [n] of [t] with [0 <= n] and
    [n + 2 < t <= MAX_SAFE_INTEGER], on a platform that refuses no call,
    the counter is [n + 1] after the first delivery of a verified
    successful-payment event and [n + 2] after the second delivery of the
    same event; the first delivery stores no metadata key besides the
    counter, so nothing of the invoice is recorded. *)
Theorem redelivery_counts_again env event sid s w n t :
  accepts_all → well_keyed w →
  subscriptions w !! sid = Some s →
  weeks_used s = Some (Num n) → weeks_total s = Some (Num t) →
  0 <= n → n + 2 < t → t <= MAX_SAFE_INTEGER →
  verified_payment env event sid →
  counter_after env [event] w sid = Some (toString (Num (n + 1)))
  ∧ counter_after env [event; event] w sid = Some (toString (Num (n + 2)))
  ∧ ∃ s1, subscriptions (deliver env [event] w) !! sid = Some s1
      ∧ ∀ k v, sub_metadata s1 !! k = Some v →
               k = "promotional_weeks_used" ∨ sub_metadata s !! k = Some v.
Proof.
  intros Hok Hk Hs Hu Ht Hn Hlt _ Hev. unfold counter_after.
  assert (H1 : Forall (fun e => verified_payment env e sid) [event])
    by (constructor; [exact Hev | constructor]).
  assert (H2 : Forall (fun e => verified_payment env e sid) [event; event])
    by (constructor; [exact Hev | exact H1]).
  rewrite (deliver_paid env sid [event] w s Hok Hk H1 Hs).
  rewrite (deliver_paid env sid [event; event] w s Hok Hk H2 Hs).
  clear H1 H2.
  destruct (counting_run [event] s n t Hu Ht Hn) as (_ & _ & _ & H1 & Hnew);
    [simpl; lia|].
  destruct (counting_run [event; event] s n t Hu Ht Hn) as (_ & _ & _ & H2 & _);
    [simpl; lia|].
  simpl in *. rewrite H1, H2 by done. eauto.
Qed.

(** C4, as the webhook behaves: with counters that are safe integers,
    the payment that reaches the total answers 200 and leaves the
    subscription billed the fixed regular terms (2000 AUD cents a week),
    whatever [regular_price_amount] reads; both counters are removed, the
    tier is tagged regular, and the plan identifier and the stored regular
    amount stay as they were. *)
Theorem end_of_promotion env event sid s w n t item rest :
  accepts_all → well_keyed w →
  verified_payment env event sid →
  subscriptions w !! sid = Some s →
  weeks_used s = Some (Num n) → weeks_total s = Some (Num t) →
  safe_integer n → safe_integer t → t ≠ 0 →
  t <= n + 1 → sub_items s = item :: rest →
  ∃ r w' s',
    StripeWebhook.handler env event w = (Returned r, w')
    ∧ statusCode r = 200
    ∧ subscriptions w' !! sid = Some s'
    ∧ active_price s' = Some regular_price
    ∧ active_amount s' = Some (Num 2000)
    ∧ sub_metadata s' !! "promotional_weeks_used" = None
    ∧ sub_metadata s' !! "promotional_weeks_total" = None
    ∧ sub_metadata s' !! "price_tier" = Some "regular"
    ∧ (∀ k v, (k = "plan_type" ∨ k = "regular_price_amount") →
              sub_metadata s !! k = Some v → v ≠ "" →
              sub_metadata s' !! k = Some v)
    ∧ (regular_price_amount s = Some (Num 2000) →
       active_amount s' = regular_price_amount s').
Proof.
  intros Hok Hk Hev Hs Hu Ht _ _ Hnz Hge Hitems.
  destruct (handler_paid env event sid s w Hok Hk Hev Hs)
    as (r & w' & Hrun & Hsubs & Hstatus).
  destruct (advance_switching s n t item rest Hu Ht Hnz Hge Hitems)
    as [Hp Hm].
  exists r, w', (advance s). split; [exact Hrun|].
  split; [apply Hstatus; by rewrite Hitems|].
  split; [rewrite Hsubs; apply lookup_insert_eq|].
  split; [exact Hp|]. split; [unfold active_amount; by rewrite Hp|].
  assert (Hkeep : ∀ k v, (k = "plan_type" ∨ k = "regular_price_amount") →
            sub_metadata s !! k = Some v → v ≠ "" →
            sub_metadata (advance s) !! k = Some v).
  { intros k v Hkey Hv Hne. rewrite Hm, Hv.
    destruct Hkey as [-> | ->]; simpl; by apply kept_Some. }
  rewrite !Hm. repeat split; try reflexivity; [exact Hkeep|].
  unfold regular_price_amount, active_amount. rewrite Hp.
  destruct (sub_metadata s !! "regular_price_amount") as [v|] eqn:Hv;
    [|discriminate].
  simpl. intros [= Pv].
  rewrite (Hkeep _ v (or_intror eq_refl) Hv)
    by (eapply parseInt_Num_nonempty; eassumption).
  simpl. by rewrite Pv.
Qed.

End EventApplication.

(** ** Signature verification comes first *)

Section SignatureVerification.
Context `{Runtime}.

(** C6. A POST to the webhook without a signature header, or with one
    that does not verify against the signing secret, is answered 400; the
    platform state and its record of calls are what they were, so nothing
    was retrieved or updated. *)
Theorem unverified_event_rejected env event w :
  httpMethod event = "POST" →
  (stripe_signature event = None
   ∨ ∃ p h k, req_body event = Some p ∧ stripe_signature event = Some h
              ∧ STRIPE_WEBHOOK_SECRET env = Some k
              ∧ verifyHeader p h k = false) →
  ∃ text,
    StripeWebhook.handler env event w
    = (Returned {| statusCode := 400; body := BodyText text |}, w).
Proof.
  intros Hpost Hbad. unfold StripeWebhook.handler. rewrite Hpost. simpl.
  assert (Hthrow : ∃ m, StripeWebhook.constructEvent (req_body event)
                          (stripe_signature event)
                          (STRIPE_WEBHOOK_SECRET env) = Thrown m).
  { unfold StripeWebhook.constructEvent.
    destruct Hbad as [-> | (p & h & k & -> & -> & -> & ->)].
    - destruct (req_body event); eauto.
    - eauto. }
  destruct Hthrow as [m ->]. eauto.
Qed.

End SignatureVerification.

(** Against C2 as stated: on the platform left by two promotional
    checkouts, the counter of [sub_1] is 1 after the event for invoice
    [in_1] and 2 after the same event is delivered again. *)
Lemma redelivery_increments_twice :
  counter_after (H := Demo.runtime) Demo.env [Demo.paid_1]
    Demo.promotional_world "sub_1" = Some "1"
  ∧ counter_after (H := Demo.runtime) Demo.env [Demo.paid_1; Demo.paid_1]
      Demo.promotional_world "sub_1" = Some "2".
Proof. split; vm_compute; reflexivity. Qed.

(** Against C4 as stated: the subscription whose metadata names
    2500 as the regular amount is billed 2000 once its promotion ends. *)
Lemma regular_amount_not_read :
  ∃ s', subscriptions (deliver (H := Demo.runtime) Demo.env [Demo.paid_9]
                         Demo.world_9) !! "sub_9" = Some s'
        ∧ sub_metadata s' !! "promotional_weeks_used" = None
        ∧ regular_price_amount s' = Some (Num 2500)
        ∧ active_amount s' = Some (Num 2000).
Proof. eexists. split; [vm_compute; reflexivity|]. by vm_compute. Qed.

(** ** The concrete scenario meets the hypotheses *)

Lemma demo_accepts_all : accepts_all (H := Demo.runtime).
Proof. intros h c. reflexivity. Defined.

Lemma demo_paid_1 :
  verified_payment (H := Demo.runtime) Demo.env Demo.paid_1 "sub_1".
Proof. split; [reflexivity|]. eexists. split; reflexivity. Defined.

Lemma demo_paid_9 :
  verified_payment (H := Demo.runtime) Demo.env Demo.paid_9 "sub_9".
Proof. split; [reflexivity|]. eexists. split; reflexivity. Defined.

Lemma demo_promotional_world_keyed : well_keyed Demo.promotional_world.
Proof. refine (bool_decide_unpack _ _). vm_compute. exact I. Defined.

Lemma demo_world_9_keyed : well_keyed Demo.world_9.
Proof. refine (bool_decide_unpack _ _). vm_compute. exact I. Defined.

Lemma promotion_lasts_four_payments_witness :
  ∃ s', subscriptions
          (deliver (H := Demo.runtime) Demo.env
             [Demo.paid_1; Demo.paid_1; Demo.paid_1; Demo.paid_1]
             Demo.promotional_world) !! "sub_1" = Some s'
        ∧ sub_metadata s' !! "promotional_weeks_used" = None
        ∧ sub_metadata s' !! "promotional_weeks_total" = None
        ∧ active_price s' = Some regular_price.
Proof.
  destruct (promotion_lasts_four_payments (H := Demo.runtime) Demo.env "sub_1"
              (default Demo.sub_9
                 (subscriptions Demo.promotional_world !! "sub_1"))
              Demo.promotional_world
              [Demo.paid_1; Demo.paid_1; Demo.paid_1; Demo.paid_1])
    as (s' & Hs' & _ & Hfour).
  - exact demo_accepts_all.
  - exact demo_promotional_world_keyed.
  - vm_compute. reflexivity.
  - vm_compute. reflexivity.
  - vm_compute. reflexivity.
  - vm_compute. intros E. discriminate E.
  - repeat (apply Forall_cons_2; [exact demo_paid_1|]). apply Forall_nil_2.
  - exists s'. split; [exact Hs' | exact (Hfour eq_refl)].
Defined.

Lemma counters_invariant_and_regular_absorbing_witness :
  map_Forall (fun _ s => counters_ok s)
    (subscriptions
       (deliver (H := Demo.runtime) Demo.env
          [Demo.paid_1; Demo.forged; Demo.paid_1; Demo.unsigned]
          Demo.promotional_world)).
Proof.
  apply (counters_invariant_and_regular_absorbing (H := Demo.runtime)
           Demo.env [Demo.paid_1; Demo.forged; Demo.paid_1; Demo.unsigned]
           Demo.promotional_world).
  - exact demo_promotional_world_keyed.
  - refine (bool_decide_unpack _ _). vm_compute. exact I.
Defined.

Lemma redelivery_counts_again_witness :
  counter_after (H := Demo.runtime) Demo.env [Demo.paid_1; Demo.paid_1]
    Demo.promotional_world "sub_1" = Some (toString (Num (0 + 2))).
Proof.
  apply (redelivery_counts_again (H := Demo.runtime) Demo.env Demo.paid_1
           "sub_1"
           (default Demo.sub_9
              (subscriptions Demo.promotional_world !! "sub_1"))
           Demo.promotional_world 0 4).
  - exact demo_accepts_all.
  - exact demo_promotional_world_keyed.
  - vm_compute. reflexivity.
  - vm_compute. reflexivity.
  - vm_compute. reflexivity.
  - lia.
  - lia.
  - unfold MAX_SAFE_INTEGER. lia.
  - exact demo_paid_1.
Defined.

Lemma end_of_promotion_witness :
  ∃ r w' s',
    StripeWebhook.handler (H := Demo.runtime) Demo.env Demo.paid_9
      Demo.world_9 = (Returned r, w')
    ∧ statusCode r = 200
    ∧ subscriptions w' !! "sub_9" = Some s'
    ∧ active_price s' = Some regular_price
    ∧ sub_metadata s' !! "plan_type" = Some "weekly-meal-plan".
Proof.
  destruct (end_of_promotion (H := Demo.runtime) Demo.env Demo.paid_9 "sub_9"
              Demo.sub_9 Demo.world_9 3 4 Demo.item_9 [])
    as (r & w' & s' & Hrun & Hstatus & Hs' & Hprice & _ & _ & _ & _ & Hkeep
        & _).
  - exact demo_accepts_all.
  - exact demo_world_9_keyed.
  - exact demo_paid_9.
  - vm_compute. reflexivity.
  - vm_compute. reflexivity.
  - vm_compute. reflexivity.
  - unfold safe_integer, MAX_SAFE_INTEGER. lia.
  - unfold safe_integer, MAX_SAFE_INTEGER. lia.
  - lia.
  - lia.
  - reflexivity.
  - exists r, w', s'. repeat split; try assumption.
    apply Hkeep; [by left | by vm_compute | discriminate].
Defined.

Lemma unverified_event_rejected_witness :
  (∃ text,
     StripeWebhook.handler (H := Demo.runtime) Demo.env Demo.unsigned
       Demo.promotional_world
     = (Returned {| statusCode := 400; body := BodyText text |},
        Demo.promotional_world))
  ∧ ∃ text,
      StripeWebhook.handler (H := Demo.runtime) Demo.env Demo.forged
        Demo.promotional_world
      = (Returned {| statusCode := 400; body := BodyText text |},
         Demo.promotional_world).
Proof.
  split.
  - apply (unverified_event_rejected (H := Demo.runtime)); [reflexivity|].
    left. reflexivity.
  - apply (unverified_event_rejected (H := Demo.runtime)); [reflexivity|].
    right. exists "invoice in_1 paid for sub_1", "signed:guess", "whsec".
    repeat split; reflexivity.
Defined.

(** ** The checkout function before its first call to the platform *)

Section CheckoutGuards.
Context `{Runtime}.

Lemma checkout_unconfigured missing_fields steps env event w :
  httpMethod event = "POST" →
  missing (STRIPE_SECRET_KEY env) = true →
  checkout missing_fields steps env event w
  = (Returned {| statusCode := 500;
                 body := BodyError "Payment system not configured properly"
                           None |}, w).
Proof. intros Hpost Hkey. unfold checkout. by rewrite Hpost, Hkey. Qed.

Lemma checkout_no_body missing_fields steps env event w :
  httpMethod event = "POST" →
  missing (STRIPE_SECRET_KEY env) = false →
  missing (req_body event) = true →
  checkout missing_fields steps env event w
  = (Returned {| statusCode := 400;
                 body := BodyError "No subscription data received" None |},
     w).
Proof.
  intros Hpost Hkey Hbody. unfold checkout. by rewrite Hpost, Hkey, Hbody.
Qed.

Lemma checkout_missing_field missing_fields steps env event w b v :
  httpMethod event = "POST" →
  missing (STRIPE_SECRET_KEY env) = false →
  missing (req_body event) = false →
  req_body event = Some b → JSON_parse b = Some v → v ≠ JNull →
  truthy (own_prop v "customer_email") = false
  ∨ truthy (own_prop v "customer_name") = false
  ∨ truthy (own_prop v "payment_method_id") = false →
  checkout missing_fields steps env event w
  = (Returned {| statusCode := 400;
                 body := BodyError missing_fields None |}, w).
Proof.
  intros Hpost Hkey Hbody Hb Hv Hnull Hfield. unfold checkout.
  rewrite Hpost, Hkey, Hbody, Hb. simpl. unfold parse_fields. rewrite Hv.
  assert (Hfalsy : negb (truthy (own_prop v "customer_email"))
                   || negb (truthy (own_prop v "customer_name"))
                   || negb (truthy (own_prop v "payment_method_id")) = true).
  { destruct Hfield as [-> | [-> | ->]]; simpl;
      rewrite ?orb_true_r; reflexivity. }
  destruct v; try done; run; by rewrite Hfalsy.
Qed.

(** With all three fields there, the checkout goes on to its steps. *)
Lemma checkout_steps missing_fields steps env event w b v :
  httpMethod event = "POST" →
  missing (STRIPE_SECRET_KEY env) = false →
  missing (req_body event) = false →
  req_body event = Some b → JSON_parse b = Some v → v ≠ JNull →
  truthy (own_prop v "customer_email") = true →
  truthy (own_prop v "customer_name") = true →
  truthy (own_prop v "payment_method_id") = true →
  checkout missing_fields steps env event w
  = try_catch
      (steps (param (own_prop v "customer_email"))
         (param (own_prop v "customer_name"))
         (param (own_prop v "payment_method_id")))
      (fun message =>
         respond 500
           (BodyError "Something went wrong with the subscription"
              (Some message))) w.
Proof.
  intros Hpost Hkey Hbody Hb Hv Hnull He Hn Hp. unfold checkout.
  rewrite Hpost, Hkey, Hbody, Hb. simpl. unfold parse_fields. rewrite Hv.
  destruct v; try done; unfold try_catch, bind, ret; simpl in *;
    by rewrite He, Hn, Hp.
Qed.

(** C7. A POST to the checkout of a configured deployment whose body is
    absent or empty, or is a JSON value in which [customer_email],
    [customer_name] or [payment_method_id] is missing or empty (or falsy
    in another way), is answered 400, and the platform state with its
    record of calls is what it was: no call was issued. *)
Theorem missing_field_rejected env event w :
  httpMethod event = "POST" →
  missing (STRIPE_SECRET_KEY env) = false →
  (missing (req_body event) = true
   ∨ ∃ b v, req_body event = Some b ∧ JSON_parse b = Some v ∧ v ≠ JNull
            ∧ (truthy (own_prop v "customer_email") = false
               ∨ truthy (own_prop v "customer_name") = false
               ∨ truthy (own_prop v "payment_method_id") = false)) →
  ∃ error,
    CreateSubscription.handler env event w
    = (Returned {| statusCode := 400; body := BodyError error None |}, w).
Proof.
  intros Hpost Hkey Hcase. unfold CreateSubscription.handler.
  destruct (missing (req_body event)) eqn:Hbody.
  - eexists. by apply checkout_no_body.
  - destruct Hcase as [|(b & v & Hb & Hv & Hnull & Hfield)]; [done|].
    eexists. by eapply checkout_missing_field.
Qed.

(** C8, as the functions behave: a POST to the checkout without the
    platform secret key is answered 500 before any call; a POST to the
    webhook without the signing secret is answered 400, the answer of a
    failed signature check, before any call. *)
Theorem configuration_errors env event w :
  httpMethod event = "POST" →
  (missing (STRIPE_SECRET_KEY env) = true →
   CreateSubscription.handler env event w
   = (Returned {| statusCode := 500;
                  body := BodyError "Payment system not configured properly"
                            None |}, w))
  ∧ (STRIPE_WEBHOOK_SECRET env = None →
     ∃ text,
       StripeWebhook.handler env event w
       = (Returned {| statusCode := 400; body := BodyText text |}, w)).
Proof.
  intros Hpost. split.
  - intros Hkey. by apply checkout_unconfigured.
  - intros Hsecret. unfold StripeWebhook.handler,
      StripeWebhook.constructEvent.
    rewrite Hpost, Hsecret. simpl.
    destruct (req_body event), (stripe_signature event); eauto.
Qed.

End CheckoutGuards.

(** Against C8 as stated: the webhook of a deployment without
    signing secret answers a signed event with 400, not 500. *)
Lemma webhook_without_signing_secret :
  ∃ r, StripeWebhook.handler (H := Demo.runtime) Demo.no_signing_secret
         Demo.paid_1 Demo.promotional_world
       = (Returned r, Demo.promotional_world)
       ∧ statusCode r = 400 ∧ statusCode r ≠ 500.
Proof. eexists. split; [reflexivity|]. split; [reflexivity | discriminate]. Qed.

Lemma missing_field_rejected_witness :
  ∃ error,
    CreateSubscription.handler (H := Demo.runtime) Demo.env
      Demo.no_email_request Demo.promotional_world
    = (Returned {| statusCode := 400; body := BodyError error None |},
       Demo.promotional_world).
Proof.
  apply (missing_field_rejected (H := Demo.runtime)).
  - reflexivity.
  - reflexivity.
  - right. exists "checkout without email", Demo.no_email_body.
    repeat split; [discriminate|]. left. reflexivity.
Defined.

Lemma configuration_errors_witness :
  CreateSubscription.handler (H := Demo.runtime) Demo.no_secret_key
    Demo.checkout_request empty_world
  = (Returned {| statusCode := 500;
                 body := BodyError "Payment system not configured properly"
                           None |}, empty_world).
Proof.
  apply (configuration_errors (H := Demo.runtime) Demo.no_secret_key
           Demo.checkout_request empty_world); reflexivity.
Defined.

(** ** The promotion step and the customer step *)

Section CheckoutSteps.
Context `{Runtime}.

Lemma promotional_coupon_returns w :
  ∃ couponId w', promotional_coupon w = (Returned couponId, w').
Proof.
  unfold promotional_coupon, coupons_retrieve, coupons_create. run.
  cases; eauto.
Qed.

Lemma promotional_coupon_unresolved w m1 w2 m2 w3 :
  coupons_retrieve "FIRST_4_WEEKS_50_OFF" w = (Thrown m1, w2) →
  coupons_create first_4_weeks w2 = (Thrown m2, w3) →
  promotional_coupon w = (Returned None, w3).
Proof.
  unfold promotional_coupon. run. intros -> Hcreate. by rewrite Hcreate.
Qed.

Lemma subscriptions_create_discounts p w s w' :
  subscriptions_create p w = (Returned s, w') →
  sub_discounts s = sp_discounts p
  ∧ subscriptions w' !! sub_id s = Some s.
Proof.
  unfold subscriptions_create. run. intros Hrun. cases.
  split; [reflexivity|]. apply lookup_insert_eq.
Qed.

(** C9. A checkout in which the customer step succeeds and both the
    retrieval and the creation of the coupon fail: the coupon step itself
    always returns; the subscription is asked for without a discount, and
    when the platform creates it the answer is the normal 200 with its
    identifiers, the stored subscription carrying no discount. *)
Theorem coupon_failure_swallowed env event w b v customer w1 m1 w2 m2 w3 :
  httpMethod event = "POST" →
  missing (STRIPE_SECRET_KEY env) = false →
  missing (req_body event) = false →
  req_body event = Some b → JSON_parse b = Some v → v ≠ JNull →
  truthy (own_prop v "customer_email") = true →
  truthy (own_prop v "customer_name") = true →
  truthy (own_prop v "payment_method_id") = true →
  resolve_customer (param (own_prop v "customer_email"))
    (param (own_prop v "customer_name"))
    (param (own_prop v "payment_method_id")) w = (Returned customer, w1) →
  coupons_retrieve "FIRST_4_WEEKS_50_OFF" w1 = (Thrown m1, w2) →
  coupons_create first_4_weeks w2 = (Thrown m2, w3) →
  (∀ w0, ∃ couponId w0', promotional_coupon w0 = (Returned couponId, w0'))
  ∧ ∀ s w4,
      subscriptions_create
        {| sp_customer := cus_id customer;
           sp_items := [PriceInline CouponInline.price_data];
           sp_payment_behavior := "default_incomplete";
           sp_metadata :=
             weekly_metadata (param (own_prop v "customer_email"))
               (param (own_prop v "customer_name"));
           sp_discounts := [] |} w3 = (Returned s, w4) →
      CouponInline.handler env event w
      = (Returned {| statusCode := 200;
                     body := BodyCreated (sub_id s) (sub_client_secret s)
                               (cus_id customer) |}, w4)
      ∧ subscriptions w4 !! sub_id s = Some s
      ∧ sub_discounts s = [].
Proof.
  intros Hpost Hkey Hbody Hb Hv Hnull He Hn Hp Hcus Hret Hcre.
  split; [apply promotional_coupon_returns|].
  intros s w4 Hsub.
  destruct (subscriptions_create_discounts _ _ _ _ Hsub) as [Hd Hstored].
  split; [|done].
  unfold CouponInline.handler.
  rewrite (checkout_steps _ _ env event w b v) by done.
  unfold CouponInline.steps, with_customer, or_failed, created.
  pose proof (promotional_coupon_unresolved w1 m1 w2 m2 w3 Hret Hcre) as Hc.
  run. rewrite Hcus. simpl. rewrite Hc. simpl. by rewrite Hsub.
Qed.

Lemma set_default_name id pm c : cus_name (set_default id pm c) = cus_name c.
Proof. unfold set_default. by destruct (String.eqb _ _). Qed.

Lemma filter_head_has_customer w e c rest :
  List.filter (fun c => String.eqb (cus_email c) e) (customers w) = c :: rest →
  has_customer w (cus_id c) = true.
Proof.
  intros Hf. unfold has_customer. apply existsb_exists. exists c.
  split; [|apply String.eqb_refl].
  eapply (proj1 (filter_In _ c (customers w))). rewrite Hf. by left.
Qed.

(** C10. A checkout for an email that an existing customer has: the
    payment method is attached to that customer right after the lookup,
    whatever default the customer had; when the step returns, it returns
    the customer found, the supplied payment method belongs to that
    customer and is the default of every record with that identifier, and
    exactly three calls were issued. Whatever the outcome, no display name
    changed. On a platform that refuses nothing the step returns as soon
    as the payment method belongs to nobody else. *)
Theorem existing_customer_payment_method_replaced
    w customer_email customer_name payment_method_id customer rest r w' :
  List.filter (fun c => String.eqb (cus_email c) customer_email)
    (customers w) = customer :: rest →
  resolve_customer customer_email customer_name payment_method_id w
  = (r, w') →
  map cus_name (customers w') = map cus_name (customers w)
  ∧ (rejects (calls w) (CustomersList customer_email 1) = None →
     ∃ more, calls w'
             = (calls w
                ++ CustomersList customer_email 1
                :: PaymentMethodsAttach payment_method_id (cus_id customer)
                :: more)%list)
  ∧ (∀ c, r = Returned c →
       c = customer
       ∧ attached w' !! payment_method_id = Some (cus_id customer)
       ∧ customers w'
         = map (set_default (cus_id customer) payment_method_id)
             (customers w)
       ∧ (∀ c', c' ∈ customers w' → cus_id c' = cus_id customer →
            cus_default_payment_method c' = Some payment_method_id)
       ∧ calls w'
         = (calls w
            ++ [CustomersList customer_email 1;
                PaymentMethodsAttach payment_method_id (cus_id customer);
                CustomersUpdate (cus_id customer) payment_method_id])%list)
  ∧ (accepts_all →
     attachable w payment_method_id (cus_id customer) = true →
     r = Returned customer).
Proof.
  intros Hf. pose proof (filter_head_has_customer _ _ _ _ Hf) as Hhas.
  unfold resolve_customer, customers_list, paymentMethods_attach,
    customers_update, customers_create.
  run. rewrite Hf. simpl. unfold has_customer, attachable in *. simpl.
  intros Hrun.
  assert (Hnames : map cus_name
                     (map (set_default (cus_id customer) payment_method_id)
                        (customers w)) = map cus_name (customers w)).
  { rewrite map_map. apply map_ext. intros c. apply set_default_name. }
  assert (Hdefault : ∀ c', c' ∈ map (set_default (cus_id customer)
                                       payment_method_id) (customers w) →
            cus_id c' = cus_id customer →
            cus_default_payment_method c' = Some payment_method_id).
  { intros c' Hin Hid. apply list_elem_of_In, in_map_iff in Hin as (c0 & <- & _).
    unfold set_default in *.
    destruct (String.eqb_spec (cus_id c0) (cus_id customer)); [done|].
    contradiction. }
  split; [|split; [|split]].
  - cases.
  - intros Hlist. rewrite Hlist in Hrun. cases; eexists; simpl;
      rewrite <- ?app_assoc; reflexivity.
  - intros c ->. cases; rewrite lookup_insert_eq, <- !app_assoc; simpl;
      repeat split; done.
  - intros Hok Hatt. unfold attachable in Hatt.
    rewrite Hok in Hrun. simpl in Hrun.
    rewrite Hok, Hhas, Hatt in Hrun. simpl in Hrun.
    rewrite Hok, Hhas, lookup_insert_eq in Hrun.
    rewrite bool_decide_eq_true_2 in Hrun by done. simpl in Hrun.
    by simplify_eq.
Qed.

(** The earliest variant uses an existing customer as found: no payment
    method is attached and no customer record changes. *)
Lemma find_or_create_customer_existing
    w customer_email customer_name payment_method_id customer rest r w' :
  List.filter (fun c => String.eqb (cus_email c) customer_email)
    (customers w) = customer :: rest →
  find_or_create_customer customer_email customer_name payment_method_id w
  = (r, w') →
  customers w' = customers w ∧ attached w' = attached w
  ∧ calls w' = (calls w ++ [CustomersList customer_email 1])%list.
Proof.
  intros Hf. unfold find_or_create_customer, customers_list. run.
  rewrite Hf. simpl. intros Hrun. cases.
Qed.

End CheckoutSteps.

(** ** Catalog reconciliation *)

Section CatalogReconciler.
Context `{Runtime}.

Lemma find_in_products w n product :
  List.find plan_product (take n (products w)) = Some product →
  has_product w (prod_id product) = true.
Proof.
  intros [Hin _]%find_some. unfold has_product. apply existsb_exists.
  exists product. split; [|apply String.eqb_refl].
  apply list_elem_of_In, (subseteq_take n). by apply list_elem_of_In.
Qed.

(** Once the product and the price are found, a run creates nothing and
    returns the price found. *)
Lemma reconcile_catalog_found w product price r w2 :
  List.find plan_product (take 100 (products w)) = Some product →
  List.find weekly_price (take 10 (prices_of (prod_id product) w))
  = Some price →
  reconcile_catalog w = (r, w2) →
  products w2 = products w ∧ prices w2 = prices w
  ∧ (∀ p, r = Returned p → p = price_id price)
  ∧ (accepts_all → r = Returned (price_id price)).
Proof.
  intros Hproduct Hprice.
  unfold reconcile_catalog, products_list, prices_list. run.
  destruct (rejects (calls w) (ProductsList 100)) eqn:R1.
  { intros; simplify_eq/=. repeat split; try done.
    intros Hok. by rewrite Hok in R1. }
  simpl. rewrite Hproduct. simpl.
  destruct (rejects _ (PricesList _ _)) eqn:R2.
  { intros; simplify_eq/=. repeat split; try done.
    intros Hok. by rewrite Hok in R2. }
  simpl. unfold prices_of in *. simpl. rewrite Hprice. simpl.
  intros; simplify_eq/=. repeat split; try done. by intros ? [= <-].
Qed.

Opaque fresh.

(** A run that returns leaves a catalog in which product and price are
    found, the price being the one returned. *)
Lemma reconcile_catalog_leaves w p1 w1 :
  reconcile_catalog w = (Returned p1, w1) →
  ∃ product price,
    List.find plan_product (take 100 (products w1)) = Some product
    ∧ List.find weekly_price (take 10 (prices_of (prod_id product) w1))
      = Some price
    ∧ price_id price = p1.
Proof.
  unfold reconcile_catalog, products_list, products_create, prices_list,
    prices_create.
  run. unfold prices_of. simpl. intros Hrun. cases.
  all: eexists _, _.
  all: split; [first [eassumption | reflexivity]|].
  all: simpl; rewrite ?String.eqb_refl; simpl.
  all: split; [first [eassumption | reflexivity] | reflexivity].
Qed.

Lemma reconcile_catalog_returns w :
  accepts_all → ∃ p w1, reconcile_catalog w = (Returned p, w1).
Proof.
  intros Hok.
  unfold reconcile_catalog, products_list, products_create, prices_list,
    prices_create.
  run. rewrite !Hok. simpl.
  destruct (List.find plan_product _) as [product|] eqn:Hp; simpl;
    rewrite ?Hok; simpl.
  - destruct (List.find weekly_price _); simpl; [eauto|].
    rewrite Hok. unfold has_product. simpl.
    pose proof (find_in_products _ _ _ Hp) as Hhas.
    unfold has_product in Hhas. rewrite Hhas. eauto.
  - destruct (List.find weekly_price _); simpl; [eauto|].
    rewrite Hok. unfold has_product. simpl. rewrite String.eqb_refl.
    simpl. eauto.
Qed.

(** The price a run found was in the catalog before, and the price a run
    created is the one new price. *)
Lemma reconcile_catalog_found_or_created w p1 w1 :
  reconcile_catalog w = (Returned p1, w1) →
  (∃ price, price ∈ prices w ∧ price_id price = p1 ∧ prices w1 = prices w)
  ∨ ∃ price, price_id price = p1 ∧ prices w1 = price :: prices w.
Proof.
  unfold reconcile_catalog, products_list, products_create, prices_list,
    prices_create.
  run. unfold prices_of. simpl. intros Hrun. cases.
  all: try (right; refine (ex_intro _ _ (conj _ eq_refl)); reflexivity).
  all: left; eexists; split; [|split; reflexivity].
  all: match goal with
       | Hf : List.find weekly_price _ = Some _ |- _ =>
           apply find_some in Hf as [Hin _];
           apply list_elem_of_In, (subseteq_take 10), list_elem_of_In,
             filter_In in Hin as [Hin _]
       end.
  all: simpl in Hin; try (by apply list_elem_of_In).
Qed.

Transparent fresh.

(** What the two searches of a run tell about the price they end on. *)
Lemma found_weekly_plan_price w product price :
  List.find plan_product (take 100 (products w)) = Some product →
  List.find weekly_price (take 10 (prices_of (prod_id product) w))
  = Some price →
  weekly_plan_price w (price_id price).
Proof.
  intros [Hproduct Hplan]%find_some [Hprice Hweekly]%find_some.
  apply list_elem_of_In, (subseteq_take 100) in Hproduct.
  apply list_elem_of_In, (subseteq_take 10), list_elem_of_In in Hprice.
  unfold prices_of in Hprice. apply filter_In in Hprice as [Hprice Hof].
  apply String.eqb_eq in Hof. unfold weekly_price in Hweekly.
  apply andb_prop in Hweekly as [[Hamount Hcur]%andb_prop Hweek].
  apply Z.eqb_eq in Hamount. apply String.eqb_eq in Hcur.
  apply bool_decide_eq_true_1 in Hweek.
  exists product, price. split; [exact Hproduct|]. split; [exact Hplan|].
  split; [by apply list_elem_of_In|]. by repeat split.
Qed.

(** C5. A run of the reconciling variant that returns, returns the
    reference of a price of the catalog that bills 2000 AUD cents a week
    for the plan's product, a price that was there before or the one price
    the run has created. The next run against the state it left creates
    neither a price nor a product, and whenever it returns, it returns that
    same reference. On a platform that refuses nothing both runs return,
    with the same reference of such a price. *)
Theorem reconciliation_reuses_price :
  (∀ w p1 w1 r w2,
     reconcile_catalog w = (Returned p1, w1) →
     reconcile_catalog w1 = (r, w2) →
     weekly_plan_price w1 p1
     ∧ ((∃ price, price ∈ prices w ∧ price_id price = p1
                  ∧ prices w1 = prices w)
        ∨ ∃ price, price_id price = p1 ∧ prices w1 = price :: prices w)
     ∧ prices w2 = prices w1 ∧ products w2 = products w1
     ∧ ∀ p2, r = Returned p2 → p2 = p1)
  ∧ (accepts_all →
     ∀ w, ∃ p w1 w2,
       reconcile_catalog w = (Returned p, w1)
       ∧ reconcile_catalog w1 = (Returned p, w2)
       ∧ weekly_plan_price w1 p
       ∧ prices w2 = prices w1).
Proof.
  split.
  - intros w p1 w1 r w2 Hfirst Hsecond.
    pose proof (reconcile_catalog_found_or_created _ _ _ Hfirst) as Hfrom.
    destruct (reconcile_catalog_leaves _ _ _ Hfirst)
      as (product & price & Hproduct & Hprice & <-).
    destruct (reconcile_catalog_found _ _ _ _ _ Hproduct Hprice Hsecond)
      as (Hproducts & Hprices & Hsame & _).
    split; [by eapply found_weekly_plan_price|]. auto.
  - intros Hok w.
    destruct (reconcile_catalog_returns w Hok) as (p & w1 & Hfirst).
    destruct (reconcile_catalog w1) as [r w2] eqn:Hsecond.
    destruct (reconcile_catalog_leaves _ _ _ Hfirst)
      as (product & price & Hproduct & Hprice & <-).
    destruct (reconcile_catalog_found _ _ _ _ _ Hproduct Hprice Hsecond)
      as (_ & Hprices & _ & Hreturns).
    exists (price_id price), w1, w2.
    rewrite Hsecond, (Hreturns Hok).
    split; [done|]. split; [done|].
    split; [by eapply found_weekly_plan_price | done].
Qed.

End CatalogReconciler.

Lemma coupon_failure_swallowed_witness :
  CouponInline.handler (H := Demo.no_coupons) Demo.env Demo.checkout_request
    empty_world
  = (Returned {| statusCode := 200;
                 body := BodyCreated (sub_id Demo.new_subscription)
                           (sub_client_secret Demo.new_subscription)
                           (cus_id Demo.new_customer) |},
     snd Demo.subscription_step)
  ∧ subscriptions (snd Demo.subscription_step)
      !! sub_id Demo.new_subscription = Some Demo.new_subscription
  ∧ sub_discounts Demo.new_subscription = [].
Proof.
  refine (proj2 (coupon_failure_swallowed (H := Demo.no_coupons) Demo.env
                   Demo.checkout_request empty_world "checkout of a@x.com"
                   Demo.checkout_body Demo.new_customer
                   (snd Demo.customer_step) "coupons unavailable"
                   (snd Demo.retrieve_step) "coupons unavailable"
                   (snd Demo.create_step) _ _ _ _ _ _ _ _ _ _ _ _)
            Demo.new_subscription (snd Demo.subscription_step) _);
    try reflexivity; try discriminate; vm_compute; reflexivity.
Defined.

Lemma existing_customer_payment_method_replaced_witness :
  fst Demo.returning_step = Returned Demo.returning_customer
  ∧ customers (snd Demo.returning_step)
    = [{| cus_id := "cus_7"; cus_email := "a@x.com"; cus_name := "Ann";
          cus_default_payment_method := Some "pm_new" |}].
Proof.
  destruct (existing_customer_payment_method_replaced (H := Demo.runtime)
              Demo.world_7 "a@x.com" "Ann B." "pm_new" Demo.returning_customer
              [] (fst Demo.returning_step) (snd Demo.returning_step))
    as (_ & _ & Hreturned & Hreturns).
  - reflexivity.
  - apply surjective_pairing.
  - assert (Hr : fst Demo.returning_step = Returned Demo.returning_customer)
      by (apply Hreturns; [exact demo_accepts_all | reflexivity]).
    split; [exact Hr|].
    destruct (Hreturned _ Hr) as (_ & _ & -> & _). reflexivity.
Defined.

Lemma reconciliation_reuses_price_witness :
  ∃ p w1 w2,
    reconcile_catalog (H := Demo.runtime) empty_world = (Returned p, w1)
    ∧ reconcile_catalog (H := Demo.runtime) w1 = (Returned p, w2)
    ∧ weekly_plan_price w1 p
    ∧ prices w2 = prices w1.
Proof.
  exact (proj2 (reconciliation_reuses_price (H := Demo.runtime))
           demo_accepts_all empty_world).
Defined.

(** The function deployed under [netlify/functions] does not look prices
    up: two checkouts leave two prices for the one product. *)
Example create_price_twice :
  let w2 := snd (create_price (H := Demo.runtime)
                   (snd (create_price (H := Demo.runtime) empty_world))) in
  map price_id (prices w2) = ["price_2"; "price_1"]
  ∧ map prod_id (products w2) = ["prod_0"].
Proof. split; reflexivity. Qed.

(** * Further properties *)

Section WebhookMore.
Context `{Runtime}.

Lemma payment_succeeded_applies ev sid :
  paid_subscription ev = Some sid →
  StripeWebhook.payment_succeeded ev = apply_payment sid.
Proof.
  unfold paid_subscription. intros Hpaid.
  destruct ev; try discriminate. simpl in Hpaid.
  destruct (assoc "type" fields) as [[| | |t| |]|] eqn:Ht; try discriminate.
  destruct (assoc "data" fields) as [data|] eqn:Hd; try discriminate.
  destruct (String.eqb t "invoice.payment_succeeded") eqn:Et;
    try discriminate.
  destruct (own_prop data "object") as [invoice|] eqn:Ho; try discriminate.
  destruct (own_prop invoice "subscription") as [[| | |sid'| |]|] eqn:Hsub;
    try discriminate.
  destruct (String.eqb_spec sid' ""); try discriminate. simplify_eq.
  destruct data as [| | | | |dfields]; try discriminate.
  destruct invoice as [| | | | |ifields]; try discriminate.
  simpl in Ho, Hsub.
  unfold StripeWebhook.payment_succeeded, apply_payment, read, bind, ret.
  simpl. rewrite Hd. simpl. rewrite Ho. simpl. rewrite Hsub. simpl.
  destruct (String.eqb_spec sid "") as [|_]; [contradiction|]. reflexivity.
Qed.

Lemma handler_applies env event ev sid w :
  httpMethod event = "POST" →
  StripeWebhook.constructEvent (req_body event) (stripe_signature event)
    (STRIPE_WEBHOOK_SECRET env) = Returned ev →
  paid_subscription ev = Some sid →
  StripeWebhook.handler env event w = answer (apply_payment sid) w.
Proof.
  intros Hpost Hev Hpaid. unfold StripeWebhook.handler. rewrite Hpost, Hev.
  simpl. unfold StripeWebhook.process, answer.
  rewrite <- (payment_succeeded_applies ev sid Hpaid).
  unfold paid_subscription in Hpaid.
  destruct ev; try discriminate. simpl in Hpaid.
  destruct (assoc "type" fields) as [[| | |t| |]|] eqn:Ht; try discriminate.
  destruct (assoc "data" fields) as [data|] eqn:Hd; try discriminate.
  destruct (String.eqb t "invoice.payment_succeeded") eqn:Et;
    try discriminate.
  unfold read, bind, ret, StripeWebhook.dispatch. simpl. rewrite Ht, Et.
  reflexivity.
Qed.

Lemma verified_payment_applies env event sid w :
  verified_payment env event sid →
  StripeWebhook.handler env event w = answer (apply_payment sid) w.
Proof. intros (Hpost & ev & Hev & Hpaid). by eapply handler_applies. Qed.

End WebhookMore.

Section WebhookFrame.
Context `{Runtime}.

Lemma touches_refl w : touches_only_subscriptions w w.
Proof.
  unfold touches_only_subscriptions, same_catalog.
  split; [tauto|]. split; [done|].
  exists []. rewrite app_nil_r. simpl. repeat split; lia.
Qed.

Lemma payment_succeeded_touches ev w :
  touches_only_subscriptions w (snd (StripeWebhook.payment_succeeded ev w)).
Proof.
  unfold StripeWebhook.payment_succeeded, read, subscriptions_retrieve,
    subscriptions_update.
  run. cases; try apply touches_refl.
  all: unfold touches_only_subscriptions, same_catalog.
  all: split; [simpl; tauto|]; simpl.
  all: split; [first [done | by apply dom_insert_lookup_L]|].
  all: rewrite <- ?app_assoc; eexists; split; [reflexivity|];
    simpl; split; [lia | reflexivity].
Qed.


Lemma dispatch_touches type ev w :
  touches_only_subscriptions w (snd (StripeWebhook.dispatch type ev w)).
Proof.
  unfold StripeWebhook.dispatch.
  destruct type as [[| | |t| |]|]; try apply touches_refl.
  repeat case_match; try apply touches_refl.
  - apply payment_succeeded_touches.
  - rewrite subscription_deleted_same. apply touches_refl.
  - rewrite payment_failed_same. apply touches_refl.
Qed.

(** X1. Whatever the request, the webhook leaves customers, payment
    methods, products, prices and coupons as they were, adds and removes
    no subscription, and issues at most two calls, each a read or an update
    of a subscription. *)
Theorem webhook_touches_only_subscriptions env event w :
  touches_only_subscriptions w (snd (StripeWebhook.handler env event w)).
Proof.
  unfold StripeWebhook.handler, StripeWebhook.process.
  destruct (negb _); [apply touches_refl|].
  destruct (StripeWebhook.constructEvent _ _ _) as [ev|m];
    [|apply touches_refl].
  unfold read. run.
  destruct ev; try apply touches_refl.
  all: pose proof (dispatch_touches (own_prop (JObj fields) "type")
                     (JObj fields) w) as Hd.
  all: destruct (StripeWebhook.dispatch _ _ w) as [[[]|m] w1]; exact Hd.
Qed.

Lemma payment_succeeded_thrown ev w m w1 :
  StripeWebhook.payment_succeeded ev w = (Thrown m, w1) →
  subscriptions w1 = subscriptions w.
Proof.
  unfold StripeWebhook.payment_succeeded, read, subscriptions_retrieve,
    subscriptions_update.
  run. intros Hrun. cases.
Qed.

Lemma dispatch_thrown type ev w m w1 :
  StripeWebhook.dispatch type ev w = (Thrown m, w1) →
  subscriptions w1 = subscriptions w.
Proof.
  unfold StripeWebhook.dispatch.
  destruct type as [[| | |t| |]|]; try discriminate.
  repeat case_match; try discriminate.
  - apply payment_succeeded_thrown.
  - intros E. pose proof (subscription_deleted_same ev w) as Hs.
    rewrite E in Hs. simpl in Hs. by subst.
  - intros E. pose proof (payment_failed_same ev w) as Hs.
    rewrite E in Hs. simpl in Hs. by subst.
Qed.

(** X2. An answer other than 200 means that no stored subscription
    changed: a failed run never leaves a half-applied update. *)
Theorem failed_run_changes_nothing env event w r w' :
  StripeWebhook.handler env event w = (Returned r, w') →
  statusCode r ≠ 200 →
  subscriptions w' = subscriptions w.
Proof.
  unfold StripeWebhook.handler, StripeWebhook.process.
  destruct (negb _); [run; by intros [= <- <-]|].
  destruct (StripeWebhook.constructEvent _ _ _) as [ev|m];
    [|run; by intros [= <- <-]].
  unfold read. run. destruct ev; try discriminate.
  all: destruct (StripeWebhook.dispatch _ _ w) as [[[]|m] w1] eqn:D.
  all: intros [= <- <-]; simpl; try congruence.
  all: intros _; by eapply dispatch_thrown.
Qed.

End WebhookFrame.

Section WebhookEvents.
Context `{Runtime}.

(** X3. A verified event that is not a successful payment changes nothing
    and issues no call. A cancellation or a failed payment is answered 200
    when the event carries an object and 500 when it does not; every other
    type is answered 200. *)
Theorem other_events_change_nothing env event ev w :
  httpMethod event = "POST" →
  StripeWebhook.constructEvent (req_body event) (stripe_signature event)
    (STRIPE_WEBHOOK_SECRET env) = Returned ev →
  ev ≠ JNull →
  ¬ is_type ev "invoice.payment_succeeded" →
  ∃ r, StripeWebhook.handler env event w = (Returned r, w)
       ∧ (statusCode r = 200 ∨ statusCode r = 500)
       ∧ (statusCode r = 200
          ↔ (¬ is_type ev "customer.subscription.deleted"
             ∧ ¬ is_type ev "invoice.payment_failed")
            ∨ is_Some (event_object ev)).
Proof.
  intros Hpost Hev Hnull Hother. unfold StripeWebhook.handler.
  rewrite Hpost, Hev. simpl.
  unfold StripeWebhook.process, StripeWebhook.dispatch, is_type in *.
  assert (Hok : ∀ P : Prop, P →
            ∃ r, (Returned {| statusCode := 200; body := BodyReceived |}, w)
                 = (Returned r, w)
                 ∧ (statusCode r = 200 ∨ statusCode r = 500)
                 ∧ (statusCode r = 200 ↔ P)).
  { intros P HP. eexists. split; [reflexivity|]. simpl. tauto. }
  destruct ev as [| | | | |fields]; try done; unfold read; run;
    try (apply Hok; left; split; discriminate).
  destruct (assoc "type" fields) as [[| | |t| |]|] eqn:Ht; simpl;
    try (apply Hok; left; split; discriminate).
  destruct (String.eqb_spec t "invoice.payment_succeeded") as [->|Hne1];
    [done|].
  unfold event_object. simpl.
  destruct (String.eqb_spec t "customer.subscription.deleted") as [->|Hne2];
    [|destruct (String.eqb_spec t "invoice.payment_failed") as [->|Hne3]].
  3: { simpl. apply Hok. left. split; congruence. }
  all: unfold StripeWebhook.subscription_deleted, StripeWebhook.payment_failed,
         read; run.
  all: destruct (assoc "data" fields) as [data|]; simpl.
  all: try destruct data; simpl.
  all: try destruct (assoc "object" _) as [[]|]; simpl.
  all: try (apply Hok; right; eexists; reflexivity).
  all: eexists; (split; [reflexivity|]); simpl; (split; [by right|]).
  all: split; [discriminate|].
  all: intros [[Hd Hf]|[o Ho]]; try discriminate; congruence.
Qed.


(** X4. A successful payment for a subscription without week counters
    costs one read and changes nothing: the answer is 200 and the platform
    differs only by the recorded call. *)
Theorem payment_for_regular_subscription env event sid s w :
  verified_payment env event sid →
  subscriptions w !! sid = Some s →
  regular s →
  rejects (calls w) (SubscriptionsRetrieve sid) = None →
  StripeWebhook.handler env event w
  = (Returned {| statusCode := 200; body := BodyReceived |},
     log_call (SubscriptionsRetrieve sid) w).
Proof.
  intros Hev Hs Hreg Hacc.
  rewrite (verified_payment_applies env event sid w Hev).
  unfold answer, apply_payment, subscriptions_retrieve. run.
  rewrite Hacc, Hs. unfold regular in Hreg. by rewrite Hreg.
Qed.

(** X5. A successful payment whose subscription the platform does not
    know, or whose read the platform refuses, is answered 500 after that
    one call; nothing is updated. *)
Theorem payment_for_unknown_subscription env event sid w :
  verified_payment env event sid →
  subscriptions w !! sid = None
  ∨ is_Some (rejects (calls w) (SubscriptionsRetrieve sid)) →
  StripeWebhook.handler env event w
  = (Returned {| statusCode := 500;
                 body := BodyError "Webhook processing failed" None |},
     log_call (SubscriptionsRetrieve sid) w).
Proof.
  intros Hev Hcase. rewrite (verified_payment_applies env event sid w Hev).
  unfold answer, apply_payment, subscriptions_retrieve. run.
  destruct (rejects (calls w) (SubscriptionsRetrieve sid)) as [m|] eqn:Hr;
    [done|].
  destruct Hcase as [-> | [m Hm]]; [done | discriminate].
Qed.

End WebhookEvents.
Lemma effective_total_default s :
  weeks_total s = None ∨ weeks_total s = Some NaN
  ∨ weeks_total s = Some (Num 0) →
  effective_total s = Num 4.
Proof.
  unfold weeks_total, effective_total.
  destruct (sub_metadata s !! "promotional_weeks_total") as [v|]; simpl;
    [|done].
  intros [? | [[= ->] | [= ->]]]; done.
Qed.

Lemma advance_counts s n t :
  weeks_used s = Some (Num n) → effective_total s = Num t → n + 1 < t →
  sub_items (advance s) = sub_items s
  ∧ ∀ k, sub_metadata (advance s) !! k
         = if decide (k = "promotional_weeks_used")
           then Some (toString (Num (n + 1)))
           else kept (sub_metadata s !! k).
Proof.
  intros (u & Eu & Pu)%weeks_used_lookup Ht Hlt.
  unfold advance. unfold effective_total in Ht. rewrite Ht, Eu, Pu. simpl.
  destruct (Z.leb_spec t (n + 1)); [lia|]. simpl.
  split; [reflexivity|]. intros k. by rewrite lookup_counter_metadata.
Qed.

Lemma advance_switches s n t item rest :
  weeks_used s = Some (Num n) → effective_total s = Num t → t <= n + 1 →
  sub_items s = item :: rest →
  sub_items (advance s)
  = reprice (item :: rest) (item_id item, StripeWebhook.regular_price_data)
  ∧ ∀ k, sub_metadata (advance s) !! k
         = if decide (k = "price_tier") then Some "regular"
           else if decide (k = "promotional_weeks_total") then None
           else if decide (k = "promotional_weeks_used") then None
           else kept (sub_metadata s !! k).
Proof.
  intros (u & Eu & Pu)%weeks_used_lookup Ht Hge Hitems.
  unfold advance. unfold effective_total in Ht. rewrite Ht, Eu, Pu. simpl.
  destruct (Z.leb_spec t (n + 1)); [|lia]. rewrite Hitems. simpl.
  rewrite Hitems. split; [reflexivity|].
  intros k. apply lookup_regular_metadata.
Qed.

Lemma reprice_head item rest pd :
  head (reprice (item :: rest) (item_id item, pd))
  = Some {| item_id := item_id item; item_price := PriceInline pd |}.
Proof. simpl. by rewrite String.eqb_refl. Qed.

Section WebhookCounters.
Context `{Runtime}.

(** X6. A counter without a usable total (none stored, an ASCII text that
    is not a number, or zero) is run against a total of 4: for a counter
    that is a safe integer, a payment that brings it below 4 only rewrites
    the counter, the payment that brings it to 4 or beyond ends the
    promotion at the regular price. *)
Theorem missing_total_counts_as_four env event sid s w n :
  accepts_all → well_keyed w →
  verified_payment env event sid →
  subscriptions w !! sid = Some s →
  weeks_used s = Some (Num n) → safe_integer n →
  ascii_text (default "" (sub_metadata s !! "promotional_weeks_total"))
  = true →
  weeks_total s = None ∨ weeks_total s = Some NaN
  ∨ weeks_total s = Some (Num 0) →
  sub_items s ≠ [] →
  ∃ s', subscriptions (snd (StripeWebhook.handler env event w)) !! sid
        = Some s'
    ∧ (n + 1 < 4 →
       sub_metadata s' !! "promotional_weeks_used"
       = Some (toString (Num (n + 1)))
       ∧ sub_items s' = sub_items s)
    ∧ (4 <= n + 1 →
       sub_metadata s' !! "promotional_weeks_used" = None
       ∧ active_price s' = Some regular_price).
Proof.
  intros Hok Hk Hev Hs Hu _ _ Ht Hitems.
  destruct (handler_paid env event sid s w Hok Hk Hev Hs)
    as (r & w' & Hrun & Hsubs & _).
  rewrite Hrun. simpl. rewrite Hsubs, lookup_insert_eq.
  eexists. split; [reflexivity|].
  pose proof (effective_total_default s Ht) as Hfour. split.
  - intros Hlt. destruct (advance_counts s n 4 Hu Hfour Hlt) as [Hi Hm].
    by rewrite Hm.
  - intros Hge. destruct (sub_items s) as [|item rest] eqn:Hit; [done|].
    destruct (advance_switches s n 4 item rest Hu Hfour Hge Hit) as [Hi Hm].
    rewrite Hm. split; [reflexivity|].
    unfold active_price. by rewrite Hi, reprice_head.
Qed.


End WebhookCounters.

Lemma advance_unreadable s :
  weeks_used s = Some NaN →
  weeks_used (advance s) = Some NaN
  ∧ sub_metadata (advance s) !! "promotional_weeks_used" = Some "NaN"
  ∧ sub_items (advance s) = sub_items s.
Proof.
  intros (u & Eu & Pu)%weeks_used_lookup. unfold advance.
  rewrite Eu, Pu. simpl.
  unfold weeks_used. simpl. rewrite lookup_counter_metadata. simpl. done.
Qed.

Lemma unreadable_run (events : list Request) : ∀ s,
  weeks_used s = Some NaN →
  let s' := fold_left (fun s _ => advance s) events s in
  weeks_used s' = Some NaN ∧ sub_items s' = sub_items s
  ∧ (events ≠ [] →
     sub_metadata s' !! "promotional_weeks_used" = Some "NaN").
Proof.
  induction events as [|event events IH]; intros s Hu; simpl.
  { repeat split; auto. congruence. }
  destruct (advance_unreadable s Hu) as (Hu1 & Hm1 & Hi1).
  destruct (IH (advance s) Hu1) as (Hu' & Hi' & Hm').
  split; [exact Hu'|]. split; [congruence|]. intros _.
  destruct events as [|e es]; [exact Hm1 | by apply Hm'].
Qed.

(** After the switch nothing moves any more. *)
Lemma regular_run (events : list Request) s :
  regular s → fold_left (fun s _ => advance s) events s = s.
Proof.
  induction events as [|event events IH]; intros Hreg; [done|].
  simpl. rewrite advance_regular by done. by apply IH.
Qed.

(** Payments below the total count; the one that reaches it switches, and
    later ones find nothing to do. *)
Lemma payments_until_total (events : list Request) s n t :
  weeks_used s = Some (Num n) → weeks_total s = Some (Num t) →
  0 <= n < t → sub_items s ≠ [] →
  let s' := fold_left (fun s _ => advance s) events s in
  (n + Z.of_nat (length events) < t →
   weeks_used s' = Some (Num (n + Z.of_nat (length events)))
   ∧ weeks_total s' = Some (Num t)
   ∧ sub_items s' = sub_items s)
  ∧ (t <= n + Z.of_nat (length events) →
     sub_metadata s' !! "promotional_weeks_used" = None
     ∧ sub_metadata s' !! "promotional_weeks_total" = None
     ∧ active_price s' = Some regular_price).
Proof.
  intros Hu Ht Hrange Hitems. split.
  - intros Hlt.
    destruct (counting_run events s n t Hu Ht) as (Hu' & Ht' & Hi & _);
      [lia..|done].
  - intros Hge.
    assert (Hsplit : events
                     = (take (Z.to_nat (t - n - 1)) events
                        ++ drop (Z.to_nat (t - n - 1)) events)%list)
      by (by rewrite take_drop).
    set (before := take (Z.to_nat (t - n - 1)) events) in *.
    set (after := drop (Z.to_nat (t - n - 1)) events) in *.
    assert (Hlen : length before = Z.to_nat (t - n - 1)).
    { unfold before. rewrite length_take. lia. }
    assert (Hafter : after ≠ []).
    { intros E. rewrite E, app_nil_r in Hsplit.
      rewrite Hsplit in Hge. lia. }
    rewrite Hsplit, fold_left_app.
    destruct (counting_run before s n t Hu Ht) as (Hu' & Ht' & Hi & _);
      [lia..|].
    set (s1 := fold_left (fun s _ => advance s) before s) in *.
    destruct after as [|event rest]; [done|]. simpl.
    destruct (sub_items s) as [|item more] eqn:Hit; [done|].
    destruct (advance_switching s1 _ t item more Hu' Ht') as [Hp Hm];
      [lia | lia | done |].
    assert (Hreg : regular (advance s1)) by (unfold regular; by rewrite Hm).
    rewrite (regular_run rest _ Hreg). by rewrite !Hm.
Qed.

Section WebhookRuns.
Context `{Runtime}.

(** X7. A counter that does not read as a number (an ASCII text in which
    [parseInt] finds no digit) is never repaired: after any number of
    successful payments the stored counter is the text NaN and the
    subscription is still billed what it was; the promotion never ends. *)
Theorem unreadable_counter_never_ends env sid s w events :
  accepts_all → well_keyed w →
  subscriptions w !! sid = Some s →
  weeks_used s = Some NaN →
  ascii_text (default "" (sub_metadata s !! "promotional_weeks_used"))
  = true →
  Forall (fun event => verified_payment env event sid) events →
  events ≠ [] →
  ∃ s', subscriptions (deliver env events w) !! sid = Some s'
        ∧ sub_metadata s' !! "promotional_weeks_used" = Some "NaN"
        ∧ sub_items s' = sub_items s.
Proof.
  intros Hok Hk Hs Hu _ Hall Hne.
  rewrite (deliver_paid env sid events w s Hok Hk Hall Hs).
  destruct (unreadable_run events s Hu) as (_ & Hi & Hm).
  eexists. split; [reflexivity|]. split; [by apply Hm | exact Hi].
Qed.

(** X8. For any counters [n] of [t] with [0 <= n < t] and [t] a safe
    integer: fewer than [t - n] successful payments leave the counter at
    [n] plus their number and the items as they were; from the payment
    number [t - n] on the subscription has no counters and is billed the
    regular terms, however many payments follow. *)
Theorem promotion_lasts_until_total env sid s w events n t :
  accepts_all → well_keyed w →
  subscriptions w !! sid = Some s →
  weeks_used s = Some (Num n) → weeks_total s = Some (Num t) →
  0 <= n < t → t <= MAX_SAFE_INTEGER → sub_items s ≠ [] →
  Forall (fun event => verified_payment env event sid) events →
  ∃ s', subscriptions (deliver env events w) !! sid = Some s'
    ∧ (n + Z.of_nat (length events) < t →
       weeks_used s' = Some (Num (n + Z.of_nat (length events)))
       ∧ weeks_total s' = Some (Num t)
       ∧ sub_items s' = sub_items s)
    ∧ (t <= n + Z.of_nat (length events) →
       sub_metadata s' !! "promotional_weeks_used" = None
       ∧ sub_metadata s' !! "promotional_weeks_total" = None
       ∧ active_price s' = Some regular_price).
Proof.
  intros Hok Hk Hs Hu Ht Hrange _ Hitems Hall.
  rewrite (deliver_paid env sid events w s Hok Hk Hall Hs).
  eexists. split; [reflexivity|].
  by apply payments_until_total.
Qed.

End WebhookRuns.

Lemma reprice_ids items u : map item_id (reprice items u) = map item_id items.
Proof.
  unfold reprice. rewrite map_map. apply map_ext. intros it.
  by destruct (String.eqb _ _).
Qed.

Lemma reprice_other items u it :
  it ∈ items → item_id it ≠ fst u → it ∈ reprice items u.
Proof.
  intros Hin Hne. unfold reprice. apply list_elem_of_In, in_map_iff.
  exists it. split; [|by apply list_elem_of_In].
  destruct (String.eqb_spec (item_id it) (fst u)); [contradiction | done].
Qed.

Section WebhookItems.
Context `{Runtime}.

(** X9. The payment that ends the promotion (counters that are safe
    integers, the incremented counter at or beyond the total) re-prices the
    first item and leaves the others alone: the subscription has the same
    items under the same identifiers, the first one at the regular terms,
    and every item with another identifier exactly as it was. *)
Theorem switch_reprices_first_item_only env event sid s w n t item rest :
  accepts_all → well_keyed w →
  verified_payment env event sid →
  subscriptions w !! sid = Some s →
  weeks_used s = Some (Num n) → weeks_total s = Some (Num t) →
  safe_integer n → safe_integer t → t ≠ 0 →
  t <= n + 1 → sub_items s = item :: rest →
  ∃ s', subscriptions (snd (StripeWebhook.handler env event w)) !! sid
        = Some s'
    ∧ map item_id (sub_items s') = map item_id (sub_items s)
    ∧ head (sub_items s')
      = Some {| item_id := item_id item; item_price := regular_price |}
    ∧ ∀ it, it ∈ rest → item_id it ≠ item_id item → it ∈ sub_items s'.
Proof.
  intros Hok Hk Hev Hs Hu Ht _ _ Hnz Hge Hitems.
  destruct (handler_paid env event sid s w Hok Hk Hev Hs)
    as (r & w' & Hrun & Hsubs & _).
  rewrite Hrun. simpl. rewrite Hsubs, lookup_insert_eq.
  eexists. split; [reflexivity|].
  pose proof (number_or_total s t Ht Hnz) as Heff.
  destruct (advance_switches s n t item rest Hu Heff Hge Hitems) as [Hi _].
  rewrite Hi, Hitems. split; [apply reprice_ids|].
  split; [apply reprice_head|].
  intros it Hin Hne. apply reprice_other; [by right | done].
Qed.

(** X10. The webhook lets an exception escape in one case only: a POST
    whose verified payload is the JSON value null. *)
Theorem webhook_throws_only_on_null env event w :
  (∃ m w', StripeWebhook.handler env event w = (Thrown m, w'))
  ↔ httpMethod event = "POST"
    ∧ StripeWebhook.constructEvent (req_body event) (stripe_signature event)
        (STRIPE_WEBHOOK_SECRET env) = Returned JNull.
Proof.
  unfold StripeWebhook.handler, StripeWebhook.process.
  destruct (String.eqb_spec (httpMethod event) "POST") as [Hpost|Hpost];
    simpl.
  2: { split; [by intros (m & w' & [=]) | by intros [? _]]. }
  destruct (StripeWebhook.constructEvent _ _ _) as [ev|m0].
  2: { split; [by intros (m & w' & [=]) | by intros [_ [=]]]. }
  unfold read. run. destruct ev.
  1: { split; [done | intros _; eauto]. }
  all: destruct (StripeWebhook.dispatch _ _ w) as [[[]|m1] w1].
  all: split; [by intros (m & w' & [=]) | by intros [_ [=]]].
Qed.

End WebhookItems.

Section CheckoutMore.
Context `{Runtime}.

Lemma well_formed_steps missing_fields steps env event v w :
  well_formed env event v →
  checkout missing_fields steps env event w
  = try_catch (steps (email_of v) (name_of v) (method_of v))
      (fun message =>
         respond 500
           (BodyError "Something went wrong with the subscription"
              (Some message))) w.
Proof.
  intros (Hpost & Hkey & Hbody & (b & Hb & Hv) & Hnull & He & Hn & Hp).
  by eapply checkout_steps.
Qed.

(** The customer step touches customers and payment methods only. *)
Lemma resolve_customer_frame e n p w r w1 :
  resolve_customer e n p w = (r, w1) →
  products w1 = products w ∧ prices w1 = prices w
  ∧ coupons w1 = coupons w ∧ subscriptions w1 = subscriptions w.
Proof.
  unfold resolve_customer, customers_list, paymentMethods_attach,
    customers_update, customers_create.
  run. intros Hrun. cases.
Qed.

Lemma set_default_id id pm c : cus_id (set_default id pm c) = cus_id c.
Proof. unfold set_default. by destruct (String.eqb _ _). Qed.

Lemma set_default_email id pm c : cus_email (set_default id pm c) = cus_email c.
Proof. unfold set_default. by destruct (String.eqb _ _). Qed.

Lemma filter_set_default e id pm l :
  List.filter (fun c => String.eqb (cus_email c) e) (map (set_default id pm) l)
  = map (set_default id pm)
      (List.filter (fun c => String.eqb (cus_email c) e) l).
Proof.
  induction l as [|c l IH]; [done|]. simpl.
  rewrite set_default_email. destruct (String.eqb _ _); simpl; by rewrite IH.
Qed.

Lemma has_customer_set_default id pm l x :
  existsb (fun c => String.eqb (cus_id c) x) (map (set_default id pm) l)
  = existsb (fun c => String.eqb (cus_id c) x) l.
Proof.
  induction l as [|c l IH]; [done|]. simpl.
  by rewrite set_default_id, IH.
Qed.

(** What holds when the customer step returns. *)
Lemma resolve_customer_returned e n p w c w1 :
  resolve_customer e n p w = (Returned c, w1) →
  has_customer w1 (cus_id c) = true
  ∧ attached w1 !! p = Some (cus_id c)
  ∧ ∃ c1 rest, customers_of e w1 = c1 :: rest ∧ cus_id c1 = cus_id c.
Proof.
  unfold resolve_customer, customers_list, paymentMethods_attach,
    customers_update, customers_create, customers_of, has_customer.
  run.
  destruct (rejects (calls w) (CustomersList e 1)); [discriminate|]. simpl.
  destruct (List.filter _ (customers w)) as [|c0 rest] eqn:Hf; simpl.
  - intros Hrun. cases.
    all: rewrite ?String.eqb_refl in *; try discriminate; simpl.
    all: rewrite ?String.eqb_refl, lookup_insert_eq; simpl.
    all: split; [done|split; [done|eexists _, _; split; reflexivity]].
  - intros Hrun. cases.
    all: rewrite has_customer_set_default, filter_set_default, Hf,
           lookup_insert_eq; simpl.
    all: split; [|split; [done|]].
    all: try (eexists _, _; split; [reflexivity | apply set_default_id]).
    all: repeat match goal with
           | Hb : _ && _ = true |- _ => apply andb_prop in Hb as [? ?]
           end; assumption.
Qed.

Lemma or_failed_answers (m : M Response) :
  (∀ w r w', m w = (Returned r, w') → statusCode r = 200) →
  answers (or_failed m).
Proof.
  intros Hm w. unfold or_failed. run.
  destruct (m w) as [[r|msg] w'] eqn:E; eexists _, _;
    (split; [reflexivity|]); simpl; eauto.
Qed.

Lemma with_customer_answers resolver rest :
  (∀ c, answers (rest c)) → answers (with_customer resolver rest).
Proof.
  intros Hrest w. unfold with_customer. run.
  destruct (resolver w) as [[c|msg] w1]; simpl.
  - apply Hrest.
  - eexists _, _. split; [reflexivity|]. simpl. eauto.
Qed.

Lemma created_status s c w r w' :
  created s c w = (Returned r, w') → statusCode r = 200.
Proof. unfold created. run. by intros [= <- <-]. Qed.

Lemma checkout_answers missing_fields steps :
  (∀ e n p, answers (steps e n p)) →
  ∀ env event w, ∃ r w',
    checkout missing_fields steps env event w = (Returned r, w')
    ∧ checkout_status r.
Proof.
  intros Hsteps env event w. unfold checkout, checkout_status.
  destruct (String.eqb _ "OPTIONS");
    [eexists _, _; split; [reflexivity|]; simpl; tauto|].
  destruct (negb _);
    [eexists _, _; split; [reflexivity|]; simpl; tauto|].
  unfold try_catch at 1.
  destruct (missing (STRIPE_SECRET_KEY env));
    [eexists _, _; split; [reflexivity|]; simpl; tauto|].
  destruct (missing (req_body event));
    [eexists _, _; split; [reflexivity|]; simpl; tauto|].
  unfold parse_fields.
  destruct (JSON_parse _) as [v|];
    [|eexists _, _; split; [reflexivity|]; simpl; tauto].
  destruct v; run;
    try (eexists _, _; split; [reflexivity|]; simpl; tauto).
  all: destruct (_ || _);
    [eexists _, _; split; [reflexivity|]; simpl; tauto|].
  all: unfold answers in Hsteps.
  all: edestruct Hsteps as (r & w' & Hrun & Hst); rewrite Hrun.
  all: eexists _, _; split; [reflexivity|]; tauto.
Qed.

(** X11. No exception escapes the checkout, in any of its four variants:
    whatever the request, the configuration and the platform's refusals, the
    function answers, with status 200, 400, 405 or 500. *)
Theorem checkout_always_answers env event w :
  (∃ r w', CreateSubscription.handler env event w = (Returned r, w')
           ∧ checkout_status r)
  ∧ (∃ r w', CouponInline.handler env event w = (Returned r, w')
             ∧ checkout_status r)
  ∧ (∃ r w', CatalogCoupon.handler env event w = (Returned r, w')
             ∧ checkout_status r)
  ∧ (∃ r w', PromotionalRate.handler env event w = (Returned r, w')
             ∧ checkout_status r).
Proof.
  repeat split; apply checkout_answers; intros e n p.
  - apply with_customer_answers. intros c. apply or_failed_answers.
    intros w0 r w1. unfold bind.
    destruct (create_price w0) as [[price|m] w2]; [|discriminate].
    destruct (subscriptions_create _ w2) as [[sub|m] w3]; [|discriminate].
    apply created_status.
  - apply with_customer_answers. intros c w0. unfold bind.
    destruct (promotional_coupon_returns w0) as (o & w1 & ->).
    apply or_failed_answers. intros w2 r w3. unfold bind.
    destruct (subscriptions_create _ w2) as [[sub|m] w4]; [|discriminate].
    apply created_status.
  - intros w0. unfold CatalogCoupon.steps. run.
    destruct (reconcile_catalog w0) as [[price|m] w1]; simpl.
    + apply with_customer_answers. intros c w2. unfold bind.
      destruct (promotional_coupon_returns w2) as (o & w3 & ->).
      apply or_failed_answers. intros w4 r w5. unfold bind.
      destruct (subscriptions_create _ w4) as [[sub|m] w6]; [|discriminate].
      apply created_status.
    + eexists _, _. split; [reflexivity|]. simpl. eauto.
  - apply with_customer_answers. intros c. apply or_failed_answers.
    intros w0 r w1. unfold bind.
    destruct (subscriptions_create _ w0) as [[sub|m] w3]; [|discriminate].
    apply created_status.
Qed.

(** X12. A body that is not JSON, or is the JSON value null, is answered
    500 with the parser's or the destructuring's message; no call is
    issued. *)
Theorem malformed_body_answered_500 env event w b :
  httpMethod event = "POST" →
  missing (STRIPE_SECRET_KEY env) = false →
  missing (req_body event) = false →
  req_body event = Some b →
  JSON_parse b = None ∨ JSON_parse b = Some JNull →
  ∃ message,
    CreateSubscription.handler env event w
    = (Returned {| statusCode := 500;
                   body := BodyError
                             "Something went wrong with the subscription"
                             (Some message) |}, w).
Proof.
  intros Hpost Hkey Hbody Hb Hbad.
  unfold CreateSubscription.handler, checkout.
  rewrite Hpost, Hkey, Hbody, Hb. simpl. unfold parse_fields.
  destruct Hbad as [-> | ->]; run; eauto.
Qed.

(** X13. When the customer step fails, the checkout stops there: the
    answer is 400 with the platform's message, the state is the one the
    customer step left, and products, prices, coupons and subscriptions are
    what they were before the request. *)
Theorem customer_failure_stops_checkout env event v w message w1 :
  well_formed env event v →
  resolve_customer (email_of v) (name_of v) (method_of v) w
  = (Thrown message, w1) →
  CreateSubscription.handler env event w
  = (Returned {| statusCode := 400;
                 body := BodyError "Failed to set up customer account"
                           (Some message) |}, w1)
  ∧ products w1 = products w ∧ prices w1 = prices w
  ∧ coupons w1 = coupons w ∧ subscriptions w1 = subscriptions w.
Proof.
  intros Hwf Hcus. split; [|by eapply resolve_customer_frame].
  unfold CreateSubscription.handler.
  rewrite (well_formed_steps _ _ env event v w Hwf).
  unfold CreateSubscription.steps, with_customer. run. by rewrite Hcus.
Qed.


(** X14. Nothing is rolled back in the customer step: when the platform
    attaches the payment method to the existing customer and then refuses
    the update of the default, the step fails, the payment method stays
    attached to the customer and the customer records are what they were. *)
Theorem attach_survives_refused_update w e n p c rest message :
  customers_of e w = c :: rest →
  attachable w p (cus_id c) = true →
  rejects (calls w) (CustomersList e 1) = None →
  rejects (calls w ++ [CustomersList e 1])%list
    (PaymentMethodsAttach p (cus_id c)) = None →
  rejects
    (calls w ++ [CustomersList e 1; PaymentMethodsAttach p (cus_id c)])%list
    (CustomersUpdate (cus_id c) p) = Some message →
  ∃ w1, resolve_customer e n p w = (Thrown message, w1)
        ∧ attached w1 !! p = Some (cus_id c)
        ∧ customers w1 = customers w.
Proof.
  intros Hf Hatt R1 R2 R3.
  pose proof (filter_head_has_customer _ _ _ _ Hf) as Hhas.
  unfold resolve_customer, customers_list, paymentMethods_attach,
    customers_update, customers_of, has_customer, attachable in *.
  run. rewrite R1. simpl. rewrite Hf. simpl. rewrite R2, Hhas, Hatt. simpl.
  rewrite <- app_assoc. simpl. rewrite R3.
  eexists. split; [reflexivity|]. simpl. by rewrite lookup_insert_eq.
Qed.

(** The customer step on an email the platform lists. *)
Lemma resolve_customer_existing e n p w c rest r w1 :
  customers_of e w = c :: rest →
  resolve_customer e n p w = (r, w1) →
  map cus_id (customers w1) = map cus_id (customers w)
  ∧ ∀ c', r = Returned c' → c' = c.
Proof.
  intros Hf.
  unfold resolve_customer, customers_list, paymentMethods_attach,
    customers_update, customers_of in *.
  run. rewrite Hf. simpl. intros Hrun.
  assert (Hids : ∀ id pm l, map cus_id (map (set_default id pm) l)
                            = map cus_id l).
  { intros. rewrite map_map. apply map_ext. intros. apply set_default_id. }
  split; [|intros c' ->]; cases.
Qed.

Lemma resolve_customer_grows e n p w r w1 :
  resolve_customer e n p w = (r, w1) →
  (length (customers w1) <= S (length (customers w)))%nat.
Proof.
  unfold resolve_customer, customers_list, paymentMethods_attach,
    customers_update, customers_create.
  run. intros Hrun. cases; simpl; rewrite ?length_map; lia.
Qed.

(** X15. One customer per email: after a customer step that returned, a
    further customer step for the same email creates no customer, and when
    it returns, it returns a customer with the identifier returned before.
    The first step itself adds at most one customer. *)
Theorem customer_resolved_once e n p w c w1 n' p' r w2 :
  resolve_customer e n p w = (Returned c, w1) →
  resolve_customer e n' p' w1 = (r, w2) →
  map cus_id (customers w2) = map cus_id (customers w1)
  ∧ (∀ c', r = Returned c' → cus_id c' = cus_id c)
  ∧ (length (customers w1) <= S (length (customers w)))%nat.
Proof.
  intros Hfirst Hsecond.
  destruct (resolve_customer_returned _ _ _ _ _ _ Hfirst)
    as (_ & _ & c1 & rest & Hf & Hid).
  destruct (resolve_customer_existing _ _ _ _ _ _ _ _ Hf Hsecond)
    as [Hids Hsame].
  split; [exact Hids|]. split.
  - intros c' Hr. by rewrite (Hsame c' Hr).
  - by eapply resolve_customer_grows.
Qed.

(** X16. An email the platform does not list gets a new customer: two
    calls, the lookup and the creation; the new record carries the email,
    the name and the payment method as default, the method is attached to
    it, and the existing customers are untouched. *)
Theorem new_customer_created w e n p :
  customers_of e w = [] →
  attachable w p (fresh "cus_" w) = true →
  rejects (calls w) (CustomersList e 1) = None →
  rejects (calls w ++ [CustomersList e 1])%list (CustomersCreate e n p)
  = None →
  ∃ w1,
    resolve_customer e n p w
    = (Returned {| cus_id := fresh "cus_" w; cus_email := e; cus_name := n;
                   cus_default_payment_method := Some p |}, w1)
    ∧ customers w1
      = {| cus_id := fresh "cus_" w; cus_email := e; cus_name := n;
           cus_default_payment_method := Some p |} :: customers w
    ∧ attached w1 = <[p := fresh "cus_" w]> (attached w)
    ∧ calls w1 = (calls w ++ [CustomersList e 1; CustomersCreate e n p])%list.
Proof.
  intros Hf Hatt R1 R2.
  unfold resolve_customer, customers_list, customers_create, customers_of,
    attachable in *.
  run. rewrite R1. simpl. rewrite Hf. simpl. rewrite R2.
  unfold fresh in *. simpl. rewrite Hatt.
  eexists. split; [reflexivity|]. simpl. by rewrite <- app_assoc.
Qed.

End CheckoutMore.

Section CatalogMore.
Context `{Runtime}.

Opaque fresh.

Lemma create_price_head w p w1 :
  create_price w = (Returned p, w1) →
  ∃ price, prices w1 = price :: prices w ∧ price_id price = p
           ∧ thirty_a_week price ∧ customers w1 = customers w
           ∧ subscriptions w1 = subscriptions w.
Proof.
  unfold create_price, products_list, products_create, prices_create,
    thirty_a_week.
  run. intros Hrun. cases.
  all: eexists; split; [reflexivity|]; simpl; done.
Qed.

(** X17. The deployed checkout never looks a price up: every run of its
    product and price step that returns has put one more price of 30 AUD a
    week at the head of the catalog and returns it; the product is one the
    catalog already had or one new product named Weekly Meal Plan, and
    nothing but the catalog changed. *)
Theorem create_price_adds_a_price w p w1 :
  create_price w = (Returned p, w1) →
  ∃ price, prices w1 = price :: prices w
    ∧ price_id price = p ∧ thirty_a_week price
    ∧ has_product w1 (price_product price) = true
    ∧ (products w1 = products w
       ∨ ∃ product, products w1 = product :: products w
                    ∧ prod_name product = "Weekly Meal Plan")
    ∧ customers w1 = customers w ∧ attached w1 = attached w
    ∧ coupons w1 = coupons w ∧ subscriptions w1 = subscriptions w.
Proof.
  unfold create_price, products_list, products_create, prices_create,
    thirty_a_week.
  run. intros Hrun. cases.
  all: eexists; split; [reflexivity|]; simpl.
  all: repeat split; eauto.
Qed.

Lemma create_price_returns w :
  accepts_all → ∃ p w1, create_price w = (Returned p, w1).
Proof.
  intros Hok.
  unfold create_price, products_list, products_create, prices_create.
  run. rewrite !Hok. simpl.
  destruct (List.find _ _) as [product|] eqn:Hp; simpl; rewrite ?Hok; simpl.
  - apply find_some in Hp as [Hin _].
    assert (Hhas : has_product w (prod_id product) = true).
    { unfold has_product. apply existsb_exists. exists product.
      split; [|apply String.eqb_refl].
      apply list_elem_of_In, (subseteq_take 10). by apply list_elem_of_In. }
    unfold has_product in *. simpl. rewrite Hhas. eauto.
  - unfold has_product. simpl. rewrite String.eqb_refl. simpl. eauto.
Qed.

Transparent fresh.

Lemma map_imap_price (f : nat → ItemPrice → Item) l :
  (∀ i x, item_price (f i x) = x) → map item_price (imap f l) = l.
Proof.
  revert f. induction l as [|x l IH]; intros f Hf; [done|].
  simpl. rewrite Hf. f_equal. apply IH. intros i y. apply Hf.
Qed.

Lemma subscriptions_create_run p w :
  rejects (calls w) (SubscriptionsCreate p) = None →
  has_customer w (sp_customer p) = true →
  forallb (has_price w) (sp_items p) = true →
  forallb (fun c => bool_decide (is_Some (coupons w !! c))) (sp_discounts p)
  = true →
  ∃ s w1, subscriptions_create p w = (Returned s, w1)
    ∧ subscriptions w1 = <[sub_id s := s]> (subscriptions w)
    ∧ sub_customer s = sp_customer p
    ∧ map item_price (sub_items s) = sp_items p
    ∧ sub_metadata s = sp_metadata p
    ∧ sub_discounts s = sp_discounts p
    ∧ sub_status s = "incomplete"
    ∧ sub_id s = fresh "sub_" w.
Proof.
  intros R Hc Hp Hd. unfold subscriptions_create, has_customer in *. run.
  rewrite R. unfold has_price in *. simpl. rewrite Hc, Hp, Hd. simpl.
  eexists _, _. split; [reflexivity|]. simpl. repeat split.
  unfold new_items. apply map_imap_price. by intros.
Qed.


(** X18. A well-formed checkout whose customer step returns, on a platform
    that refuses nothing, succeeds: the answer is 200 with the identifiers
    of the new subscription and of the customer; the subscription is stored
    under its identifier in status incomplete, for that customer, with one
    item billed at the price just created (30 AUD a week), the weekly plan
    metadata and no discount. *)
Theorem checkout_succeeds env event v w c w1 :
  accepts_all →
  well_formed env event v →
  resolve_customer (email_of v) (name_of v) (method_of v) w
  = (Returned c, w1) →
  ∃ s price w',
    CreateSubscription.handler env event w
    = (Returned {| statusCode := 200;
                   body := BodyCreated (sub_id s) (sub_client_secret s)
                             (cus_id c) |}, w')
    ∧ subscriptions w' !! sub_id s = Some s
    ∧ sub_status s = "incomplete"
    ∧ sub_customer s = cus_id c
    ∧ map item_price (sub_items s) = [PriceRef (price_id price)]
    ∧ head (prices w') = Some price ∧ thirty_a_week price
    ∧ sub_metadata s = weekly_metadata (email_of v) (name_of v)
    ∧ sub_discounts s = [].
Proof.
  intros Hok Hwf Hcus.
  destruct (resolve_customer_returned _ _ _ _ _ _ Hcus) as (Hhas & _ & _).
  destruct (create_price_returns w1 Hok) as (p & w2 & Hprice).
  destruct (create_price_head _ _ _ Hprice)
    as (price & Hprices & Hid & Hthirty & Hc & _).
  set (params := {| sp_customer := cus_id c; sp_items := [PriceRef p];
                    sp_payment_behavior := "default_incomplete";
                    sp_metadata := weekly_metadata (email_of v) (name_of v);
                    sp_discounts := [] |}).
  destruct (subscriptions_create_run params w2)
    as (s & w3 & Hsub & Hsubs & Hsc & Hsi & Hsm & Hsd & Hst & _).
  { apply Hok. }
  { unfold has_customer in *. by rewrite Hc. }
  { simpl. rewrite Hprices. simpl. by rewrite Hid, String.eqb_refl. }
  { done. }
  exists s, price, w3. split.
  - unfold CreateSubscription.handler.
    rewrite (well_formed_steps _ _ env event v w Hwf).
    unfold CreateSubscription.steps, with_customer, or_failed, created.
    run. rewrite Hcus. simpl. rewrite Hprice. simpl.
    fold params. by rewrite Hsub.
  - rewrite Hsubs, lookup_insert_eq. subst p.
    assert (prices w3 = prices w2) as ->.
    { revert Hsub. unfold subscriptions_create. run. intros ?. cases. }
    rewrite Hprices. done.
Qed.

End CatalogMore.

Section PromotionMore.
Context `{Runtime}.

(** What the coupon step leaves when it returned a coupon. *)
Lemma promotional_coupon_some w id w1 :
  promotional_coupon w = (Returned (Some id), w1) →
  (coupons w1 = coupons w
   ∨ coupons w1 = <[coupon_key := first_4_weeks]> (coupons w)
     ∧ coupons w !! coupon_key = None)
  ∧ ∃ c, coupons w1 !! coupon_key = Some c ∧ coupon_id c = id.
Proof.
  unfold promotional_coupon, coupons_retrieve, coupons_create, coupon_key.
  run. intros Hrun. cases; simpl.
  all: try (split; [by left | eauto]).
  all: split; [right; by split | rewrite lookup_insert_eq; eauto].
Qed.

Lemma promotional_coupon_frame w o w1 :
  promotional_coupon w = (Returned o, w1) →
  customers w1 = customers w ∧ attached w1 = attached w
  ∧ products w1 = products w ∧ prices w1 = prices w
  ∧ subscriptions w1 = subscriptions w.
Proof.
  unfold promotional_coupon, coupons_retrieve, coupons_create.
  run. intros Hrun. cases.
Qed.

(** X19. The coupon is made once: a coupon step that returned a coupon
    either found it or stored it under the fixed key where there was none;
    the next coupon step stores nothing, and when the platform accepts its
    retrieval it returns the same coupon. *)
Theorem coupon_resolved_once w id w1 o w2 :
  promotional_coupon w = (Returned (Some id), w1) →
  promotional_coupon w1 = (Returned o, w2) →
  (coupons w1 = coupons w
   ∨ coupons w1 = <[coupon_key := first_4_weeks]> (coupons w)
     ∧ coupons w !! coupon_key = None)
  ∧ coupons w2 = coupons w1
  ∧ (rejects (calls w1) (CouponsRetrieve coupon_key) = None → o = Some id).
Proof.
  intros Hfirst Hsecond.
  destruct (promotional_coupon_some _ _ _ Hfirst) as [Hstored (c & Hc & Hid)].
  split; [exact Hstored|].
  revert Hsecond.
  unfold promotional_coupon, coupons_retrieve, coupons_create, coupon_key in *.
  run. intros Hrun. simpl in Hc.
  destruct (rejects (calls w1) _) as [m|] eqn:R1; simpl in Hrun.
  - destruct (rejects _ (CouponsCreate _)); simpl in Hrun;
      [by simplify_eq|].
    rewrite Hc in Hrun. by simplify_eq.
  - rewrite Hc in Hrun. by simplify_eq.
Qed.

(** X20. With the coupon on the platform or creatable, the discount is
    attached: on a platform that refuses nothing, a well-formed checkout of
    the coupon variant whose customer step returns is answered 200 and the
    stored subscription carries the coupon as its one discount. *)
Theorem discount_attached env event v w c w1 :
  accepts_all →
  well_formed env event v →
  resolve_customer (email_of v) (name_of v) (method_of v) w
  = (Returned c, w1) →
  (coupons w1 !! coupon_key = None
   ∨ ∃ stored, coupons w1 !! coupon_key = Some stored
               ∧ coupon_id stored = coupon_key) →
  ∃ s w',
    CouponInline.handler env event w
    = (Returned {| statusCode := 200;
                   body := BodyCreated (sub_id s) (sub_client_secret s)
                             (cus_id c) |}, w')
    ∧ subscriptions w' !! sub_id s = Some s
    ∧ sub_discounts s = [coupon_key]
    ∧ map item_price (sub_items s) = [PriceInline CouponInline.price_data]
    ∧ is_Some (coupons w' !! coupon_key).
Proof.
  intros Hok Hwf Hcus Hcoupon.
  destruct (resolve_customer_returned _ _ _ _ _ _ Hcus) as (Hhas & _ & _).
  assert (Hstep : ∃ w2, promotional_coupon w1 = (Returned (Some coupon_key), w2)
                        ∧ is_Some (coupons w2 !! coupon_key)
                        ∧ customers w2 = customers w1).
  { unfold promotional_coupon, coupons_retrieve, coupons_create,
      coupon_key in *.
    run. rewrite Hok. simpl.
    destruct Hcoupon as [Hnone | (stored & Hsome & Hid)].
    - rewrite Hnone. simpl. rewrite Hok. simpl. rewrite Hnone.
      eexists. split; [reflexivity|]. simpl.
      by rewrite lookup_insert_eq.
    - rewrite Hsome. simpl. rewrite Hid.
      eexists. split; [reflexivity|]. simpl. by rewrite Hsome. }
  destruct Hstep as (w2 & Hstep & Hstored & Hc).
  set (params := {| sp_customer := cus_id c;
                    sp_items := [PriceInline CouponInline.price_data];
                    sp_payment_behavior := "default_incomplete";
                    sp_metadata := weekly_metadata (email_of v) (name_of v);
                    sp_discounts := [coupon_key] |}).
  destruct (subscriptions_create_run params w2)
    as (s & w3 & Hsub & Hsubs & _ & Hsi & _ & Hsd & _).
  { apply Hok. }
  { unfold has_customer in *. by rewrite Hc. }
  { done. }
  { simpl. by rewrite bool_decide_eq_true_2. }
  exists s, w3. split.
  - unfold CouponInline.handler.
    rewrite (well_formed_steps _ _ env event v w Hwf).
    unfold CouponInline.steps, with_customer, or_failed, created.
    run. rewrite Hcus. simpl. rewrite Hstep. simpl.
    fold params. by rewrite Hsub.
  - rewrite Hsubs, lookup_insert_eq.
    assert (coupons w3 = coupons w2) as ->.
    { revert Hsub. unfold subscriptions_create. run. intros ?. cases. }
    done.
Qed.

(** X21. A refused subscription is reported and nothing is undone: when
    customer and price steps returned and the platform throws on the
    creation of the subscription, the answer is 400 with the platform's
    message, no subscription is stored, and the price created for this
    checkout stays in the catalog. *)
Theorem subscription_failure_leaves_price
    env event v w c w1 p w2 message w3 :
  well_formed env event v →
  resolve_customer (email_of v) (name_of v) (method_of v) w
  = (Returned c, w1) →
  create_price w1 = (Returned p, w2) →
  subscriptions_create
    {| sp_customer := cus_id c; sp_items := [PriceRef p];
       sp_payment_behavior := "default_incomplete";
       sp_metadata := weekly_metadata (email_of v) (name_of v);
       sp_discounts := [] |} w2 = (Thrown message, w3) →
  CreateSubscription.handler env event w
  = (Returned {| statusCode := 400;
                 body := BodyError "Failed to create subscription"
                           (Some message) |}, w3)
  ∧ subscriptions w3 = subscriptions w
  ∧ ∃ price, prices w3 = price :: prices w ∧ price_id price = p.
Proof.
  intros Hwf Hcus Hprice Hsub.
  destruct (resolve_customer_frame _ _ _ _ _ _ Hcus) as (_ & Hp1 & _ & Hs1).
  destruct (create_price_head _ _ _ Hprice)
    as (price & Hprices & Hid & _ & _ & Hs2).
  assert (Hkeep : prices w3 = prices w2 ∧ subscriptions w3 = subscriptions w2).
  { revert Hsub. unfold subscriptions_create. run. intros ?. cases. }
  destruct Hkeep as [Hp3 Hs3]. split; [|split].
  - unfold CreateSubscription.handler.
    rewrite (well_formed_steps _ _ env event v w Hwf).
    unfold CreateSubscription.steps, with_customer, or_failed.
    run. rewrite Hcus. simpl. rewrite Hprice. simpl. by rewrite Hsub.
  - congruence.
  - exists price. split; [congruence | done].
Qed.

End PromotionMore.

Section CatalogFailure.
Context `{Runtime}.

Opaque fresh.

Lemma reconcile_catalog_frame w o w1 :
  reconcile_catalog w = (o, w1) →
  customers w1 = customers w ∧ attached w1 = attached w
  ∧ coupons w1 = coupons w ∧ subscriptions w1 = subscriptions w
  ∧ ∃ issued, calls w1 = (calls w ++ issued)%list
              ∧ forallb catalog_call issued = true.
Proof.
  unfold reconcile_catalog, products_list, products_create, prices_list,
    prices_create.
  run. intros Hrun. cases; simpl.
  all: repeat split.
  all: rewrite <- ?app_assoc; eexists; split; [reflexivity | done].
Qed.

(** X22. A failure of the product and price step ends the checkout of the
    reconciling variant there: the answer is 400 'Failed to set up product
    pricing' with the platform's message; customers, payment methods,
    coupons and subscriptions are untouched and only catalog calls were
    issued. *)
Theorem catalog_failure_stops_checkout env event v w message w1 :
  well_formed env event v →
  reconcile_catalog w = (Thrown message, w1) →
  CatalogCoupon.handler env event w
  = (Returned {| statusCode := 400;
                 body := BodyError "Failed to set up product pricing"
                           (Some message) |}, w1)
  ∧ customers w1 = customers w ∧ attached w1 = attached w
  ∧ coupons w1 = coupons w ∧ subscriptions w1 = subscriptions w
  ∧ ∃ issued, calls w1 = (calls w ++ issued)%list
              ∧ forallb catalog_call issued = true.
Proof.
  intros Hwf Hrun. split.
  - unfold CatalogCoupon.handler.
    rewrite (well_formed_steps _ _ env event v w Hwf).
    unfold CatalogCoupon.steps. run. by rewrite Hrun.
  - by apply reconcile_catalog_frame in Hrun.
Qed.

Transparent fresh.

End CatalogFailure.

Section FromCheckoutToRegular.
Context `{Runtime}.

Lemma well_keyed_insert w w' s :
  well_keyed w → subscriptions w' = <[sub_id s := s]> (subscriptions w) →
  well_keyed w'.
Proof.
  unfold well_keyed. intros Hk ->. by apply map_Forall_insert_2.
Qed.

(** X23. From checkout to the regular price: a well-formed checkout of the
    promotional variant, on a platform that refuses nothing, stores a
    subscription billed 10 AUD a week with counters 0 of 4; verified
    payment events for it then count up while fewer than four have arrived,
    at the promotional price, and from the fourth on the counters are gone
    and the subscription is billed the regular terms. *)
Theorem promotion_from_checkout env event v w c w1 :
  accepts_all → well_keyed w →
  well_formed env event v →
  resolve_customer (email_of v) (name_of v) (method_of v) w
  = (Returned c, w1) →
  ∃ s w',
    PromotionalRate.handler env event w
    = (Returned {| statusCode := 200;
                   body := BodyCreated (sub_id s) (sub_client_secret s)
                             (cus_id c) |}, w')
    ∧ subscriptions w' !! sub_id s = Some s
    ∧ active_price s = Some (PriceInline PromotionalRate.price_data)
    ∧ ∀ env' events,
        Forall (fun e => verified_payment env' e (sub_id s)) events →
        ∃ s', subscriptions (deliver env' events w') !! sub_id s = Some s'
          ∧ ((length events < 4)%nat →
             weeks_used s' = Some (Num (Z.of_nat (length events)))
             ∧ active_price s'
               = Some (PriceInline PromotionalRate.price_data))
          ∧ ((4 <= length events)%nat →
             regular s' ∧ active_price s' = Some regular_price).
Proof.
  intros Hok Hk Hwf Hcus.
  destruct (resolve_customer_returned _ _ _ _ _ _ Hcus) as (Hhas & _ & _).
  destruct (resolve_customer_frame _ _ _ _ _ _ Hcus) as (_ & _ & _ & Hs1).
  set (params := {| sp_customer := cus_id c;
                    sp_items := [PriceInline PromotionalRate.price_data];
                    sp_payment_behavior := "default_incomplete";
                    sp_metadata :=
                      PromotionalRate.metadata (email_of v) (name_of v);
                    sp_discounts := [] |}).
  destruct (subscriptions_create_run params w1)
    as (s & w2 & Hsub & Hsubs & _ & Hsi & Hsm & _);
    [apply Hok | idtac | done | done |].
  { exact Hhas. }
  simpl in Hsi, Hsm.
  assert (Hactive : active_price s
                    = Some (PriceInline PromotionalRate.price_data)).
  { unfold active_price. destruct (sub_items s) as [|it items]; [done|].
    simpl in Hsi. injection Hsi as Hit _. simpl. by rewrite Hit. }
  assert (Hitems : sub_items s ≠ []).
  { intros E. rewrite E in Hsi. discriminate Hsi. }
  assert (Hk2 : well_keyed w2).
  { eapply (well_keyed_insert w1); [|exact Hsubs].
    unfold well_keyed in *. by rewrite Hs1. }
  assert (Hstored : subscriptions w2 !! sub_id s = Some s).
  { rewrite Hsubs. apply lookup_insert_eq. }
  destruct (promotional_checkout_counters s _ _ Hsm) as (Hu & Ht & _).
  exists s, w2. split; [|split; [done|split; [done|]]].
  - unfold PromotionalRate.handler.
    rewrite (well_formed_steps _ _ env event v w Hwf).
    unfold PromotionalRate.steps, with_customer, or_failed, created.
    run. rewrite Hcus. simpl. fold params. by rewrite Hsub.
  - intros env' events Hall.
    rewrite (deliver_paid env' (sub_id s) events w2 s Hok Hk2 Hall Hstored).
    eexists. split; [reflexivity|].
    destruct (payments_until_total events s 0 4 Hu Ht) as [Hbelow Hfrom];
      [lia|done|].
    split.
    + intros Hlt. destruct Hbelow as (Hu' & _ & Hi'); [lia|].
      split; [done|]. unfold active_price in *. by rewrite Hi'.
    + intros Hge. destruct Hfrom as (Hnone & _ & Hprice); [lia|].
      by split.
Qed.

End FromCheckoutToRegular.

Section LoggingWebhookFacts.
Context `{Runtime}.

Lemma read_same v k w : snd (read v k w) = w.
Proof. destruct v as [[]|]; reflexivity. Qed.

Lemma log_invoice_same ev w : snd (LoggingWebhook.log_invoice ev w) = w.
Proof.
  unfold LoggingWebhook.log_invoice, read. run. cases.
Qed.

Lemma log_deleted_same ev w : snd (LoggingWebhook.log_deleted ev w) = w.
Proof.
  unfold LoggingWebhook.log_deleted, read. run. cases.
Qed.

Lemma logging_dispatch_same type ev w :
  snd (LoggingWebhook.dispatch type ev w) = w.
Proof.
  unfold LoggingWebhook.dispatch.
  destruct type as [[| | |t| |]|]; try reflexivity.
  repeat destruct (String.eqb t _); try reflexivity.
  all: first [apply log_invoice_same | apply log_deleted_same].
Qed.

(** X24. The logging version of the webhook has no effect on the platform:
    whatever the request, the configuration and the platform's state, the
    state after the invocation is the state before, no call recorded. *)
Theorem logging_webhook_changes_nothing env event w :
  snd (LoggingWebhook.handler env event w) = w.
Proof.
  unfold LoggingWebhook.handler.
  destruct (negb _); [reflexivity|].
  destruct (StripeWebhook.constructEvent _ _ _) as [ev|message];
    [|reflexivity].
  unfold LoggingWebhook.process, read.
  destruct ev as [| | | | |fields]; try reflexivity.
  unfold bind at 1. unfold ret at 1.
  pose proof (logging_dispatch_same
                (own_prop (JObj fields) "type") (JObj fields) w) as Hsame.
  unfold try_catch, bind, respond, ret.
  destruct (LoggingWebhook.dispatch _ _ w) as [[[]|message] w1];
    simpl in *; congruence.
Qed.

(** X25. Away from successful payments the two versions of the webhook are
    one function: on a request that does not carry a verified event of
    type [invoice.payment_succeeded], the promotional version and the
    logging version give the same outcome and the same platform state. *)
Theorem webhooks_agree_off_payments env event w :
  (∀ ev, StripeWebhook.constructEvent (req_body event)
           (stripe_signature event) (STRIPE_WEBHOOK_SECRET env)
         = Returned ev →
         ¬ is_type ev "invoice.payment_succeeded") →
  StripeWebhook.handler env event w = LoggingWebhook.handler env event w.
Proof.
  intros Hother. unfold StripeWebhook.handler, LoggingWebhook.handler.
  destruct (negb _); [reflexivity|].
  destruct (StripeWebhook.constructEvent _ _ _) as [ev|message];
    [|reflexivity].
  specialize (Hother ev eq_refl). unfold is_type in Hother.
  unfold StripeWebhook.process, LoggingWebhook.process,
    StripeWebhook.dispatch, LoggingWebhook.dispatch.
  destruct ev as [| | | | |fields]; try reflexivity.
  unfold read at 1 2. run. simpl in Hother.
  destruct (assoc "type" fields) as [[| | |t| |]|]; try reflexivity.
  destruct (String.eqb_spec t "invoice.payment_succeeded") as [->|_];
    [done|].
  reflexivity.
Qed.

End LoggingWebhookFacts.

Section PaymentIntentFacts.
Context `{Runtime}.
Variable refuses : PaymentIntent.Ledger → PaymentIntent.IntentParams
                   → option PaymentIntent.Error.

Import PaymentIntent.

Lemma or_else_truthy v d : truthy (Some d) = true →
  truthy (Some (or_else v d)) = true.
Proof.
  intros Hd. unfold or_else. destruct v as [j|]; [|done].
  by destruct (truthy (Some j)) eqn:E.
Qed.

Lemma or_else_falsy v d : truthy v = false → or_else v d = d.
Proof. unfold or_else. destruct v as [j|]; [|done]. by intros ->. Qed.

Lemma or_else_given j d : truthy (Some j) = true → or_else (Some j) d = j.
Proof. unfold or_else. by intros ->. Qed.

(** What [charge] does to the ledger and how its outcome shows it. *)
Lemma charge_spec invalid v l o l' :
  charge refuses invalid v l = (o, l') →
  (l' = l
   ∧ (o = inl TypeError ∧ v = JNull
      ∨ o = inr {| statusCode := 400; body := BodyError invalid None |}
        ∧ v ≠ JNull
        ∧ (truthy (own_prop v "customer_email") = false
           ∨ truthy (own_prop v "customer_name") = false)))
  ∨ ∃ email name p,
      v ≠ JNull
      ∧ own_prop v "customer_email" = Some email ∧ truthy (Some email) = true
      ∧ own_prop v "customer_name" = Some name ∧ truthy (Some name) = true
      ∧ p = {| ip_amount := or_else (own_prop v "amount") (JNum 1000);
               ip_currency := or_else (own_prop v "currency") (JStr "aud");
               ip_customer_email := email; ip_customer_name := name;
               ip_product :=
                 or_else (own_prop v "product") (JStr "weekly-meal-plan");
               ip_receipt_email := email;
               ip_description := "Weekly Meal Plan - " +:+ js_string name |}
      ∧ requested l' = (requested l ++ [p])%list
      ∧ match refuses l p with
        | Some e => o = inl e ∧ intents l' = intents l
        | None =>
            ∃ i, intents l' = i :: intents l ∧ intent_params i = p
                 ∧ o = inr {| statusCode := 200;
                              body := BodyIntent (intent_client_secret i)
                                        (intent_id i) |}
        end.
Proof.
  unfold charge. intros Hrun.
  destruct (nullish v) eqn:Hnull.
  { left. destruct v; try discriminate. simplify_eq. split; [done|].
    by left. }
  assert (Hv : v ≠ JNull) by (by intros ->).
  rename Hrun into Hrun'.
  destruct (own_prop v "customer_email") as [email|] eqn:He.
  2: { left. simplify_eq. split; [done|]. right. split; [done|].
       split; [done|]. by left. }
  destruct (own_prop v "customer_name") as [name|] eqn:Hn.
  2: { left. simplify_eq. split; [done|]. right. split; [done|].
       split; [done|]. by right. }
  destruct (truthy (Some email)) eqn:Te, (truthy (Some name)) eqn:Tn;
    simpl in Hrun'.
  2-4: left; simplify_eq; split; [done|]; right; split; [done|];
       split; [done|]; auto.
  right. eexists email, name, _. do 5 (split; [done|]).
  split; [reflexivity|].
  unfold paymentIntents_create in Hrun'.
  destruct (refuses l _) as [e|]; simplify_eq; simpl.
  - done.
  - split; [done|]. eexists. split; [reflexivity|]. done.
Qed.

(** X26. Validation comes before the charge: a POST whose body parses to a
    value without a truthy [customer_email] or without a truthy
    [customer_name] is answered 400 by both versions, each with its own
    message, and no payment intent is asked for. *)
Theorem payment_needs_email_and_name env event v l :
  httpMethod event = "POST" →
  missing (STRIPE_SECRET_KEY env) = false →
  missing (req_body event) = false →
  req_body event ≫= JSON_parse = Some v →
  v ≠ JNull →
  truthy (own_prop v "customer_email") = false
  ∨ truthy (own_prop v "customer_name") = false →
  handler refuses env event l
  = ({| statusCode := 400;
        body := BodyError "Please provide both email and name" None |}, l)
  ∧ handler_compact refuses event l
    = ({| statusCode := 400;
          body := BodyError "Missing customer information" None |}, l).
Proof.
  intros Hpost Hkey Hbody Hparse Hv Hfalsy.
  unfold handler, handler_compact.
  rewrite Hpost, Hkey, Hbody, Hparse. simpl.
  assert (Hcharge : ∀ invalid,
            charge refuses invalid v l
            = (inr {| statusCode := 400; body := BodyError invalid None |},
               l)).
  { intros invalid.
    destruct (charge refuses invalid v l) as [o l'] eqn:Hrun.
    destruct (charge_spec _ _ _ _ _ Hrun)
      as [[-> [[_ ->]|[-> _]]]|(email & name & p & _ & He & Te & Hn & Tn & _)];
      [done|done|].
    rewrite He, Hn in Hfalsy. destruct Hfalsy; congruence. }
  by rewrite !Hcharge.
Qed.

(** X27. One request, at most one payment intent asked for, and never with
    a falsy parameter: whatever the request, the detailed version either
    leaves the ledger as it was or has asked for exactly one creation,
    whose amount, currency, product, e-mail and name are all truthy; an
    amount that is absent, null or zero has become 1000, an absent or empty
    currency 'aud', and the receipt goes to the customer's e-mail. *)
Theorem intent_parameters_defaulted env event l r l' :
  handler refuses env event l = (r, l') →
  l' = l
  ∨ ∃ v p,
      req_body event ≫= JSON_parse = Some v
      ∧ requested l' = (requested l ++ [p])%list
      ∧ truthy (Some (ip_amount p)) = true
      ∧ truthy (Some (ip_currency p)) = true
      ∧ truthy (Some (ip_product p)) = true
      ∧ truthy (Some (ip_customer_email p)) = true
      ∧ truthy (Some (ip_customer_name p)) = true
      ∧ (truthy (own_prop v "amount") = false → ip_amount p = JNum 1000)
      ∧ (∀ a, own_prop v "amount" = Some a → truthy (Some a) = true →
              ip_amount p = a)
      ∧ (truthy (own_prop v "currency") = false → ip_currency p = JStr "aud")
      ∧ ip_receipt_email p = ip_customer_email p
      ∧ own_prop v "customer_email" = Some (ip_customer_email p).
Proof.
  unfold handler. intros Hrun.
  repeat (destruct (_ : bool) in Hrun; [left; by simplify_eq|]).
  destruct (req_body event ≫= JSON_parse) as [v|] eqn:Hparse;
    [|left; by simplify_eq].
  destruct (charge refuses _ v l) as [o l1] eqn:Hcharge.
  destruct (charge_spec _ _ _ _ _ Hcharge)
    as [[-> Ho]|(email & name & p & _ & He & Te & Hn & Tn & Hp & Hreq & _)].
  { left. destruct Ho as [[-> _]|[-> _]]; simpl in Hrun; by simplify_eq. }
  right. exists v, p.
  assert (l' = l1) as ->.
  { destruct o as [e|?]; [destruct (of_platform e)|]; by simplify_eq. }
  subst p. simpl. split; [done|]. split; [done|].
  split; [by apply or_else_truthy|]. split; [by apply or_else_truthy|].
  split; [by apply or_else_truthy|]. split; [done|]. split; [done|].
  split; [apply or_else_falsy|].
  split; [intros a -> Ha; by apply or_else_given|].
  split; [apply or_else_falsy|]. done.
Qed.

(** X28. A payment intent exists exactly when its secret was handed out:
    in both versions the intents after a request are those before, or one
    more; in the second case the answer is 200 with the client secret and
    the identifier of the new intent, and an answer that carries a client
    secret always stands for a new intent. *)
Theorem intent_created_iff_reported env event l :
  reported l (handler refuses env event l)
  ∧ reported l (handler_compact refuses event l).
Proof.
  assert (Hcharge : ∀ invalid v o l1,
    charge refuses invalid v l = (o, l1) →
    match o with
    | inl _ => intents l1 = intents l
    | inr r =>
        intents l1 = intents l
        ∧ (∀ secret id, body r ≠ BodyIntent secret id)
        ∨ ∃ i, intents l1 = i :: intents l
               ∧ r = {| statusCode := 200;
                        body := BodyIntent (intent_client_secret i)
                                  (intent_id i) |}
    end).
  { intros invalid v o l1 Hrun.
    destruct (charge_spec _ _ _ _ _ Hrun)
      as [[-> [[-> _]|[-> _]]]|(email & name & p & _ & _ & _ & _ & _ & _ & _
                                 & Hout)].
    - done.
    - by left.
    - destruct (refuses l p) as [e|].
      + by destruct Hout as [-> ?].
      + destruct Hout as (i & Hi & _ & ->). right. by exists i. }
  unfold reported. split.
  - unfold handler.
    repeat (destruct (_ : bool); [left; by split|]).
    destruct (req_body event ≫= JSON_parse) as [v|]; [|left; by split].
    destruct (charge refuses _ v l) as [[e|r] l1] eqn:Hrun;
      apply Hcharge in Hrun; simpl.
    + destruct (of_platform e); left; by split.
    + done.
  - unfold handler_compact.
    repeat (destruct (_ : bool); [left; by split|]).
    destruct (req_body event ≫= JSON_parse) as [v|]; [|left; by split].
    destruct (charge refuses _ v l) as [[e|r] l1] eqn:Hrun;
      apply Hcharge in Hrun; simpl.
    + left; by split.
    + done.
Qed.

(** X29. The two versions differ in how they talk about failure, not in
    what they do: with the secret key configured and a parser that rejects
    the empty text, both leave the same ledger on every request, when
    either answers 200 the other gives the same answer, and where the
    compact version answers 500 the detailed one answers 400 or 500. *)
Theorem payment_versions_agree env event l :
  missing (STRIPE_SECRET_KEY env) = false →
  JSON_parse "" = None →
  snd (handler refuses env event l) = snd (handler_compact refuses event l)
  ∧ (statusCode (fst (handler refuses env event l)) = 200
     ∨ statusCode (fst (handler_compact refuses event l)) = 200 →
     fst (handler refuses env event l)
     = fst (handler_compact refuses event l))
  ∧ (statusCode (fst (handler_compact refuses event l)) = 500 →
     statusCode (fst (handler refuses env event l)) = 400
     ∨ statusCode (fst (handler refuses env event l)) = 500).
Proof.
  intros Hkey Hempty. unfold handler, handler_compact. rewrite Hkey.
  destruct (String.eqb (httpMethod event) "OPTIONS"); [simpl; tauto|].
  destruct (negb _); simpl; [by intuition discriminate|].
  destruct (req_body event) as [text|] eqn:Hb; simpl.
  2: { split; [done|]. split; [intros [?|?]; discriminate|]. by left. }
  destruct (String.eqb_spec text "") as [->|Hne]; simpl.
  { rewrite Hempty. simpl. split; [done|].
    split; [intros [?|?]; discriminate|]. by left. }
  destruct (JSON_parse text) as [v|]; simpl.
  2: { split; [done|]. split; [intros [?|?]; discriminate|]. by left. }
  destruct (charge refuses "Please provide both email and name" v l)
    as [o l1] eqn:Hd.
  destruct (charge refuses "Missing customer information" v l)
    as [o' l2] eqn:Hc.
  destruct (charge_spec _ _ _ _ _ Hd)
    as [[-> Ho]|(e1 & n1 & p1 & Hv1 & He1 & Te1 & Hn1 & Tn1 & Hp1 & Hr1
                 & Ho1)];
  destruct (charge_spec _ _ _ _ _ Hc)
    as [[-> Ho']|(e2 & n2 & p2 & Hv2 & He2 & Te2 & Hn2 & Tn2 & Hp2 & Hr2
                  & Ho2)].
  - destruct Ho as [[-> ->]|(-> & Hv & Hf)];
      destruct Ho' as [[-> ?]|(-> & ? & ?)]; simpl; try done.
    all: split; [done|]; split; [intros [?|?]; discriminate|].
    all: first [by right | discriminate].
  - exfalso. destruct Ho as [[_ ->]|(_ & _ & [Hf|Hf])]; [done|..];
      congruence.
  - exfalso. destruct Ho' as [[_ ->]|(_ & _ & [Hf|Hf])]; [done|..];
      congruence.
  - assert (Hsame : (o, l1) = (o', l2)).
    { rewrite <- Hd, <- Hc. unfold charge.
      destruct (nullish v); [done|]. rewrite He1, Hn1, Te1, Tn1. simpl.
      by destruct (paymentIntents_create _ _ _) as [[?|?] ?]. }
    injection Hsame as <- <-. clear Hc Ho2.
    assert (p2 = p1) as -> by (subst; congruence).
    destruct (refuses l p1) as [e|].
    + destruct Ho1 as [-> Hi1].
      split; [by destruct (of_platform e)|].
      split; [destruct (of_platform e); intros [?|?]; discriminate|].
      destruct (of_platform e); [by left | by right].
    + destruct Ho1 as (i1 & Hi1 & Hp & ->). simpl.
      split; [done|]. split; [done|]. discriminate.
Qed.

End PaymentIntentFacts.

Section CouponByListFacts.
Import CouponByList.

Lemma find_promotional_id l c :
  List.find promotional l = Some c → coupon_id c = "FIRST_4_WEEKS_50_OFF".
Proof.
  intros [_ Hc]%find_some. unfold promotional in Hc.
  by apply String.eqb_eq in Hc.
Qed.

(** X30. The helper looks at the first hundred coupons only. On a platform
    that refuses nothing of its own: when the promotional coupon is among
    the hundred newest it is returned and nothing is stored; when the
    platform has no such coupon it is created and returned; when the
    coupon exists but a hundred newer ones precede it, the creation is
    refused as a duplicate and the helper returns null, the shelf
    unchanged. *)
Theorem coupon_beyond_hundredth_is_lost refuses s :
  (∀ h c, refuses h c = None) →
  (existsb promotional (take 100 (listed s)) = true →
   fst (createPromotionalCoupon refuses s) = Some "FIRST_4_WEEKS_50_OFF"
   ∧ listed (snd (createPromotionalCoupon refuses s)) = listed s)
  ∧ (existsb promotional (listed s) = false →
     fst (createPromotionalCoupon refuses s) = Some "FIRST_4_WEEKS_50_OFF"
     ∧ listed (snd (createPromotionalCoupon refuses s))
       = first_4_weeks :: listed s)
  ∧ (existsb promotional (take 100 (listed s)) = false →
     existsb promotional (listed s) = true →
     fst (createPromotionalCoupon refuses s) = None
     ∧ listed (snd (createPromotionalCoupon refuses s)) = listed s).
Proof.
  intros Hok. unfold createPromotionalCoupon, coupons_list, coupons_create.
  rewrite !Hok. simpl. rewrite ?Hok.
  change (existsb (fun c' => String.eqb (coupon_id c') "FIRST_4_WEEKS_50_OFF")
            (listed s))
    with (existsb promotional (listed s)).
  destruct (List.find promotional (take 100 (listed s))) as [c|] eqn:Hfind.
  - pose proof (find_promotional_id _ _ Hfind) as Hid.
    assert (Hknown : existsb promotional (take 100 (listed s)) = true).
    { apply existsb_exists. exists c. by apply find_some in Hfind. }
    assert (Hall : existsb promotional (listed s) = true).
    { apply existsb_exists in Hknown as (c' & Hin & Hc').
      apply existsb_exists. exists c'. split; [|done].
      rewrite <- (take_drop 100 (listed s)). apply in_or_app. by left. }
    simpl. rewrite Hid, Hknown, Hall. repeat split; intros; congruence.
  - assert (Hknown : existsb promotional (take 100 (listed s)) = false).
    { apply not_true_is_false. intros (c & Hin & Hc)%existsb_exists.
      by rewrite (find_none _ _ Hfind c Hin) in Hc. }
    rewrite Hknown.
    destruct (existsb promotional (listed s)); simpl;
      repeat split; intros; congruence.
Qed.

End CouponByListFacts.

(** * The further properties on the scenarios *)

Lemma scenario_accepts_all : accepts_all (H := Scenario.runtime).
Proof. intros h c. reflexivity. Defined.

Lemma scenario_well_formed down :
  well_formed (H := Scenario.refusing down) Demo.env Demo.checkout_request
    Demo.checkout_body.
Proof.
  split; [reflexivity|]. split; [reflexivity|]. split; [reflexivity|].
  split; [exists "checkout of a@x.com"; split; reflexivity|].
  split; [discriminate|]. repeat split; reflexivity.
Defined.

Lemma scenario_keyed metadata items :
  well_keyed (Scenario.with_metadata metadata items).
Proof.
  unfold well_keyed, Scenario.with_metadata. simpl.
  by apply map_Forall_singleton.
Defined.

Lemma failed_run_changes_nothing_witness :
  subscriptions
    (snd (StripeWebhook.handler (H := Demo.runtime) Demo.env Demo.paid_1
            Demo.world_9))
  = subscriptions Demo.world_9.
Proof.
  apply (failed_run_changes_nothing (H := Demo.runtime) Demo.env Demo.paid_1
           Demo.world_9
           {| statusCode := 500;
              body := BodyError "Webhook processing failed" None |}).
  - vm_compute. reflexivity.
  - discriminate.
Defined.

Lemma other_events_change_nothing_witness :
  ∃ r, StripeWebhook.handler (H := Scenario.runtime) Demo.env
         Scenario.cancelled Demo.promotional_world
       = (Returned r, Demo.promotional_world)
       ∧ statusCode r = 200.
Proof.
  destruct (other_events_change_nothing (H := Scenario.runtime) Demo.env
              Scenario.cancelled Scenario.cancellation
              Demo.promotional_world) as (r & Hrun & _ & Hiff).
  - reflexivity.
  - reflexivity.
  - discriminate.
  - discriminate.
  - exists r. split; [exact Hrun|]. apply Hiff. right. eexists. reflexivity.
Defined.

Lemma payment_for_regular_subscription_witness :
  StripeWebhook.handler (H := Demo.runtime) Demo.env Demo.paid_1
    Scenario.world_regular
  = (Returned {| statusCode := 200; body := BodyReceived |},
     log_call (SubscriptionsRetrieve "sub_1") Scenario.world_regular).
Proof.
  apply (payment_for_regular_subscription (H := Demo.runtime) Demo.env
           Demo.paid_1 "sub_1"
           (Scenario.sub_of Scenario.world_regular "sub_1")).
  - exact demo_paid_1.
  - vm_compute. reflexivity.
  - vm_compute. reflexivity.
  - reflexivity.
Defined.

Lemma payment_for_unknown_subscription_witness :
  StripeWebhook.handler (H := Demo.runtime) Demo.env Demo.paid_1 Demo.world_9
  = (Returned {| statusCode := 500;
                 body := BodyError "Webhook processing failed" None |},
     log_call (SubscriptionsRetrieve "sub_1") Demo.world_9).
Proof.
  apply (payment_for_unknown_subscription (H := Demo.runtime) Demo.env
           Demo.paid_1 "sub_1" Demo.world_9).
  - exact demo_paid_1.
  - left. reflexivity.
Defined.

Lemma missing_total_counts_as_four_witness :
  ∃ s', subscriptions
          (snd (StripeWebhook.handler (H := Demo.runtime) Demo.env
                  Demo.paid_9 Scenario.world_no_total)) !! "sub_9"
        = Some s'
        ∧ sub_metadata s' !! "promotional_weeks_used" = None
        ∧ active_price s' = Some regular_price.
Proof.
  destruct (missing_total_counts_as_four (H := Demo.runtime) Demo.env
              Demo.paid_9 "sub_9"
              (Scenario.sub_of Scenario.world_no_total "sub_9")
              Scenario.world_no_total 3) as (s' & Hs' & _ & Hswitch).
  - exact demo_accepts_all.
  - apply scenario_keyed.
  - exact demo_paid_9.
  - vm_compute. reflexivity.
  - vm_compute. reflexivity.
  - unfold safe_integer, MAX_SAFE_INTEGER. lia.
  - vm_compute. reflexivity.
  - left. vm_compute. reflexivity.
  - vm_compute. intros E. discriminate E.
  - exists s'. split; [exact Hs'|]. apply Hswitch. lia.
Defined.

Lemma unreadable_counter_never_ends_witness :
  ∃ s', subscriptions
          (deliver (H := Demo.runtime) Demo.env [Demo.paid_9; Demo.paid_9]
             Scenario.world_unreadable) !! "sub_9" = Some s'
        ∧ sub_metadata s' !! "promotional_weeks_used" = Some "NaN"
        ∧ sub_items s' = [Demo.item_9].
Proof.
  apply (unreadable_counter_never_ends (H := Demo.runtime) Demo.env "sub_9"
           (Scenario.sub_of Scenario.world_unreadable "sub_9")
           Scenario.world_unreadable [Demo.paid_9; Demo.paid_9]).
  - exact demo_accepts_all.
  - apply scenario_keyed.
  - vm_compute. reflexivity.
  - vm_compute. reflexivity.
  - vm_compute. reflexivity.
  - repeat (apply Forall_cons_2; [exact demo_paid_9|]). apply Forall_nil_2.
  - intros E. discriminate E.
Defined.

Lemma promotion_lasts_until_total_witness :
  ∃ s', subscriptions
          (deliver (H := Demo.runtime) Demo.env
             [Demo.paid_1; Demo.paid_1; Demo.paid_1; Demo.paid_1;
              Demo.paid_1] Demo.promotional_world) !! "sub_1" = Some s'
        ∧ sub_metadata s' !! "promotional_weeks_used" = None
        ∧ active_price s' = Some regular_price.
Proof.
  destruct (promotion_lasts_until_total (H := Demo.runtime) Demo.env "sub_1"
              (Scenario.sub_of Demo.promotional_world "sub_1")
              Demo.promotional_world
              [Demo.paid_1; Demo.paid_1; Demo.paid_1; Demo.paid_1;
               Demo.paid_1] 0 4) as (s' & Hs' & _ & Hswitch).
  - exact demo_accepts_all.
  - exact demo_promotional_world_keyed.
  - vm_compute. reflexivity.
  - vm_compute. reflexivity.
  - vm_compute. reflexivity.
  - lia.
  - unfold MAX_SAFE_INTEGER. lia.
  - vm_compute. intros E. discriminate E.
  - repeat (apply Forall_cons_2; [exact demo_paid_1|]). apply Forall_nil_2.
  - exists s'. split; [exact Hs'|].
    destruct Hswitch as (Hused & _ & Hprice); [simpl; lia|].
    split; [exact Hused | exact Hprice].
Defined.

Lemma switch_reprices_first_item_only_witness :
  ∃ s', subscriptions
          (snd (StripeWebhook.handler (H := Demo.runtime) Demo.env
                  Demo.paid_9 Scenario.world_two_items)) !! "sub_9"
        = Some s'
        ∧ map item_id (sub_items s') = ["si_9"; "si_10"]
        ∧ Scenario.add_on ∈ sub_items s'.
Proof.
  destruct (switch_reprices_first_item_only (H := Demo.runtime) Demo.env
              Demo.paid_9 "sub_9"
              (Scenario.sub_of Scenario.world_two_items "sub_9")
              Scenario.world_two_items 3 4 Demo.item_9 [Scenario.add_on])
    as (s' & Hs' & Hids & _ & Hrest).
  - exact demo_accepts_all.
  - apply scenario_keyed.
  - exact demo_paid_9.
  - vm_compute. reflexivity.
  - vm_compute. reflexivity.
  - vm_compute. reflexivity.
  - unfold safe_integer, MAX_SAFE_INTEGER. lia.
  - unfold safe_integer, MAX_SAFE_INTEGER. lia.
  - lia.
  - lia.
  - reflexivity.
  - exists s'. split; [exact Hs'|]. split; [exact Hids|].
    apply Hrest; [apply list_elem_of_singleton; reflexivity | discriminate].
Defined.

Lemma malformed_body_answered_500_witness :
  ∃ message,
    CreateSubscription.handler (H := Demo.runtime) Demo.env
      Scenario.not_json Demo.promotional_world
    = (Returned {| statusCode := 500;
                   body := BodyError
                             "Something went wrong with the subscription"
                             (Some message) |}, Demo.promotional_world).
Proof.
  apply (malformed_body_answered_500 (H := Demo.runtime) Demo.env
           Scenario.not_json Demo.promotional_world "not json").
  - reflexivity.
  - reflexivity.
  - reflexivity.
  - reflexivity.
  - left. reflexivity.
Defined.

Lemma customer_failure_stops_checkout_witness :
  CreateSubscription.handler
    (H := Scenario.refusing Scenario.no_customer_list) Demo.env
    Demo.checkout_request empty_world
  = (Returned {| statusCode := 400;
                 body := BodyError "Failed to set up customer account"
                           (Some "service unavailable") |},
     snd (Scenario.customer_step Scenario.no_customer_list)).
Proof.
  refine (proj1 (customer_failure_stops_checkout
                   (H := Scenario.refusing Scenario.no_customer_list)
                   Demo.env Demo.checkout_request Demo.checkout_body
                   empty_world "service unavailable"
                   (snd (Scenario.customer_step Scenario.no_customer_list))
                   _ _)).
  - apply scenario_well_formed.
  - vm_compute. reflexivity.
Defined.

Lemma attach_survives_refused_update_witness :
  ∃ w1, resolve_customer (H := Scenario.refusing Scenario.no_customer_update)
          "a@x.com" "Ann B." "pm_new" Demo.world_7
        = (Thrown "service unavailable", w1)
        ∧ attached w1 !! "pm_new" = Some "cus_7"
        ∧ customers w1 = customers Demo.world_7.
Proof.
  apply (attach_survives_refused_update
           (H := Scenario.refusing Scenario.no_customer_update) Demo.world_7
           "a@x.com" "Ann B." "pm_new" Demo.returning_customer []
           "service unavailable"); reflexivity.
Defined.

Lemma customer_resolved_once_witness :
  map cus_id
    (customers
       (snd (resolve_customer (H := Scenario.runtime) "a@x.com" "B" "pm_2"
               (snd (Scenario.customer_step (fun _ => false))))))
  = map cus_id (customers (snd (Scenario.customer_step (fun _ => false)))).
Proof.
  refine (proj1 (customer_resolved_once (H := Scenario.runtime) "a@x.com"
                   "A" "pm_1" empty_world
                   (Scenario.customer (fun _ => false))
                   (snd (Scenario.customer_step (fun _ => false))) "B" "pm_2"
                   (fst (resolve_customer (H := Scenario.runtime) "a@x.com"
                           "B" "pm_2"
                           (snd (Scenario.customer_step (fun _ => false)))))
                   _ _ _)).
  - vm_compute. reflexivity.
  - apply surjective_pairing.
Defined.

Lemma new_customer_created_witness :
  ∃ w1,
    resolve_customer (H := Demo.runtime) "a@x.com" "A" "pm_1" empty_world
    = (Returned {| cus_id := "cus_0"; cus_email := "a@x.com";
                   cus_name := "A";
                   cus_default_payment_method := Some "pm_1" |}, w1)
    ∧ attached w1 = <["pm_1" := "cus_0"]> ∅.
Proof.
  destruct (new_customer_created (H := Demo.runtime) empty_world "a@x.com"
              "A" "pm_1") as (w1 & Hrun & _ & Hattached & _).
  - reflexivity.
  - reflexivity.
  - reflexivity.
  - reflexivity.
  - exists w1. split; [exact Hrun | exact Hattached].
Defined.

Lemma create_price_adds_a_price_witness :
  ∃ price,
    prices (snd (Scenario.price_step (fun _ => false)))
    = price :: prices (snd (Scenario.customer_step (fun _ => false)))
    ∧ price_id price = Scenario.price (fun _ => false)
    ∧ thirty_a_week price.
Proof.
  destruct (create_price_adds_a_price (H := Scenario.runtime)
              (snd (Scenario.customer_step (fun _ => false)))
              (Scenario.price (fun _ => false))
              (snd (Scenario.price_step (fun _ => false))))
    as (price & Hprices & Hid & Hthirty & _).
  - vm_compute. reflexivity.
  - exists price. split; [exact Hprices|]. split; [exact Hid|exact Hthirty].
Defined.

Lemma checkout_succeeds_witness :
  ∃ s w',
    CreateSubscription.handler (H := Scenario.runtime) Demo.env
      Demo.checkout_request empty_world
    = (Returned {| statusCode := 200;
                   body := BodyCreated (sub_id s) (sub_client_secret s)
                             (cus_id (Scenario.customer (fun _ => false))) |},
       w')
    ∧ subscriptions w' !! sub_id s = Some s
    ∧ sub_discounts s = [].
Proof.
  destruct (checkout_succeeds (H := Scenario.runtime) Demo.env
              Demo.checkout_request Demo.checkout_body empty_world
              (Scenario.customer (fun _ => false))
              (snd (Scenario.customer_step (fun _ => false))))
    as (s & price & w' & Hrun & Hs & _ & _ & _ & _ & _ & _ & Hd).
  - exact scenario_accepts_all.
  - apply scenario_well_formed.
  - vm_compute. reflexivity.
  - exists s, w'. split; [exact Hrun|]. split; [exact Hs | exact Hd].
Defined.

Lemma coupon_resolved_once_witness :
  coupons
    (snd (promotional_coupon (H := Scenario.runtime)
            (snd Scenario.coupon_step)))
  = coupons (snd Scenario.coupon_step).
Proof.
  refine (proj1 (proj2 (coupon_resolved_once (H := Scenario.runtime)
                          empty_world "FIRST_4_WEEKS_50_OFF"
                          (snd Scenario.coupon_step)
                          (Some "FIRST_4_WEEKS_50_OFF")
                          (snd (promotional_coupon (H := Scenario.runtime)
                                  (snd Scenario.coupon_step))) _ _))).
  - vm_compute. reflexivity.
  - vm_compute. reflexivity.
Defined.

Lemma discount_attached_witness :
  ∃ s w',
    CouponInline.handler (H := Scenario.runtime) Demo.env
      Demo.checkout_request empty_world
    = (Returned {| statusCode := 200;
                   body := BodyCreated (sub_id s) (sub_client_secret s)
                             (cus_id (Scenario.customer (fun _ => false))) |},
       w')
    ∧ subscriptions w' !! sub_id s = Some s
    ∧ sub_discounts s = ["FIRST_4_WEEKS_50_OFF"].
Proof.
  destruct (discount_attached (H := Scenario.runtime) Demo.env
              Demo.checkout_request Demo.checkout_body empty_world
              (Scenario.customer (fun _ => false))
              (snd (Scenario.customer_step (fun _ => false))))
    as (s & w' & Hrun & Hs & Hd & _).
  - exact scenario_accepts_all.
  - apply scenario_well_formed.
  - vm_compute. reflexivity.
  - left. vm_compute. reflexivity.
  - exists s, w'. split; [exact Hrun|]. split; [exact Hs | exact Hd].
Defined.

Lemma subscription_failure_leaves_price_witness :
  ∃ w3,
    CreateSubscription.handler
      (H := Scenario.refusing Scenario.no_subscription_creation) Demo.env
      Demo.checkout_request empty_world
    = (Returned {| statusCode := 400;
                   body := BodyError "Failed to create subscription"
                             (Some "service unavailable") |}, w3)
    ∧ subscriptions w3 = ∅
    ∧ map price_id (prices w3) = ["price_2"].
Proof.
  set (down := Scenario.no_subscription_creation).
  set (w3 := snd (subscriptions_create (H := Scenario.refusing down)
                    {| sp_customer := cus_id (Scenario.customer down);
                       sp_items := [PriceRef (Scenario.price down)];
                       sp_payment_behavior := "default_incomplete";
                       sp_metadata := weekly_metadata "a@x.com" "A";
                       sp_discounts := [] |}
                    (snd (Scenario.price_step down)))).
  destruct (subscription_failure_leaves_price (H := Scenario.refusing down)
              Demo.env Demo.checkout_request Demo.checkout_body empty_world
              (Scenario.customer down) (snd (Scenario.customer_step down))
              (Scenario.price down) (snd (Scenario.price_step down))
              "service unavailable" w3) as (Hrun & Hsubs & _).
  - apply scenario_well_formed.
  - vm_compute. reflexivity.
  - vm_compute. reflexivity.
  - vm_compute. reflexivity.
  - exists w3. split; [exact Hrun|]. split; [exact Hsubs|].
    vm_compute. reflexivity.
Defined.

Lemma catalog_failure_stops_checkout_witness :
  CatalogCoupon.handler (H := Scenario.refusing Scenario.no_price_creation)
    Demo.env Demo.checkout_request empty_world
  = (Returned {| statusCode := 400;
                 body := BodyError "Failed to set up product pricing"
                           (Some "service unavailable") |},
     snd (reconcile_catalog
            (H := Scenario.refusing Scenario.no_price_creation)
            empty_world)).
Proof.
  refine (proj1 (catalog_failure_stops_checkout
                   (H := Scenario.refusing Scenario.no_price_creation)
                   Demo.env Demo.checkout_request Demo.checkout_body
                   empty_world "service unavailable" _ _ _)).
  - apply scenario_well_formed.
  - vm_compute. reflexivity.
Defined.

Lemma scenario_paid_1 :
  verified_payment (H := Scenario.runtime) Demo.env Demo.paid_1 "sub_1".
Proof. split; [reflexivity|]. eexists. split; reflexivity. Defined.

Lemma promotion_from_checkout_witness :
  ∃ s w',
    PromotionalRate.handler (H := Scenario.runtime) Demo.env
      Demo.checkout_request empty_world
    = (Returned {| statusCode := 200;
                   body := BodyCreated (sub_id s) (sub_client_secret s)
                             (cus_id (Scenario.customer (fun _ => false))) |},
       w')
    ∧ (∃ s3, subscriptions
               (deliver (H := Scenario.runtime) Demo.env
                  [Demo.paid_1; Demo.paid_1; Demo.paid_1] w')
               !! sub_id s = Some s3
             ∧ weeks_used s3 = Some (Num 3)
             ∧ active_price s3
               = Some (PriceInline PromotionalRate.price_data))
    ∧ ∃ s4, subscriptions
              (deliver (H := Scenario.runtime) Demo.env
                 [Demo.paid_1; Demo.paid_1; Demo.paid_1; Demo.paid_1] w')
              !! sub_id s = Some s4
            ∧ regular s4 ∧ active_price s4 = Some regular_price.
Proof.
  destruct (promotion_from_checkout (H := Scenario.runtime) Demo.env
              Demo.checkout_request Demo.checkout_body empty_world
              (Scenario.customer (fun _ => false))
              (snd (Scenario.customer_step (fun _ => false))))
    as (s & w' & Hrun & _ & _ & Hpayments).
  - exact scenario_accepts_all.
  - refine (bool_decide_unpack _ _). vm_compute. exact I.
  - apply scenario_well_formed.
  - vm_compute. reflexivity.
  - assert (Hid : sub_id s = "sub_1").
    { pose proof Hrun as Hid. vm_compute in Hid.
      injection Hid as Hid _ _. symmetry. exact Hid. }
    exists s, w'. split; [exact Hrun|]. rewrite Hid in *. split.
    + destruct (Hpayments Demo.env [Demo.paid_1; Demo.paid_1; Demo.paid_1])
        as (s3 & Hs3 & Hbelow & _).
      { repeat (apply Forall_cons_2; [exact scenario_paid_1|]).
        apply Forall_nil_2. }
      exists s3. split; [exact Hs3|]. apply Hbelow. simpl. lia.
    + destruct (Hpayments Demo.env
                  [Demo.paid_1; Demo.paid_1; Demo.paid_1; Demo.paid_1])
        as (s4 & Hs4 & _ & Hfrom).
      { repeat (apply Forall_cons_2; [exact scenario_paid_1|]).
        apply Forall_nil_2. }
      exists s4. split; [exact Hs4|]. apply Hfrom. simpl. lia.
Defined.

Lemma webhooks_agree_off_payments_witness :
  StripeWebhook.handler (H := Scenario.runtime) Demo.env Scenario.cancelled
    Demo.promotional_world
  = LoggingWebhook.handler (H := Scenario.runtime) Demo.env
      Scenario.cancelled Demo.promotional_world.
Proof.
  apply (webhooks_agree_off_payments (H := Scenario.runtime) Demo.env
           Scenario.cancelled Demo.promotional_world).
  intros ev Hev. vm_compute in Hev. injection Hev as <-. discriminate.
Defined.

Lemma coupon_beyond_hundredth_is_lost_witness :
  fst (CouponByList.createPromotionalCoupon (fun _ _ => None)
         Scenario.crowded_shelf) = None.
Proof.
  refine (proj1 (proj2 (proj2 (coupon_beyond_hundredth_is_lost
                                 (fun _ _ => None) Scenario.crowded_shelf _))
                   _ _)).
  - reflexivity.
  - vm_compute. reflexivity.
  - vm_compute. reflexivity.
Defined.

Lemma payment_needs_email_and_name_witness :
  PaymentIntent.handler (H := Scenario.runtime) Scenario.no_refusal Demo.env
    Scenario.anonymous_request Scenario.empty_ledger
  = ({| PaymentIntent.statusCode := 400;
        PaymentIntent.body :=
          PaymentIntent.BodyError "Please provide both email and name"
            None |}, Scenario.empty_ledger).
Proof.
  refine (proj1 (payment_needs_email_and_name (H := Scenario.runtime)
                   Scenario.no_refusal Demo.env Scenario.anonymous_request
                   Scenario.anonymous_body Scenario.empty_ledger
                   _ _ _ _ _ _)).
  - reflexivity.
  - reflexivity.
  - reflexivity.
  - reflexivity.
  - discriminate.
  - left. reflexivity.
Defined.

Lemma intent_parameters_defaulted_witness :
  ∃ p, PaymentIntent.requested
         (snd (PaymentIntent.handler (H := Scenario.runtime)
                 Scenario.no_refusal Demo.env Scenario.payment_request
                 Scenario.empty_ledger)) = [p]
       ∧ PaymentIntent.ip_amount p = JNum 1000.
Proof.
  destruct (intent_parameters_defaulted (H := Scenario.runtime)
              Scenario.no_refusal Demo.env Scenario.payment_request
              Scenario.empty_ledger
              (fst (PaymentIntent.handler (H := Scenario.runtime)
                      Scenario.no_refusal Demo.env Scenario.payment_request
                      Scenario.empty_ledger))
              (snd (PaymentIntent.handler (H := Scenario.runtime)
                      Scenario.no_refusal Demo.env Scenario.payment_request
                      Scenario.empty_ledger)))
    as [Hsame|(v & p & Hv & Hasked & _ & _ & _ & _ & _ & Hamount & _)].
  - apply surjective_pairing.
  - vm_compute in Hsame. discriminate Hsame.
  - exists p. split; [exact Hasked|]. apply Hamount.
    vm_compute in Hv. injection Hv as <-. reflexivity.
Defined.

Lemma payment_versions_agree_witness :
  snd (PaymentIntent.handler (H := Scenario.runtime) Scenario.card_declined
         Demo.env Scenario.payment_request Scenario.empty_ledger)
  = snd (PaymentIntent.handler_compact (H := Scenario.runtime)
           Scenario.card_declined Scenario.payment_request
           Scenario.empty_ledger).
Proof.
  refine (proj1 (payment_versions_agree (H := Scenario.runtime)
                   Scenario.card_declined Demo.env Scenario.payment_request
                   Scenario.empty_ledger _ _)).
  - reflexivity.
  - reflexivity.
Defined.
